(** * BetTrackerPro: the surebet slip parser [server/pdf/parse_pdf.py]

    A shallow embedding of the parser and the properties of its
    specification that were checked against it.

    Modelling conventions.
    - A Python [str] is a list of Unicode code points ([text]); literals are
      written as UTF-8 strings and decoded by [u].
    - The character database of the Python runtime (case mapping, [isspace],
      [isdigit], the classes behind [\d], [\w], [\s]) is not part of the
      repository: its ASCII part is written out, the part above U+007F is the
      type class [Unicode], with the instance [latin_cyrillic] for the blocks
      the gazetteer and the slips use.
    - A Python [float] is a binary64 number, held as the rational it is
      ([Q]); the rational 2^1024 stands for [inf]. [float(...)] of a numeral
      is the nearest binary64 number, ties to even; subtraction rounds the
      same way; [str(float)] is the shortest numeral that reads back as the
      float, with an exponent outside 1e-4 .. 1e16.
    - Standard output has an encoding ([Stdout]); [print] raises when the
      text has a character the encoding lacks.
    - Regular expressions are data ([Re.regex]) run by a backtracking matcher
      with the leftmost, greedy, ordered-alternative discipline of [re]. *)

From Stdlib Require Import String Ascii.
From Stdlib Require Import List NArith ZArith QArith Qabs Qround Bool Lia PeanoNat.
From Stdlib Require Import Permutation Sorted.
Import ListNotations.

Local Open Scope nat_scope.
Local Open Scope list_scope.

(** ** Text *)

Definition text := list N.

Module Utf8.

Definition cont (b : N) : N := (b - 128)%N.

(** Decoder for well-formed UTF-8; the literals of this file are the only
    inputs. *)
Fixpoint decode (bs : list N) : text :=
  match bs with
  | [] => []
  | b :: r =>
      if (b <? 128)%N then b :: decode r
      else if (b <? 224)%N then
        match r with
        | b1 :: r' => ((b - 192) * 64 + cont b1)%N :: decode r'
        | _ => []
        end
      else if (b <? 240)%N then
        match r with
        | b1 :: b2 :: r' =>
            ((b - 224) * 4096 + cont b1 * 64 + cont b2)%N :: decode r'
        | _ => []
        end
      else
        match r with
        | b1 :: b2 :: b3 :: r' =>
            ((b - 240) * 262144 + cont b1 * 4096 + cont b2 * 64 + cont b3)%N
              :: decode r'
        | _ => []
        end
  end.

Fixpoint bytes (s : string) : list N :=
  match s with
  | EmptyString => []
  | String a r => N_of_ascii a :: bytes r
  end.

End Utf8.

(** [u "..."] is the Python string written between the quotes. *)
Definition u (s : string) : text := Utf8.decode (Utf8.bytes s).

(** ** The character database *)

(** Code points above U+007F, as the Python runtime classifies them. *)
Class Unicode : Type := {
  uc_isspace : N -> bool;          (* str.isspace, the class \s *)
  uc_decimal : N -> option N;      (* value of a decimal digit, the class \d *)
  uc_isdigit : N -> bool;          (* str.isdigit *)
  uc_isupper : N -> bool;          (* str.isupper on one character *)
  uc_isalnum : N -> bool;          (* str.isalnum, the class \w *)
  uc_lower : text -> text;         (* str.lower on a string with such characters *)
  uc_ignorecase : N -> N -> bool   (* re.IGNORECASE: pattern character, text character *)
}.

Module Latin.

Definition in_range (lo hi c : N) : bool := ((lo <=? c) && (c <=? hi))%N.

Definition isspace (c : N) : bool :=
  existsb (N.eqb c)
    [0x85; 0xa0; 0x1680; 0x2028; 0x2029; 0x202f; 0x205f; 0x3000]%N
  || in_range 0x2000 0x200a c.

Definition isdigit (c : N) : bool := existsb (N.eqb c) [0xb2; 0xb3; 0xb9]%N.

Definition isupper (c : N) : bool :=
  (in_range 0xc0 0xde c && negb (c =? 0xd7)%N) || in_range 0x400 0x42f c.

Definition isalnum (c : N) : bool :=
  existsb (N.eqb c) [0xaa; 0xb2; 0xb3; 0xb5; 0xb9; 0xba]%N
  || in_range 0xbc 0xbe c
  || (in_range 0xc0 0xff c && negb (c =? 0xd7)%N && negb (c =? 0xf7)%N)
  || in_range 0x400 0x45f c.

Definition lower_char (c : N) : N :=
  if (65 <=? c)%N && (c <=? 90)%N then (c + 32)%N
  else if in_range 0xc0 0xde c && negb (c =? 0xd7)%N then (c + 32)%N
  else if in_range 0x400 0x40f c then (c + 80)%N
  else if in_range 0x410 0x42f c then (c + 32)%N
  else c.

Definition lower (s : text) : text := map lower_char s.

Definition ignorecase (p c : N) : bool := (lower_char p =? lower_char c)%N.

End Latin.

(** The Latin-1 Supplement and basic Cyrillic blocks (and the Unicode white
    space); every other code point above U+007F is an uncased symbol. *)
Definition latin_cyrillic : Unicode :=
  {| uc_isspace := Latin.isspace;
     uc_decimal := fun _ => None;
     uc_isdigit := Latin.isdigit;
     uc_isupper := Latin.isupper;
     uc_isalnum := Latin.isalnum;
     uc_lower := Latin.lower;
     uc_ignorecase := Latin.ignorecase |}.

(** ** Python's [str] methods *)

Module Py.

Definition is_ascii (c : N) : bool := (c <? 128)%N.

Definition ascii_upper (c : N) : bool := ((65 <=? c) && (c <=? 90))%N.
Definition ascii_lower (c : N) : bool := ((97 <=? c) && (c <=? 122))%N.
Definition ascii_digit (c : N) : bool := ((48 <=? c) && (c <=? 57))%N.
Definition ascii_alpha (c : N) : bool := ascii_upper c || ascii_lower c.

Definition ascii_space (c : N) : bool :=
  ((9 <=? c) && (c <=? 13))%N || ((28 <=? c) && (c <=? 32))%N.

Definition ascii_to_lower (c : N) : N :=
  if ascii_upper c then (c + 32)%N else c.

Fixpoint eqb (a b : text) : bool :=
  match a, b with
  | [], [] => true
  | x :: a', y :: b' => (x =? y)%N && eqb a' b'
  | _, _ => false
  end.

(** [s.startswith(p)] *)
Fixpoint startswith (p s : text) : bool :=
  match p, s with
  | [], _ => true
  | x :: p', y :: s' => (x =? y)%N && startswith p' s'
  | _ :: _, [] => false
  end.

Fixpoint find_from (sub s : text) (i : nat) : option nat :=
  if startswith sub s then Some i
  else match s with
       | [] => None
       | _ :: r => find_from sub r (S i)
       end.

(** [s.find(sub)]: the lowest index, or -1. *)
Definition find (sub s : text) : Z :=
  match find_from sub s 0 with
  | Some i => Z.of_nat i
  | None => (-1)%Z
  end.

(** [sub in s] *)
Definition contains (sub s : text) : bool :=
  match find_from sub s 0 with Some _ => true | None => false end.

(** [s in [a, b, ...]] *)
Definition among (s : text) (l : list text) : bool := existsb (eqb s) l.

(** [any(k in s for k in l)] *)
Definition contains_any (l : list text) (s : text) : bool :=
  existsb (fun k => contains k s) l.

(** [sep.join(l)] *)
Fixpoint join (sep : text) (l : list text) : text :=
  match l with
  | [] => []
  | [x] => x
  | x :: r => x ++ sep ++ join sep r
  end.

(** [s.split(c)] for a separator of one character. *)
Fixpoint split_char (c : N) (s : text) : list text :=
  match s with
  | [] => [[]]
  | x :: r =>
      if (x =? c)%N then [] :: split_char c r
      else match split_char c r with
           | h :: t => (x :: h) :: t
           | [] => [[x]]
           end
  end.

(** [s.split(sep)] and [s.split(sep, 1)] for a longer separator: [skip]
    counts the characters of a separator still to be passed over, [limit]
    the splits still allowed. *)
Fixpoint split_go (sep s : text) (skip : nat) (limit : option nat)
    (acc : text) : list text :=
  match s with
  | [] => [rev acc]
  | c :: r =>
      match skip with
      | S k => split_go sep r k limit acc
      | O =>
          let allowed := match limit with Some O => false | _ => true end in
          if allowed && startswith sep s then
            rev acc ::
              split_go sep r (length sep - 1)
                (match limit with Some n => Some (pred n) | None => None end) []
          else split_go sep r 0 limit (c :: acc)
      end
  end.

Definition split_sep (sep s : text) : list text := split_go sep s 0 None [].
Definition split_sep1 (sep s : text) : list text :=
  split_go sep s 0 (Some 1) [].

(** [s.replace(old, new, 1)] *)
Fixpoint replace_first (old new s : text) : text :=
  if startswith old s then new ++ skipn (length old) s
  else match s with
       | [] => []
       | c :: r => c :: replace_first old new r
       end.

(** [s.replace(c, '')] for one character. *)
Definition remove_char (c : N) (s : text) : text :=
  filter (fun x => negb (x =? c)%N) s.

Fixpoint dropwhile (p : N -> bool) (s : text) : text :=
  match s with
  | [] => []
  | c :: r => if p c then dropwhile p r else s
  end.

Section WithUnicode.
Context {U : Unicode}.

Definition isspace (c : N) : bool :=
  if is_ascii c then ascii_space c else uc_isspace c.

(** Value of a decimal digit (general category Nd). *)
Definition decimal (c : N) : option N :=
  if is_ascii c then (if ascii_digit c then Some (c - 48)%N else None)
  else uc_decimal c.

Definition isdecimal (c : N) : bool :=
  match decimal c with Some _ => true | None => false end.

(** [c.isdigit()] *)
Definition isdigit (c : N) : bool :=
  if is_ascii c then ascii_digit c else uc_isdigit c.

(** [c.isupper()] for one character. *)
Definition isupper (c : N) : bool :=
  if is_ascii c then ascii_upper c else uc_isupper c.

(** The class [\w]. *)
Definition isword (c : N) : bool :=
  if is_ascii c then ascii_alpha c || ascii_digit c || (c =? 95)%N
  else uc_isalnum c.

(** [s.lower()] *)
Definition lower (s : text) : text :=
  if forallb is_ascii s then map ascii_to_lower s else uc_lower s.

(** Comparison of a pattern character with a text character under
    [re.IGNORECASE]. *)
Definition ignorecase (p c : N) : bool :=
  if is_ascii p && is_ascii c then (ascii_to_lower p =? ascii_to_lower c)%N
  else uc_ignorecase p c.

Definition lstrip (s : text) : text := dropwhile isspace s.
Definition rstrip (s : text) : text := rev (dropwhile isspace (rev s)).

(** [s.strip()] *)
Definition strip (s : text) : text := rstrip (lstrip s).

(** [s.split()]: the maximal runs of characters that are not white space. *)
Fixpoint split_ws_go (s : text) (acc : text) : list text :=
  match s with
  | [] => match acc with [] => [] | _ => [rev acc] end
  | c :: r =>
      if isspace c then
        match acc with
        | [] => split_ws_go r []
        | _ => rev acc :: split_ws_go r []
        end
      else split_ws_go r (c :: acc)
  end.

Definition split (s : text) : list text := split_ws_go s [].

(** [any(c.isdigit() for c in s)] *)
Definition any_isdigit (s : text) : bool := existsb isdigit s.

End WithUnicode.

(** Truth value of a string. *)
Definition truthy (s : text) : bool :=
  match s with [] => false | _ => true end.

(** [s[i:]], [s[:i]], [s[i:j]] *)
Definition slice (i j : nat) (s : text) : text := firstn (j - i) (skipn i s).

End Py.

(** ** Regular expressions *)

Module Re.

Inductive regex : Type :=
| Eps
| Chr (p : N -> bool)              (* one character of a class *)
| Seq (a b : regex)
| Alt (a b : regex)                (* a|b, the left branch first *)
| Star (a : regex)                 (* a*, greedy *)
| Bol                              (* ^ *)
| Eol                              (* $ *)
| Wordb                            (* \b *)
| Grp (n : nat) (a : regex).       (* the n-th capturing group *)

(** Position in the subject, the character before it, what is left of the
    subject, and the spans of the groups closed so far. *)
Record mstate : Type := MState {
  pos : nat;
  prev : option N;
  rest : text;
  caps : list (nat * (nat * nat))
}.

Record rmatch : Type := RMatch {
  m_start : nat;
  m_end : nat;
  m_caps : list (nat * (nat * nat))
}.

Definition advance (st : mstate) (c : N) (t : text) : mstate :=
  MState (S (pos st)) (Some c) t (caps st).

Definition close_group (n : nat) (from : nat) (st : mstate) : mstate :=
  MState (pos st) (prev st) (rest st) ((n, (from, pos st)) :: caps st).

Section WithUnicode.
Context {U : Unicode}.

Definition word_at (o : option N) : bool :=
  match o with Some c => Py.isword c | None => false end.

(** Backtracking matcher in continuation-passing style: [k] is what remains
    to be matched after [r]. An iteration of [Star] has to consume a
    character, so the length of the rest bounds the number of iterations. *)
Fixpoint run (r : regex) (st : mstate) (k : mstate -> option mstate)
    {struct r} : option mstate :=
  match r with
  | Eps => k st
  | Chr p =>
      match rest st with
      | c :: t => if p c then k (advance st c t) else None
      | [] => None
      end
  | Seq a b => run a st (fun st' => run b st' k)
  | Alt a b =>
      match run a st k with
      | Some m => Some m
      | None => run b st k
      end
  | Star a =>
      (fix loop (n : nat) (st : mstate) {struct n} : option mstate :=
         match n with
         | O => k st
         | S n' =>
             match run a st (fun st' =>
                     if pos st <? pos st' then loop n' st' else None) with
             | Some m => Some m
             | None => k st
             end
         end) (S (length (rest st))) st
  | Bol => if pos st =? 0 then k st else None
  | Eol =>
      match rest st with
      | [] => k st
      | [c] => if (c =? 10)%N then k st else None
      | _ => None
      end
  | Wordb =>
      if xorb (word_at (prev st)) (word_at (hd_error (rest st)))
      then k st else None
  | Grp n a => run a st (fun st' => k (close_group n (pos st) st'))
  end.

(** A match of [r] that starts exactly at the state [st]. *)
Definition match_at (r : regex) (i : nat) (p : option N) (s : text)
    : option rmatch :=
  match run r (MState i p s []) Some with
  | Some st => Some (RMatch i (pos st) (caps st))
  | None => None
  end.

(** [re.search]: the leftmost match. [s] is the subject from position [i]. *)
Fixpoint search_from (r : regex) (i : nat) (p : option N) (s : text)
    : option rmatch :=
  match match_at r i p s with
  | Some m => Some m
  | None =>
      match s with
      | [] => None
      | c :: t => search_from r (S i) (Some c) t
      end
  end.

Definition search (r : regex) (s : text) : option rmatch :=
  search_from r 0 None s.

(** [bool(re.search(r, s))] *)
Definition found (r : regex) (s : text) : bool :=
  match search r s with Some _ => true | None => false end.

(** [re.match]: a match at the start of the subject. *)
Definition match_start (r : regex) (s : text) : option rmatch :=
  match_at r 0 None s.

(** [bool(re.match(r, s))] *)
Definition matches_start (r : regex) (s : text) : bool :=
  match match_start r s with Some _ => true | None => false end.

(** The successive non-overlapping matches, left to right; [skip] counts the
    characters of the last match still to be passed over. *)
Fixpoint matches_from (r : regex) (i : nat) (p : option N) (s : text)
    (skip : nat) : list rmatch :=
  match skip with
  | S k =>
      match s with
      | [] => []
      | c :: t => matches_from r (S i) (Some c) t k
      end
  | O =>
      match match_at r i p s with
      | Some m =>
          m :: match s with
               | [] => []
               | c :: t => matches_from r (S i) (Some c) t (m_end m - i - 1)
               end
      | None =>
          match s with
          | [] => []
          | c :: t => matches_from r (S i) (Some c) t 0
          end
      end
  end.

Definition matches (r : regex) (s : text) : list rmatch :=
  matches_from r 0 None s 0.

(** [m.group(0)] *)
Definition group0 (s : text) (m : rmatch) : text :=
  Py.slice (m_start m) (m_end m) s.

(** [m.group(n)] of a group that took part in the match. *)
Definition group (n : nat) (s : text) (m : rmatch) : text :=
  match find (fun c => fst c =? n) (m_caps m) with
  | Some (_, (a, b)) => Py.slice a b s
  | None => []
  end.

(** [re.findall] for a pattern without groups. *)
Definition findall (r : regex) (s : text) : list text :=
  map (group0 s) (matches r s).

(** [re.sub(r, repl, s)]: an empty match leaves the character after it in
    place. *)
Fixpoint sub_from (r : regex) (repl : text) (i : nat) (p : option N)
    (s : text) (skip : nat) : text :=
  match skip with
  | S k =>
      match s with
      | [] => []
      | c :: t => sub_from r repl (S i) (Some c) t k
      end
  | O =>
      match match_at r i p s with
      | Some m =>
          repl ++
            match s with
            | [] => []
            | c :: t =>
                if m_end m =? i then c :: sub_from r repl (S i) (Some c) t 0
                else sub_from r repl (S i) (Some c) t (m_end m - i - 1)
            end
      | None =>
          match s with
          | [] => []
          | c :: t => c :: sub_from r repl (S i) (Some c) t 0
          end
      end
  end.

Definition sub (r : regex) (repl s : text) : text := sub_from r repl 0 None s 0.

(** *** Pattern syntax *)

Definition chr (c : N) : regex := Chr (N.eqb c).

(** A literal string, as [re.escape] makes it. *)
Fixpoint lit (s : text) : regex :=
  match s with
  | [] => Eps
  | [c] => chr c
  | c :: r => Seq (chr c) (lit r)
  end.

(** A literal string under [re.IGNORECASE]. *)
Fixpoint lit_i (s : text) : regex :=
  match s with
  | [] => Eps
  | [c] => Chr (Py.ignorecase c)
  | c :: r => Seq (Chr (Py.ignorecase c)) (lit_i r)
  end.

Definition plus (a : regex) : regex := Seq a (Star a).
Definition opt (a : regex) : regex := Alt a Eps.

(** a{n} *)
Fixpoint times (n : nat) (a : regex) : regex :=
  match n with
  | O => Eps
  | 1 => a
  | S n' => Seq a (times n' a)
  end.

(** a{0,n}, greedy *)
Fixpoint upto (n : nat) (a : regex) : regex :=
  match n with
  | O => Eps
  | S n' => Alt (Seq a (upto n' a)) Eps
  end.

(** a{lo,hi} *)
Definition between (lo hi : nat) (a : regex) : regex :=
  Seq (times lo a) (upto (hi - lo) a).

(** a{n,} *)
Definition at_least (n : nat) (a : regex) : regex := Seq (times n a) (Star a).

Fixpoint alts (l : list regex) : regex :=
  match l with
  | [] => Eps
  | [a] => a
  | a :: r => Alt a (alts r)
  end.

Fixpoint seqs (l : list regex) : regex :=
  match l with
  | [] => Eps
  | [a] => a
  | a :: r => Seq a (seqs r)
  end.

Definition d : regex := Chr Py.isdecimal.       (* \d *)
Definition s : regex := Chr Py.isspace.         (* \s *)
Definition upper_az : regex := Chr Py.ascii_upper.   (* [A-Z] *)

(** \d+\.\d+ *)
Definition decimal_number : regex := seqs [plus d; chr 46; plus d].

End WithUnicode.

End Re.

(** ** Floats *)

Module Float.

Fixpoint pow10 (e : nat) : positive :=
  match e with
  | O => 1%positive
  | S e' => (10 * pow10 e')%positive
  end.

(** 2^e for an integer e. *)
Definition pow2 (e : Z) : Q :=
  match e with
  | Zneg p => (1 # (2 ^ p))%Q
  | _ => inject_Z (2 ^ e)
  end.

(** The e with 2^e <= n/d < 2^(e+1). *)
Definition log2_floor (n d : positive) : Z :=
  let e := (Z.log2 (Zpos n) - Z.log2 (Zpos d))%Z in
  if Qle_bool (pow2 e) (Zpos n # d) then e else (e - 1)%Z.

(** The nearest integer, a tie going to the even one. *)
Definition half_even (q : Q) : Z :=
  let f := Qfloor q in
  match Qcompare (q - inject_Z f) (1 # 2) with
  | Lt => f
  | Gt => (f + 1)%Z
  | Eq => if Z.even f then f else (f + 1)%Z
  end.

(** [inf]: binary64 has no finite number from 2^1024 on, and the rational
    2^1024 stands for infinity. It is above every finite float and equal to
    itself, as [inf] is; the operations below treat it apart. *)
Definition inf : Q := pow2 1024.

Definition is_inf (x : Q) : bool := Qeq_bool (Qabs x) inf.

(** Rounding of a positive rational to binary64, to nearest and ties to
    even: 53 significant bits, the unit in the last place never below
    2^-1074 (subnormal numbers), infinity from 2^1024 on. A rational that is
    a float is kept as it is written, another one gives a fraction in lowest
    terms. *)
Definition round_pos (q : Q) : Q :=
  match Qnum q with
  | Zpos n =>
      let e := log2_floor n (Qden q) in
      let ulp := pow2 (Z.max (e - 52) (-1074)) in
      let v := (inject_Z (half_even (q / ulp)) * ulp)%Q in
      if Qle_bool inf v then inf
      else if Qeq_bool v q then q
      else Qred v
  | _ => q
  end.

(** The float nearest to a rational. *)
Definition round (q : Q) : Q :=
  match Qnum q with
  | Zneg _ => Qopp (round_pos (Qopp q))
  | _ => round_pos q
  end.

Section WithUnicode.
Context {U : Unicode}.

(** Mantissa and number of fractional digits read so far, and whether the
    point has been passed. *)
Fixpoint digits (s : text) (m : N) (e : nat) (dot : bool) : N * nat :=
  match s with
  | [] => (m, e)
  | c :: r =>
      match Py.decimal c with
      | Some v => digits r (m * 10 + v)%N (if dot then S e else e) dot
      | None => digits r m e (dot || (c =? 46)%N)
      end
  end.

(** The rational a numeral without sign denotes. *)
Definition unsigned (s : text) : Q :=
  let '(m, e) := digits s 0%N 0 false in
  (Z.of_N m # pow10 e)%Q.

(** [float(s)] for [s] a match of -?\d+\.?\d*, the only arguments the parser
    gives it: the float nearest to the number written. *)
Definition of_text (s : text) : Q :=
  match s with
  | 45%N :: r => round (Qopp (unsigned r))
  | _ => round (unsigned s)
  end.

End WithUnicode.

Definition eqb (a b : Q) : bool := Qeq_bool a b.
Definition leb (a b : Q) : bool := Qle_bool a b.
Definition ltb (a b : Q) : bool := negb (Qle_bool b a).

(** Truth value of an optional float: [None] and [0.0] are false. *)
Definition truthy (o : option Q) : bool :=
  match o with
  | Some q => negb (eqb q 0)
  | None => false
  end.

(** [x != o], where [o] may be [None]. *)
Definition neb_opt (x : Q) (o : option Q) : bool :=
  match o with
  | Some y => negb (eqb x y)
  | None => true
  end.

(** [x - y]; [None] is nan, the difference of two equal infinities. *)
Definition sub (x y : Q) : option Q :=
  if is_inf x then
    if is_inf y && eqb x y then None else Some x
  else if is_inf y then Some (Qopp y)
  else Some (round (x - y)%Q).

(** The float of the literal 0.01. *)
Definition centesimo : Q := round (1 # 100)%Q.

(** [o and abs(x - o) < 0.01] *)
Definition near (x : Q) (o : option Q) : bool :=
  match o with
  | Some y =>
      negb (eqb y 0)
      && match sub x y with
         | Some d => ltb (Qabs d) centesimo
         | None => false
         end
  | None => false
  end.

Definition digit_char (n : N) : N := (48 + n)%N.

(** Decimal numeral of a natural number. *)
Fixpoint numeral_go (fuel : nat) (n : N) (acc : text) : text :=
  match fuel with
  | O => acc
  | S f =>
      let acc' := digit_char (n mod 10) :: acc in
      if (n <? 10)%N then acc' else numeral_go f (n / 10)%N acc'
  end.

Definition numeral (n : N) : text := numeral_go (S (N.to_nat (N.log2 n))) n [].

(** 10^e for an integer e. *)
Definition pow10z (e : Z) : Q :=
  match e with
  | Zneg p => (1 # (10 ^ p))%Q
  | _ => inject_Z (10 ^ e)
  end.

(** The place of the decimal point: the p with 10^(p-1) <= x < 10^p, for
    x > 0. No float is outside 10^-324 .. 10^309. *)
Fixpoint decpt_go (fuel : nat) (x : Q) (p : Z) : Z :=
  match fuel with
  | O => p
  | S f =>
      if Qle_bool 1 x then decpt_go f (x / 10)%Q (p + 1)%Z
      else if Qle_bool (1 # 10) x then p
      else decpt_go f (x * 10)%Q (p - 1)%Z
  end.

Definition decpt (x : Q) : Z := decpt_go 400 (Qred x) 0.

(** The numeral m * 10^(p - nd) reads back as [x]. *)
Definition reads_back (x : Q) (p : Z) (nd : nat) (m : Z) : bool :=
  eqb (round (inject_Z m * pow10z (p - Z.of_nat nd))%Q) x.

(** The shortest numeral that reads back as the float [x > 0], as the
    conversion of [repr] finds it: with [nd] digits, the two numerals around
    [x] are tried, and the nearer one is taken when both read back as [x]
    (the even one when they are equally near); [nd] grows until one does
    (17 digits always do). The result is the
    integer of the digits and the place of the point after its last digit. *)
Fixpoint shortest_go (fuel nd : nat) (x : Q) (p : Z) : Z * Z :=
  let e := (p - Z.of_nat nd)%Z in
  let s := (x / pow10z e)%Q in
  let lo := Qfloor s in
  let hi := (lo + 1)%Z in
  let nearer :=
    match Qcompare (s - inject_Z lo) (inject_Z hi - s) with
    | Lt => lo
    | Gt => hi
    | Eq => if Z.even lo then lo else hi
    end in
  match fuel with
  | O => (nearer, e)
  | S f =>
      match reads_back x p nd lo, reads_back x p nd hi with
      | true, true => (nearer, e)
      | true, false => (lo, e)
      | false, true => (hi, e)
      | false, false => shortest_go f (S nd) x p
      end
  end.

Definition shortest (x : Q) : Z * Z := shortest_go 16 1 x (decpt x).

(** The digits of [m] without the zeros at its end, and their number. *)
Fixpoint strip_zeros (fuel : nat) (m : Z) (e : Z) : Z * Z :=
  match fuel with
  | O => (m, e)
  | S f =>
      if (0 <? m)%Z && (m mod 10 =? 0)%Z then strip_zeros f (m / 10)%Z (e + 1)%Z
      else (m, e)
  end.

Definition zeros (n : Z) : text := repeat 48%N (Z.to_nat n).

(** [str(x)], which is [repr(x)]: the shortest digits that read back as
    [x]; in positional form with at least one digit after the point, or with
    an exponent of two digits at least when the point would stand more than
    16 places after the first digit or more than 4 places before it. *)
Definition to_text_pos (x : Q) : text :=
  let '(m, e) := shortest x in
  let '(m, e) := strip_zeros 20 m e in
  let ds := numeral (Z.to_N m) in
  let n := Z.of_nat (length ds) in
  let p := (e + n)%Z in
  if (p <=? -4)%Z || (16 <? p)%Z then
    let ex := (p - 1)%Z in
    let exd := numeral (Z.to_N (Z.abs ex)) in
    firstn 1 ds
    ++ match skipn 1 ds with [] => [] | r => 46%N :: r end
    ++ [101%N; if (ex <? 0)%Z then 45%N else 43%N]
    ++ match exd with [_] => 48%N :: exd | _ => exd end
  else if (p <=? 0)%Z then [48%N; 46%N] ++ zeros (- p)%Z ++ ds
  else if (n <=? p)%Z then ds ++ zeros (p - n)%Z ++ [46%N; 48%N]
  else firstn (Z.to_nat p) ds ++ [46%N] ++ skipn (Z.to_nat p) ds.

Definition to_text (x : Q) : text :=
  if eqb x 0 then [48%N; 46%N; 48%N]
  else
    let sign := match Qnum x with Zneg _ => [45%N] | _ => [] end in
    sign ++ (if is_inf x then [105%N; 110%N; 102%N] else to_text_pos (Qabs x)).

End Float.

(** ** Line reassembler: [preprocessar_linhas_quebradas] *)

Section Parser.
Context {U : Unicode}.

Definition nl : N := 10%N.
Definition sp : text := [32%N].

(** Two-letter country suffixes that are joined to the line before them. *)
Definition sufixos_pais : list text :=
  map u ["(BR)"; "(CO)"; "(PT)"; "(RO)"; "(BE)"; "(MX)"; "(UK)"; "(ZA)"; "(SE)"]%string.

(** \d+\.\d+|\d+\s+USD *)
Definition re_odds_significativos : Re.regex :=
  Re.Alt Re.decimal_number
         (Re.seqs [Re.plus Re.d; Re.plus Re.s; Re.lit (u "USD")]).

Definition separadores : list text := [[0x3009%N]; [0x25cb%N]; [0x25cf%N]].

Definition palavras_secao : list text :=
  map u ["aposta total"; "mostrar"; "use sua"; "arredondar"; "evento"; "chance"]%string.

Definition tem_odds_usd (linha_atual : text) : bool :=
  Py.contains (u "USD") linha_atual && Py.any_isdigit linha_atual.

Definition eh_continuacao (proxima_linha : text) : bool :=
  Py.truthy proxima_linha
  && negb (Re.found re_odds_significativos proxima_linha)
  && negb (Py.among proxima_linha separadores)
  && negb (Py.contains_any palavras_secao (Py.lower proxima_linha))
  && (2 <? length proxima_linha).

(** The loop over [lines]: the head of the list is [lines[i]]. *)
Fixpoint juntar_linhas (lines : list text) : list text :=
  match lines with
  | [] => []
  | l :: r =>
      let linha_atual := Py.strip l in
      if negb (Py.truthy linha_atual) then juntar_linhas r
      else
        match r with
        | n :: r' =>
            let proxima_linha := Py.strip n in
            if Py.among proxima_linha sufixos_pais then
              (linha_atual ++ sp ++ proxima_linha) :: juntar_linhas r'
            else if tem_odds_usd linha_atual && eh_continuacao proxima_linha
            then (linha_atual ++ sp ++ proxima_linha) :: juntar_linhas r'
            else linha_atual :: juntar_linhas r
        | [] => linha_atual :: juntar_linhas r
        end
  end.

Definition preprocessar_linhas_quebradas (texto : text) : text :=
  Py.join [nl] (juntar_linhas (Py.split_char nl texto)).

End Parser.

(** ** House gazetteer and detector: [detectar_casa_apostas] *)

Local Open Scope string_scope.

Definition casas_sistema : list text := map u [
    "10Bet"; "10Bet (SE)"; "10Bet (ZA)"; "10Bet (UK)"; "10Bet (MX)";
    "888Games"; "10Cric"; "188Bet"; "188Bet (PT)"; "188Bet (Sbk)";
    "188Bet (ZH)"; "HGA030 (Crown)"; "HGA035 (Crown)"; "18Bet"; "BabiBet";
    "Hollywoodbets (UK)"; "Premium Tradings"; "RoyalistPlay";
    "RoyalistPlay (Bet)"; "1Bet (CO)"; "21Red"; "Bet-Bra SB (BR)"; "BetOBet";
    "BetOBet (CC)"; "Dazzlehand"; "FoggyBet"; "OneCasino"; "Scarawins";
    "1Win (Original)"; "1xBet"; "1xBet (AG)"; "1xBet (BO)"; "1xBet (MD)";
    "1xBet (NG)"; "1xstavka (RU)"; "Betandyou"; "Linebet"; "MegaPari";
    "Oppa88"; "Pari-pesa"; "Paripesa"; "Paripesa (Asia)"; "Paripesa (Biz)";
    "Paripesa (Com)"; "Paripesa (Cool)"; "Paripesa (ME)"; "Paripesa (Net)";
    "Paripesa (NG)"; "Paripesa (PT)"; "Paripesa (Site)"; "Paripesaut";
    "SapphireBet"; "1xBet (ES)"; "1xBet (IT)"; "Fastbet (IT)"; "22Bet";
    "22Bet (CM)"; "22Bet (NG)"; "22win88"; "Bestwinzz"; "32Red";
    "Unibet (EE)"; "Unibet (IE)"; "Unibet (UK)"; "3et"; "888sport";
    "888sport (DE)"; "888sport (DK)"; "888sport (ES)"; "888sport (RO)";
    "MrGreen"; "MrGreen (DK)"; "MrGreen (SE)"; "888sport (IT)"; "AccessBet";
    "AdjaraBet"; "Admiral (AT)"; "Admiral (DE)"; "AdmiralBet (ES)";
    "AdmiralCasino (UK)"; "Swisslos (CH)"; "AdmiralBet (IT)"; "Afribet (NG)";
    "Betfred (ZA)"; "AI Sports"; "AirBet (IT)"; "AndromedaBet (IT)";
    "BetItaly (IT)"; "Akbets"; "AlfaBet (BR)"; "Aposta1 (BR)";
    "Apostaganha (BR)"; "ArtlineBet"; "AsianOdds"; "B1Bet (BR)"; "Bahigo";
    "Kakeyo"; "BaltBet (RU)"; "BandBet (BR)"; "BangBet"; "Betsure";
    "BantuBet (AO)"; "Bet2U2"; "BetBaba (NG)"; "Bet-at-home";
    "Bet-at-home (DE)"; "Bet-Bra (BR)"; "Bet25 (DK)"; "Bet3000 (DE)";
    "Bet365 (Fast)"; "28365365"; "365-808"; "365sb"; "365sport365"; "878365";
    "Allsport365"; "Bet365 (AU)"; "Bet365 (BR)"; "Bet365 (DE)"; "Bet365 (ES)";
    "Bet365 (GR)"; "Bet365 (IT)"; "Bet365 (NL)"; "Game-365 (CN)";
    "Bet365 (Full)"; "Bet4 (BR)"; "Bet4"; "Bet4 (PE)"; "Bet7"; "Bet7k (BR)";
    "B2XBET (BR)"; "BetBet (BR)"; "Cassino (BR)"; "Donald (BR)"; "Vera (BR)";
    "Bet9ja"; "Betadonis"; "Betaland (IT)"; "Betano"; "Betano (CZ)";
    "Betano (DE)"; "Betano (MX)"; "Betano (NG)"; "Betano (RO)"; "Betano (BR)";
    "Betano (PT)"; "Betao (BR)"; "BravoBet (BR)"; "Maxima (BR)"; "R7Bet (BR)";
    "XpBet (BR)"; "BetBoom (BR)"; "BetBoom"; "BetBoom (RU)"; "Betboro";
    "Betboro (GH)"; "Betcity"; "Betcity (BY)"; "Betcity (Net)";
    "Betcity (RU)"; "Formula55 (TJ)"; "Betcity (NL)"; "SpeedyBet"; "BetClic";
    "BetClic (FR)"; "BetClic (IT)"; "BetClic (PL)"; "BetClic (PT)"; "Betcris";
    "Betcris (DO)"; "Betcris (MX)"; "Betcris (PL)"; "BetDaq";
    "BetDaSorte (BR)"; "Afun (BR)"; "BetDSI (EU)"; "BetEsporte (BR)";
    "LanceDeSorte (BR)"; "Betfair"; "Betfair (AU)"; "Betfair (BR)";
    "Betfair (RO)"; "SatSport"; "Sharpxch"; "Tradexbr"; "Betfair (ES)";
    "Betfair (IT)"; "Betfair (MBR)"; "Betfair SB"; "Betfair SB (ES)";
    "Betfair SB (RO)"; "Betfarm"; "Betfirst (BE)"; "Betflip";
    "Casobet (Sport)"; "Fairspin"; "Tether"; "Betfred"; "BetiBet";
    "Betika (KE)"; "BetInAsia (Black)"; "Betinia"; "CampoBet";
    "Lottoland (UK)"; "BetKing"; "Betlive"; "Betmaster"; "BetMomo";
    "Betnacional (BR)"; "Betnation (NL)"; "BetOnline (AG)";
    "BetOnline (Classic)"; "LowVig (AG)"; "SportsBetting (AG)"; "TigerGaming";
    "BetPawa (NG)"; "BetPawa (CM)"; "BetPawa (GH)"; "BetPawa (KE)";
    "BetPawa (RW)"; "BetPawa (TZ)"; "BetPawa (UG)"; "BetPawa (ZM)";
    "BetPix365 (BR)"; "Vaidebet"; "BetRebels"; "21Bets"; "7bet (LT)";
    "All British Casino"; "ApuestaTotal"; "Bankonbet"; "BaumBet (RO)";
    "Bet593 (EC)"; "Betaki (BR)"; "Betanoshops (NG)"; "Betinia (DK)";
    "Betinia (SE)"; "BetNFlix"; "Bettarget (UK)"; "CampeonBet"; "Casinado";
    "CasinoAtlanticCity"; "Casinoly"; "Cazimbo"; "DoradoBet"; "Ecuabet";
    "ElaBet (GR)"; "EsportivaBet (BR)"; "EstrelaBet (BR)"; "EvoBet"; "FezBet";
    "FrankSports (RO)"; "GastonRed"; "Golden Palace (BE)"; "Greatwin";
    "Jogodeouro (BR)"; "Juegaenlineachile (CL)"; "JupiCasino"; "Karamba";
    "Karamba (UK)"; "Lapilanders"; "LotoGreen (BR)"; "Lottland (IE)";
    "Lottoland"; "Lottoland (AT)"; "MalinaCasino"; "Mcgames (BR)";
    "Merkurxtip (CZ)"; "Metgol (BR)"; "MiСasino"; "MrBit (BG)"; "MrBit (RO)";
    "MultiBet (BR)"; "NinjaCasino"; "Novajackpot"; "Playdoit (MX)"; "PowBet";
    "Rabona"; "RabonaBet"; "RtBet"; "SlotV (RO)"; "SONSofSLOTS"; "Spinanga";
    "Sportaza"; "StarCasinoSport (BE)"; "Supacasi"; "SvenBet"; "Svenplay";
    "ToonieBet (CA)"; "Vavada"; "Vegas (HU)"; "Wazamba"; "Winpot (MX)";
    "Betrivers (CA)"; "Betrivers (AZ)"; "Betsafe"; "Bethard"; "Betsafe (EE)";
    "Betsafe (LV)"; "Betsafe (SE)"; "Betsson"; "Bets10"; "Betsson (AR)";
    "Betsson (BR)"; "Betsson (CO)"; "Betsson (SE)"; "Inkabet (PE)";
    "Betsson (ES)"; "Betpark (BR)"; "SupremaBet (BR)"; "Betsson (FR)";
    "Betsson (GE)"; "Betsson (GR)"; "Betsmith"; "Betsson (IT)"; "Betsul (BR)";
    "Betuk (UK)"; "Betus (PA)"; "BetVictor"; "Parimatch (UK)"; "Puntit (IN)";
    "BetWarrior"; "BetWarrior (BR)"; "BetWarrior (Caba)"; "BetWarrior (MZA)";
    "BetWarrior (PBA)"; "BetWarrior Apuestas (AR)"; "LeoVegas (IT)";
    "Svenska Spel (SE)"; "BetWay"; "BetWay (DE)"; "BetWay (ES)";
    "BetWay (MX)"; "BetWay (IT)"; "Betwgb"; "AdmiralBet (ME)";
    "AdmiralBet (RS)"; "AdmiralBet (UG)"; "BetX (CZ)"; "Betxchange";
    "Bingoal (BE)"; "BallyBet"; "BetPlay (CO)"; "Bingoal (NL)";
    "Desert Diamond"; "Expekt (SE)"; "Blaze"; "4RaBet"; "4RaBet (Play)";
    "500Casino"; "Africa365"; "BC.Game"; "BetFury"; "Betonred";
    "Betonred (NG)"; "BetPlay"; "BetTilt"; "Betvip"; "Betvip (BR)"; "BilBet";
    "Bitz"; "Blaze (BR)"; "BloodMoon (CO)"; "BlueChip"; "Bons"; "CasinoX";
    "Casinozer"; "Casinozer (EU)"; "CsGo500"; "Fortunejack"; "HugeWin";
    "JetBet (BR)"; "JonBet (BR)"; "Joycasino"; "Lucky Block";
    "Lucky Block (Top)"; "Opabet"; "PinBet"; "Pokerdom"; "PuskasBet (BR)";
    "Rainbet"; "RajaBets"; "Razed"; "Riobet"; "Rivalry"; "Rollbit"; "RooBet";
    "Slots Safari (CO)"; "Solcasino"; "TrBET"; "Yonibet"; "Yonibet (EU)";
    "BoaBet"; "Bodog (EU)"; "Bovada (LV)"; "BolsaDeAposta (BR)";
    "BolsaDeAposta TB (BR)"; "BookMaker (EU)"; "JustBet (CO)"; "BookmakerXyz";
    "BoyleSports"; "Brazino 777"; "Brazino 777 (BY)"; "Brazino 777 (IO)";
    "Wazobet"; "BrBet (BR)"; "BresBet"; "Bumbet"; "Bwin"; "Betboo (BR)";
    "Betmgm (CA)"; "Betmgm (MA)"; "Betmgm (NY)"; "Bwin (BE)"; "Bwin (DE)";
    "Bwin (DK)"; "Bwin (ES)"; "Bwin (GR)"; "Bwin (IT)"; "Gamebookers";
    "Giocodigitale (IT)"; "Ladbrokes (DE)"; "Oddset (DE)"; "Partypoker";
    "Sportingbet"; "Sportingbet (BR)"; "Sportingbet (DE)"; "Sportingbet (GR)";
    "Sportingbet (ZA)"; "Vistabet (GR)"; "Bwin (FR)"; "Bwin (PT)";
    "Caliente (MX)"; "Betcha (PA)"; "Marca Apuestas (ES)"; "Wplay (CO)";
    "CampoBet (DK)"; "Casa Pariurilor (RO)"; "Fortuna (RO)";
    "CasaDeApostas (BR)"; "Betmais"; "CasinoPortugal (PT)"; "CBet";
    "CBet (LT)"; "Circus (BE)"; "Circus (NL)"; "CloudBet"; "Codere (ES)";
    "Codere (AR)"; "Codere (MX)"; "Comeon"; "Casinostugan"; "Comeon (PL)";
    "Hajper"; "Lyllo Casino"; "MobileBet"; "Nopeampi"; "Pzbuk (PL)";
    "Saga Kingdom"; "Snabbare"; "SunMaker (DE)"; "Comeon (NL)"; "CoolBet";
    "CoolBet (CL)"; "CoolBet (PE)"; "Coral (UK)"; "Crocobet";
    "CrystalBet (GE)"; "DafaBet (ES)"; "DafaBet (Sports)"; "Amperjai";
    "Nextbet"; "DafaBet OW (Saba)"; "12Bet (Saba)"; "12Bet (Saba-ID)";
    "12Bet (Saba-MY)"; "CMD368 (Saba)"; "M88 (Saba)"; "W88Live (Saba)";
    "Danskespil (DK)"; "DaznBet (ES)"; "DaznBet (UK)"; "DomusBet (IT)";
    "DoxxBet (SK)"; "Draftkings"; "Draftking (CT)"; "DragonBet (UK)";
    "DripCasino"; "Duelbits"; "Easybet (ZA)"; "Ebingo (ES)"; "BetaBet";
    "BetaBet (Net)"; "Betcoin (AG)"; "ShansBet"; "EDSBet"; "Efbet (ES)";
    "Efbet (BG)"; "Efbet (IT)"; "Efbet (RO)"; "Efbet (GR)"; "Efbet (Net)";
    "EGB"; "EGB SPORT"; "EpicBet"; "Eplay24 (IT)"; "BegameStar (IT)";
    "Betwin360 (IT)"; "SportItaliaBet (IT)"; "EsporteNetBet (BR)"; "BetsBola";
    "EsporteNetSP (BR)"; "EsporteNetVip (BR)"; "EsporteNetVip";
    "EsportesDaSorte (BR)"; "EstorilSolCasinos (PT)"; "Etipos (SK)";
    "Etopaz (AZ)"; "Etoto (PL)"; "EuroBet (IT)"; "EveryGame (EU)";
    "ExclusiveBet"; "Betfinal"; "IZIbet"; "MrXBet"; "ShangriLa";
    "UniClub (LT)"; "Expekt (DK)"; "LeoVegas (DK)"; "F12Bet (BR)";
    "SPIN (BR)"; "Fanatics"; "FanDuel"; "Betfair SB (BR)"; "FanDuel (CT)";
    "Fastbet"; "CopyBet (CY)"; "FavBet"; "FavBet (UA)"; "FB Sports"; "Fonbet";
    "BeteryBet (IN)"; "Bettery (RU)"; "Fonbet (GR)"; "Fonbet (KZ)";
    "Fonbet (Mobile)"; "Pari (RU)"; "Football (NG)"; "Fortuna (CZ)";
    "Fortuna (PL)"; "Fortuna (SK)"; "FulltBet (BR)"; "GaleraBet (BR)";
    "888Casino (Arabic)"; "Gamdom"; "GazzaBet (IT)"; "Germania (HR)"; "GGBet";
    "Freeggbet"; "Vulkan"; "Goalbet"; "GoldBetShop (IT)"; "BetFlag (IT)";
    "GoldBet (IT)"; "IntralotShop (IT)"; "Lottomatica (IT)";
    "PlanetWin365 (IT)"; "GoldenPark (ES)"; "CasinoBarcelona (ES)";
    "Solcasino (ES)"; "GoldenPark (PT)"; "GoldenVegas (BE)"; "GrandGame (BY)";
    "HiperBet (BR)"; "HKJC"; "HoliganBet (TR)"; "JojoBet";
    "Holland Casino (NL)"; "Hollywoodbets"; "Hollywoodbets (MZ)";
    "iForBet (PL)"; "Ilotbet"; "Interwetten"; "Interwetten (ES)";
    "Interwetten (GR)"; "IviBet"; "20Bet"; "Jacks (NL)"; "Expekt";
    "JetCasino"; "Flagman"; "FreshCasino"; "Rox (Sport)"; "Jokerbet (ES)";
    "JSB"; "Boltbet (GH)"; "Primabet (GM)"; "TicTacBets (ZA)"; "JugaBet (CL)";
    "Parimatch (TJ)"; "KingsBet (CZ)"; "KirolBet (ES)"; "Apuestasvalor (ES)";
    "Aupabet (ES)"; "Juegging (ES)"; "Kwiff"; "Betkwiff"; "Ladbrokes";
    "Ladbrokes (BE)"; "LeaderBet"; "Lebull (PT)"; "Leon"; "Leon (RU)"; "Twin";
    "LeoVegas"; "Betmgm (BR)"; "Williamhill (SE)"; "LeoVegas (ES)";
    "LigaStavok (RU)"; "LivescoreBet (NG)"; "SunBet (ZA)";
    "LivescoreBet (UK)"; "LivescoreBet (IE)"; "VirginBet"; "LsBet"; "KikoBet";
    "Mundoapostas"; "ReloadBet"; "SlottoJAM"; "TornadoBet"; "Luckia (ES)";
    "Luckia (CO)"; "Luckia (MX)"; "LvBet"; "LvBet (LV)"; "LvBet (PL)";
    "Mansion (M88-BTI)"; "Marathon"; "Marathon (BY)"; "Marathon (RU)"; "MBet";
    "MarathonBet (DK)"; "MarathonBet (ES)"; "MarathonBet (IT)";
    "MarjoSports (BR)"; "Marjo Sports (BR)"; "Marjo"; "Matchbook";
    "Maxbet (RS)"; "Maxbet (BA)"; "MaxLine (BY)"; "Mcbookie"; "StarSports";
    "MelBet"; "Betwinner"; "DBbet"; "MelBet (BI)"; "MelBet (KE)";
    "MelBet (MN)"; "Meridian"; "Meridian (CY)"; "Meridian (BE)";
    "Meridian (BA)"; "Meridian (ME)"; "Meridian (RS)"; "Meridian (PE)";
    "JogaBets (MZ)"; "Meridian (BR)"; "MerkurBets"; "Betcenter (BE)";
    "Cashpoint (DK)"; "MerkurBets (DE)"; "Miseojeu+"; "Misli (AZ)"; "MostBet";
    "Mozzart"; "Mozzart (BA)"; "Mozzart (NG)"; "Mozzart (RO)"; "MSport (GH)";
    "MSport (NG)"; "Mystake"; "31Bet"; "9dBet (BR)"; "Betfast";
    "Betfast (BR)"; "Donbet"; "Donbet (Win)"; "Faz1Bet (BR)"; "Freshbet";
    "Goldenbet"; "Jackbit"; "Mystake (Bet)"; "Rolletto"; "TivoBet (BR)";
    "Velobet (Win)"; "Wjcasino (BR)"; "N1Bet"; "12Play"; "CelsiusCasino";
    "Coins Game"; "Wild"; "YBets"; "NaijaBet"; "NairaBet"; "Napoleon (BE)";
    "Neobet"; "Neobet (CA)"; "Neobet (DE)"; "Neobet (ZA)"; "Nesine (TR)";
    "Bilyoner"; "Misli (Com)"; "Oley"; "NetBet"; "Bet777 (BE)"; "Bet777 (ES)";
    "NetBet (GR)"; "NetBet (BR)"; "NetBet (FR)"; "NetBet (IT)";
    "DaznBet (IT)"; "OriginalBet (IT)"; "Plexbet (IT)"; "NetBet (RO)";
    "Nike (SK)"; "NitroBetting (EU)"; "Norsk Tipping (NO)"; "Novibet (BR)";
    "Novibet (GR)"; "Novibet (IE)"; "Olimp"; "Olimp (Bet)"; "Olimpbet (KZ)";
    "Olimpkz"; "OlimpoBet (PE)"; "OlyBet (ES)"; "OlyBet (EU)"; "OlyBet (FR)";
    "FeelingBet (FR)"; "Genybet (FR)"; "OlyBet (LT)"; "Onabet (BR)";
    "Esporte365 (BR)"; "LuckBet (BR)"; "Luvabet (BR)"; "Optibet (LT)";
    "Optibet (LV)"; "Optibet (EE)"; "OrbitX"; "OrbiteX"; "Paddy Power";
    "PameStoixima (GR)"; "Parasino"; "ApxBet"; "Betonngliga"; "BigBet (BR)";
    "LiderBet (BR)"; "RealsBet (BR)"; "Parimatch (KZ)"; "BuddyBet (UA)";
    "Gra (Live)"; "ParionsSport (FR)"; "Paston (ES)"; "Br4bet (BR)";
    "SorteOnline (BR)"; "Pin-up"; "BetPlays"; "Pin-up (RU)"; "BaseBet";
    "Casino Spinamba"; "Lucky Bird Casino"; "MarsBet"; "Pin-up (EN)";
    "Slottica"; "Slotty Way"; "Winmasters"; "Winmasters (CY)";
    "Winmasters (GR)"; "Winmasters (RO)"; "Pinnacle"; "P4578 (Asian)";
    "P4578 (EU)"; "Pin135 (EU)"; "Pinnacle (Bet)"; "Pinnacle (BR)";
    "Pinnacle (SE)"; "Pinnacle888 (Asian)"; "Pinnacle888 (EU)";
    "Piwi247 (SB)"; "PS3838 (Broker)"; "Start975 (Asian)"; "Start975 (EU)";
    "Piwi247"; "PixBet (BR)"; "FlaBet (BR)"; "Pixbet285"; "Placard (PT)";
    "Playbonds"; "PlayNow"; "PMU (FR)"; "PointsBet (AU)"; "PokerStars";
    "PokerStars (DK)"; "PokerStars (RO)"; "PokerStars (FR)";
    "PokerStars (UK)"; "PokerStars (CA)"; "PokerStars (ES)";
    "PokerStars (SE)"; "PremierBet (MW)"; "MercuryBet"; "PremierBet (AO)";
    "PremierBet (CD)"; "PremierBet (CG)"; "PremierBet (CM)";
    "PremierBet (MZ)"; "PremierBet (SN)"; "PremierBet (TD)";
    "PremierBet (TZ)"; "QQ101 (BTI)"; "10Bet (KR)"; "12Bet (BTI-ID)";
    "Fun88 (IN)"; "QQ101 (IM Sports)"; "RayBet"; "Reidopitaco (BR)";
    "RetaBet (ES)"; "RetaBet (ES-AN)"; "RetaBet (PE)"; "RicoBet (BR)";
    "BetGorillas (BR)"; "KingpandaBet (BR)"; "Rivalo (BR)"; "Rivalo (CO)";
    "RuBet"; "Rushbet (CO)"; "GoldenBull (SE)"; "Rushbet (MX)"; "Sazka (CZ)";
    "Sbobet"; "Pic5678"; "SbobetAsia"; "SboTop"; "Sbobet (Esport)";
    "12Bet (Esport)"; "BTC365 (Esport)"; "VKGame"; "SeuBet (BR)"; "747 Live";
    "Shuffle"; "Sisal (IT)"; "PokerStars (IT)"; "SkyBet"; "Smarkets";
    "Snai (IT)"; "SoccaBet"; "SolisBet"; "Solverde (PT)"; "SorteNaBet (BR)";
    "Bateu (BR)"; "Betfusion (BR)"; "BullsBet (BR)"; "SportBet (IT)";
    "BetX (IT)"; "StarGame (IT)"; "SportingWin"; "Sportium (CO)";
    "Sportium (ES)"; "Sportmarket"; "SportsBet"; "SportsBet (AU)";
    "SportyBet"; "SportyBet (BR)"; "Stake"; "Stake (BR)"; "KTO (BR)";
    "Stake (CO)"; "Frumzi"; "FunBet"; "LibraBet"; "MafiaCasino"; "StoneVegas";
    "StanleyBet (BE)"; "StanleyBet (IT)"; "StanleyBet (RO)"; "Admiral (RO)";
    "StarCasino (NL)"; "Stoiximan (GR)"; "Stoiximan (CY)"; "Stoiximan (GR)";
    "STS (PL)"; "SuperBet (BR)"; "Super Bet (BR)"; "SuperBet (PL)";
    "SuperBet (RO)"; "SuperBet (RS)"; "Surebet247"; "SX Bet"; "SynotTip (LV)";
    "SynotTip (CZ)"; "SynotTip (SK)"; "Tab (AU)"; "TeApuesto (PE)";
    "TempoBet"; "Tennisi"; "Tennisi (Bet)"; "Tennisi (KZ)";
    "ThunderPickIo (NO)"; "Tipico"; "Tipico (DE)"; "Tipp3 (AT)";
    "TippmixPro (HU)"; "Tipsport (CZ)"; "Chance (CZ)"; "Tipsport (SK)";
    "Tipwin (DE)"; "Tipwin"; "Tipwin (DK)"; "Tipwin (SE)"; "TonyBet"; "Vave";
    "TonyBet (ES)"; "TonyBet (NL)"; "Topsport (LT)"; "Toto (NL)";
    "TotoGaming (AM)"; "1Win (Provider)"; "Cannonbet"; "CaptainsBet (KE)";
    "MelBet (NG)"; "MelBet (RU)"; "Sol.Casino"; "Tinbet (PE)"; "Winspirit";
    "Ubet (CY)"; "Ubet (KZ)"; "Betera (BY)"; "Unibet (DK)"; "Unibet (BE)";
    "Unibet (FI)"; "Unibet (SE)"; "Unibet (FR)"; "Unibet (RO)"; "ATG (SE)";
    "Betmgm (NL)"; "Betmgm (SE)"; "Betmgm (UK)"; "Casumo"; "Casumo (ES)";
    "GrosvenorCasinos"; "No Account Bet (SE)"; "Paf"; "Paf (ES)"; "Paf (SE)";
    "PafBet (LV)"; "Scoore (BE)"; "Unibet (AU)"; "Unibet (IT)"; "Unibet (MT)";
    "Unibet (NL)"; "VBet"; "Bets60"; "H2bet (BR)"; "Hash636"; "Uabet";
    "VBet (AM)"; "VBet (BR)"; "7Games (BR)"; "Seguro (BR)"; "VBet (FR)";
    "VBet (LAT)"; "VBet (NL)"; "VBet (UK)"; "Veikkaus (FI)"; "Versus (ES)";
    "Vivasorte (BR)"; "4Play (BR)"; "4Win (BR)"; "Ginga (BR)"; "QG (BR)";
    "Zeroum (BR)"; "Vulkan Bet"; "W88Es"; "Wildz"; "William Hill";
    "Williamhill (ES)"; "Williamhill (IT)"; "Winamax (ES)"; "Winamax (DE)";
    "Winamax (FR)"; "WinBet (BG)"; "WinBet (RO)"; "Winline (RU)"; "WolfBet";
    "WonderBet (CO)"; "WWin"; "YaassCasino (ES)"; "Yabo888"; "Yajuego (CO)";
    "YSB"; "Zamba (CO)"; "ZeBet"; "ZeBet (BE)"; "ZeBet (ES)"; "ZeBet (NL)";
    "Zenit"; "Zenit (Win)"
  ].

Local Close Scope string_scope.

Section Detector.
Context {U : Unicode}.

Definition tem_parentese (x : text) : bool := Py.contains [40%N] x.

(** The sort key (-len(x), '(' not in x), compared as Python compares
    tuples. *)
Definition chave_leb (x y : text) : bool :=
  (length y <? length x)
  || ((length x =? length y)
      && implb (negb (tem_parentese x)) (negb (tem_parentese y))).

Fixpoint inserir (x : text) (l : list text) : list text :=
  match l with
  | [] => [x]
  | y :: r => if chave_leb x y then x :: l else y :: inserir x r
  end.

(** [sorted(l, key=...)]: stable, equal keys keep the order of [l]. *)
Definition ordenar (l : list text) : list text := fold_right inserir [] l.

Definition casas_ordenadas : list text := ordenar casas_sistema.

(** re.escape(casa).replace('\ ', '\s*') *)
Fixpoint padrao_flexivel (casa : text) : Re.regex :=
  match casa with
  | [] => Re.Eps
  | c :: r =>
      Re.Seq (if (c =? 32)%N then Re.Star Re.s else Re.chr c)
             (padrao_flexivel r)
  end.

(** The test of one gazetteer entry against the lower-cased line. *)
Definition casa_na_linha (linha_lower casa : text) : bool :=
  let casa_lower_normalized := Py.lower casa in
  if tem_parentese casa_lower_normalized then
    if Py.contains (u " (") casa_lower_normalized then
      match Py.split_sep1 (u " (") casa_lower_normalized with
      | nome_base :: resto :: _ =>
          let sufixo := 40%N :: resto in
          let palavras_base := Py.split nome_base in
          let todas_palavras_presentes :=
            forallb (fun palavra => Py.contains palavra linha_lower)
                    palavras_base in
          let sufixo_presente := Py.contains sufixo linha_lower in
          if todas_palavras_presentes && sufixo_presente then
            let pos_primeira := Py.find (hd [] palavras_base) linha_lower in
            let pos_sufixo := Py.find sufixo linha_lower in
            (pos_primeira <? pos_sufixo)%Z
          else false
      | _ => false
      end
    else Py.contains casa_lower_normalized linha_lower
  else
    Re.found
      (Re.seqs [Re.Wordb; padrao_flexivel casa_lower_normalized; Re.Wordb])
      linha_lower.

(** [A-Za-z\s\(\)] *)
Definition classe_nome (c : N) : bool :=
  Py.ascii_alpha c || Py.isspace c || (c =? 40)%N || (c =? 41)%N.

(** [A-Za-z0-9()+\-≥≤\.] *)
Definition classe_tipo (c : N) : bool :=
  Py.ascii_alpha c || Py.ascii_digit c
  || existsb (N.eqb c) [40; 41; 43; 45; 0x2265; 0x2264; 46]%N.

(** ^([A-Z][A-Za-z\s\(\)]{2,30})\s+[A-Za-z0-9()+\-≥≤\.]+\s+\d+\.\d+ *)
Definition re_casa_dinamica : Re.regex :=
  Re.seqs [Re.Bol;
           Re.Grp 1 (Re.Seq Re.upper_az (Re.between 2 30 (Re.Chr classe_nome)));
           Re.plus Re.s; Re.plus (Re.Chr classe_tipo); Re.plus Re.s;
           Re.decimal_number].

(** The word is capitalised and has 3 to 15 characters. *)
Definition palavra_capitalizada_curta (palavra : text) : bool :=
  (3 <=? length palavra) && (length palavra <=? 15)
  && match palavra with c :: _ => Py.isupper c | [] => false end.

(** casa.split('(')[0].strip() *)
Definition casa_limpa (casa : text) : text :=
  Py.strip (hd [] (Py.split_char 40%N casa)).

Definition detectar_casa_apostas (linha : text) : option text :=
  let linha_lower := Py.lower linha in
  match find (casa_na_linha linha_lower) casas_ordenadas with
  | Some casa => Some casa
  | None =>
      let dinamica :=
        match Re.search re_casa_dinamica linha with
        | Some m =>
            let casa_candidata := Py.strip (Re.group 1 linha m) in
            if 3 <=? length casa_candidata then Some casa_candidata else None
        | None => None
        end in
      match dinamica with
      | Some casa_candidata => Some casa_candidata
      | None =>
          match Py.split (Py.strip linha) with
          | primeira_palavra :: _ =>
              if palavra_capitalizada_curta primeira_palavra
                 && existsb (fun casa =>
                       Py.startswith (Py.lower primeira_palavra)
                                     (Py.lower (casa_limpa casa)))
                     casas_sistema
              then Some primeira_palavra
              else None
          | [] => None
          end
      end
  end.

End Detector.

(** ** Field extractor: [processar_aposta_completa] *)

(** One bet leg: the dictionary with the keys house, odd, type, stake and
    profit; [None] is Python's [None]. *)
Record aposta : Type := Aposta {
  house : option text;
  odd : option Q;
  type : option text;
  stake : option Q;
  profit : option Q
}.

Section Extractor.
Context {U : Unicode}.

(** The class of the three symbols U+25CF, U+25CB and U+F35D. *)
Definition re_simbolo : Re.regex :=
  Re.Chr (fun c => existsb (N.eqb c) [0x25cf; 0x25cb; 0xf35d]%N).

(** (USD|BRL) *)
Definition re_moeda : Re.regex :=
  Re.Grp 1 (Re.Alt (Re.lit (u "USD")) (Re.lit (u "BRL"))).

(** The text before the first symbol, or before the first currency when there
    is no symbol, or the whole text. *)
Definition parte_antes_simbolo (texto_aposta : text) : text :=
  match Re.search re_simbolo texto_aposta with
  | Some simbolo_match =>
      Py.strip (firstn (Re.m_start simbolo_match) texto_aposta)
  | None =>
      match Re.search re_moeda texto_aposta with
      | Some moeda_match =>
          Py.strip (firstn (Re.m_start moeda_match) texto_aposta)
      | None => texto_aposta
      end
  end.

(** 1.0 <= num <= 50.0 *)
Definition odd_na_faixa (num : Q) : bool :=
  Float.leb 1 num && Float.leb num 50.

(** The loop over [reversed(numeros_antes)], left at the first value in
    range. *)
Fixpoint odd_do_fim (invertidos : list text) : option Q :=
  match invertidos with
  | [] => None
  | num_str :: r =>
      let num := Float.of_text num_str in
      if odd_na_faixa num then Some num else odd_do_fim r
  end.

Definition extrair_odd (numeros_antes : list text) : option Q :=
  match numeros_antes with
  | [] => None
  | _ :: _ =>
      let odd := odd_do_fim (rev numeros_antes) in
      if negb (Float.truthy odd)
      then Some (Float.of_text (last numeros_antes []))
      else odd
  end.

(** A number \d+\.?\d* as group 1, then \s+ and USD|BRL as group 2. *)
Definition re_stake : Re.regex :=
  Re.seqs [Re.Grp 1 (Re.seqs [Re.plus Re.d; Re.opt (Re.chr 46); Re.Star Re.d]);
           Re.plus Re.s;
           Re.Grp 2 (Re.Alt (Re.lit (u "USD")) (Re.lit (u "BRL")))].

Definition extrair_stake (texto_aposta : text) : option Q :=
  match Re.matches re_stake texto_aposta with
  | m :: _ => Some (Float.of_text (Re.group 1 texto_aposta m))
  | [] => None
  end.

(** [str(stake).replace('.', r'\.')] read as a pattern: every character of
    the numeral stands for itself, the point being escaped, but for the [+]
    that the exponent form has after its [e], which repeats that [e]. *)
Fixpoint padrao_do_numeral (stake_str : text) : Re.regex :=
  match stake_str with
  | [] => Re.Eps
  | c :: r =>
      match r with
      | 43%N :: r' => Re.Seq (Re.plus (Re.chr c)) (padrao_do_numeral r')
      | _ => Re.Seq (Re.chr c) (padrao_do_numeral r)
      end
  end.

(** The last decimal number after the place where the pattern of
    [str(stake)] is found in the text. *)
Definition profit_apos_stake (texto_aposta : text) (stake : option Q)
    : option Q :=
  match stake with
  | Some valor =>
      if Float.truthy stake then
        match Re.search (padrao_do_numeral (Float.to_text valor))
                        texto_aposta with
        | Some stake_pattern =>
            let texto_pos_stake := skipn (Re.m_end stake_pattern) texto_aposta in
            match Re.findall Re.decimal_number texto_pos_stake with
            | [] => None
            | numeros_pos_stake =>
                Some (Float.of_text (last numeros_pos_stake []))
            end
        | None => None
        end
      else None
  | None => None
  end.

(** The loop over [reversed(todos_numeros)], left at the first number that is
    neither the stake nor the odd and is below 1000. *)
Fixpoint profit_do_fim (invertidos : list text) (stake odd : option Q)
    : option Q :=
  match invertidos with
  | [] => None
  | num_str :: r =>
      let num := Float.of_text num_str in
      if Float.neb_opt num stake && Float.neb_opt num odd
         && Float.ltb num 1000
      then Some num
      else profit_do_fim r stake odd
  end.

Definition extrair_profit (texto_aposta : text) (stake odd : option Q)
    : option Q :=
  let todos_numeros := Re.findall Re.decimal_number texto_aposta in
  let profit := profit_apos_stake texto_aposta stake in
  if negb (Float.truthy profit) then
    match profit_do_fim (rev todos_numeros) stake odd with
    | Some num => Some num
    | None => profit
    end
  else profit.

Definition palavras_chave_tipo : list text :=
  map u ["acima"; "abaixo"; "total"; "over"; "under"; "mais"; "menos";
         "primeiro"; "segundo"; "tempo"; "extra"; "1º"; "2º"]%string.

(** ^-?\d+\.?\d*$ *)
Definition re_numero : Re.regex :=
  Re.seqs [Re.Bol; Re.opt (Re.chr 45); Re.plus Re.d; Re.opt (Re.chr 46);
           Re.Star Re.d; Re.Eol].

Definition moedas : list text := [u "USD"; u "BRL"].

Definition palavra_eh_chave (palavra_anterior : text) : bool :=
  let palavra_anterior_lower :=
    Py.strip (Py.remove_char 0x2264 (Py.remove_char 0x2265
                (Py.lower palavra_anterior))) in
  Py.contains_any palavras_chave_tipo palavra_anterior_lower.

(** The loop over [enumerate(palavras)]; [anterior] is [palavras[i-1]]. *)
Fixpoint filtrar_palavras (anterior : option text) (palavras : list text)
    (odd stake profit : option Q) : list text :=
  match palavras with
  | [] => []
  | palavra :: r =>
      let resto := filtrar_palavras (Some palavra) r odd stake profit in
      if Py.among palavra moedas then resto
      else
        let palavra_anterior_eh_chave :=
          match anterior with
          | Some a => palavra_eh_chave a
          | None => false
          end in
        if Re.matches_start re_numero palavra then
          let num := Float.of_text palavra in
          if palavra_anterior_eh_chave then palavra :: resto
          else if Float.near num odd then resto
          else if Float.near num stake then resto
          else if Float.near num profit then resto
          else if Float.ltb num 0 then resto
          else palavra :: resto
        else palavra :: resto
  end.

(** \b + re.escape(palavra) + \b, with re.IGNORECASE *)
Definition re_palavra (palavra : text) : Re.regex :=
  Re.seqs [Re.Wordb; Re.lit_i palavra; Re.Wordb].

Definition casas_conhecidas : list (text * list text) :=
  map (fun '(chave, palavras) => (u chave, map u palavras))
    [("estrela", ["EstrelaBet"; "Estrela"]);
     ("pinnacle", ["Pinnacle"]);
     ("marjo", ["MarjoSports"; "Marjo"; "Sports"]);
     ("super", ["SuperBet"; "Super"]);
     ("stake", ["Stake"]);
     ("kto", ["KTO"]);
     ("blaze", ["Blaze"]);
     ("multibet", ["MultiBet"; "Multi"]);
     ("bravo", ["BravoBet"; "Bravo"]);
     ("betfast", ["Betfast"]);
     ("betano", ["Betano"])]%string.

(** \s*\([A-Z]{2}\)\s* *)
Definition re_sufixo_pais : Re.regex :=
  Re.seqs [Re.Star Re.s; Re.chr 40; Re.times 2 Re.upper_az; Re.chr 41;
           Re.Star Re.s].

(** \s+ collapsed to one space, then strip *)
Definition limpar_espacos (t : text) : text :=
  Py.strip (Re.sub (Re.plus Re.s) [32%N] t).

Definition extrair_tipo (texto_aposta casa_aposta : text)
    (odd stake profit : option Q) : option text :=
  let tipo_completo := Py.strip (Py.replace_first casa_aposta [] texto_aposta) in
  let tipo_completo := Py.strip (Re.sub (Re.lit (u "(BR)")) [] tipo_completo) in
  let palavras := Py.split tipo_completo in
  let palavras_filtradas := filtrar_palavras None palavras odd stake profit in
  let tipo_aposta := Py.join [32%N] palavras_filtradas in
  let tipo_aposta :=
    Re.sub (Re.Chr (fun c => existsb (N.eqb c) [0x25cf; 0x25cb]%N)) []
           tipo_aposta in
  let tipo_aposta := Re.sub (Re.chr 0xf35d) [] tipo_aposta in
  let tipo_aposta := Py.remove_char 0x232a tipo_aposta in
  let tipo_aposta := limpar_espacos tipo_aposta in
  let tipo_aposta :=
    Py.strip
      (Re.sub (Re.seqs [Re.Chr (fun c => existsb (N.eqb c) [45; 0x2013]%N);
                        Re.Star Re.s; Re.Eol]) [] tipo_aposta) in
  let casa_sem_parenteses := Py.strip (Re.sub re_sufixo_pais [] casa_aposta) in
  let tipo_aposta := Re.sub (re_palavra casa_sem_parenteses) [] tipo_aposta in
  let casa_lower := Py.lower casa_sem_parenteses in
  let tipo_aposta :=
    match find (fun '(chave, _) => Py.contains chave casa_lower)
               casas_conhecidas with
    | Some (_, palavras) =>
        fold_left (fun t palavra => Re.sub (re_palavra palavra) [] t)
                  palavras tipo_aposta
    | None => tipo_aposta
    end in
  let tipo_aposta := limpar_espacos tipo_aposta in
  if Py.truthy tipo_aposta then Some tipo_aposta else None.

Definition processar_aposta_completa (texto_aposta casa_aposta : text)
    : aposta :=
  let numeros_antes :=
    Re.findall Re.decimal_number (parte_antes_simbolo texto_aposta) in
  let odd := extrair_odd numeros_antes in
  let stake := extrair_stake texto_aposta in
  let profit := extrair_profit texto_aposta stake odd in
  {| house := Some casa_aposta;
     odd := odd;
     type := extrair_tipo texto_aposta casa_aposta odd stake profit;
     stake := stake;
     profit := profit |}.

End Extractor.

(** ** Record assembler: [extrair_dados_pdf] *)

(** The dictionary [dados]. *)
Record dados : Type := Dados {
  date : option text;
  sport : option text;
  league : option text;
  teamA : option text;
  teamB : option text;
  bet1 : aposta;
  bet2 : aposta;
  bet3 : aposta;
  profitPercentage : option Q
}.

Definition aposta_vazia : aposta := Aposta None None None None None.

Definition dados_iniciais : dados :=
  Dados None None None None None aposta_vazia aposta_vazia aposta_vazia None.

(** What the document decoder (pdfplumber) gives for a page: its text, no
    text, or an exception. *)
Inductive pagina : Type :=
| Texto (t : text)
| SemTexto
| FalhaPagina (erro : text).

(** What [pdfplumber.open] gives for a path: the pages, or an exception. *)
Inductive documento : Type :=
| Aberto (paginas : list pagina)
| FalhaAbertura (erro : text).

(** Truth value of an optional string: [None] and the empty string are
    false. *)
Definition verdadeiro (o : option text) : bool :=
  match o with Some t => Py.truthy t | None => false end.

Definition set_date (d : dados) (v : option text) : dados :=
  Dados v (sport d) (league d) (teamA d) (teamB d) (bet1 d) (bet2 d) (bet3 d)
        (profitPercentage d).
Definition set_sport_league (d : dados) (s l : text) : dados :=
  Dados (date d) (Some s) (Some l) (teamA d) (teamB d) (bet1 d) (bet2 d)
        (bet3 d) (profitPercentage d).
Definition set_teams (d : dados) (a b : text) : dados :=
  Dados (date d) (sport d) (league d) (Some a) (Some b) (bet1 d) (bet2 d)
        (bet3 d) (profitPercentage d).
Definition set_profitPercentage (d : dados) (v : Q) : dados :=
  Dados (date d) (sport d) (league d) (teamA d) (teamB d) (bet1 d) (bet2 d)
        (bet3 d) (Some v).
Definition set_bet1 (d : dados) (a : aposta) : dados :=
  Dados (date d) (sport d) (league d) (teamA d) (teamB d) a (bet2 d) (bet3 d)
        (profitPercentage d).
Definition set_bet2 (d : dados) (a : aposta) : dados :=
  Dados (date d) (sport d) (league d) (teamA d) (teamB d) (bet1 d) a (bet3 d)
        (profitPercentage d).
Definition set_bet3 (d : dados) (a : aposta) : dados :=
  Dados (date d) (sport d) (league d) (teamA d) (teamB d) (bet1 d) (bet2 d) a
        (profitPercentage d).

Module Data.

Section WithUnicode.
Context {U : Unicode}.

(** [int(s)] on a string of decimal digits. *)
Definition int (s : text) : N := fst (Float.digits s 0%N 0 false).

Definition um_de (l : list N) : Re.regex := Re.Chr (fun c => existsb (N.eqb c) l).
Definition faixa (a b : N) : Re.regex := Re.Chr (fun c => (a <=? c)%N && (c <=? b)%N).

(** The pattern [datetime.strptime] compiles for '%Y-%m-%d %H:%M'; the groups
    1 to 5 are year, month, day, hour and minute. *)
Definition re_strptime : Re.regex :=
  Re.seqs
    [Re.Grp 1 (Re.times 4 Re.d); Re.chr 45;
     Re.Grp 2 (Re.alts [Re.Seq (Re.chr 49) (faixa 48 50);
                        Re.Seq (Re.chr 48) (faixa 49 57);
                        faixa 49 57]);
     Re.chr 45;
     Re.Grp 3 (Re.alts [Re.Seq (Re.chr 51) (faixa 48 49);
                        Re.Seq (faixa 49 50) Re.d;
                        Re.Seq (Re.chr 48) (faixa 49 57);
                        faixa 49 57;
                        Re.Seq (Re.chr 32) (faixa 49 57)]);
     Re.plus Re.s;
     Re.Grp 4 (Re.alts [Re.Seq (Re.chr 50) (faixa 48 51);
                        Re.Seq (faixa 48 49) Re.d;
                        Re.d]);
     Re.chr 58;
     Re.Grp 5 (Re.alts [Re.Seq (faixa 48 53) Re.d; Re.d])].

Definition bissexto (y : N) : bool :=
  ((y mod 4 =? 0) && (negb (y mod 100 =? 0) || (y mod 400 =? 0)))%N.

Definition dias_do_mes (y m : N) : N :=
  if (m =? 2)%N then (if bissexto y then 29 else 28)%N
  else if existsb (N.eqb m) [4; 6; 9; 11]%N then 30%N
  else 31%N.

Definition dois_digitos (n : N) : text :=
  [Float.digit_char (n / 10); Float.digit_char (n mod 10)].

(** [datetime.strptime(s, '%Y-%m-%d %H:%M').strftime('%Y-%m-%dT%H:%M')], or
    [None] where it raises ValueError. The year is printed as the C library
    of the platform prints %Y, without padding. *)
Definition reformatar (data_str : text) : option text :=
  match Re.match_start re_strptime data_str with
  | Some m =>
      if Re.m_end m =? length data_str then
        let g n := int (Re.group n data_str m) in
        let y := g 1 in
        let mo := g 2 in
        let dd := g 3 in
        if ((1 <=? y) && (1 <=? dd) && (dd <=? dias_do_mes y mo))%N then
          Some (Float.numeral y ++ [45%N] ++ dois_digitos mo ++ [45%N]
                ++ dois_digitos dd ++ [84%N] ++ dois_digitos (g 4)
                ++ [58%N] ++ dois_digitos (g 5))
        else None
      else None
  | None => None
  end.

End WithUnicode.

End Data.

Section Assembler.
Context {U : Unicode}.

(** The lines of a page: reassembled, stripped, the blank ones dropped. *)
Definition linhas_da_pagina (texto : text) : list text :=
  filter Py.truthy
    (map Py.strip (Py.split_char nl (preprocessar_linhas_quebradas texto))).

(** *** Date *)

(** An opening parenthesis and, as group 1, \d{4}-\d{2}-\d{2}\s+\d{2}:\d{2} *)
Definition re_data : Re.regex :=
  Re.seqs [Re.chr 40;
           Re.Grp 1 (Re.seqs [Re.times 4 Re.d; Re.chr 45; Re.times 2 Re.d;
                              Re.chr 45; Re.times 2 Re.d; Re.plus Re.s;
                              Re.times 2 Re.d; Re.chr 58; Re.times 2 Re.d])].

Definition extrair_data (linhas : list text) (d : dados) : dados :=
  match find (fun linha => Py.contains (u "Evento") linha
                           && Py.contains [40%N] linha) linhas with
  | Some linha =>
      match Re.search re_data linha with
      | Some match_data =>
          let data_str := Py.strip (Re.group 1 linha match_data) in
          match Data.reformatar data_str with
          | Some dt => set_date d (Some dt)
          | None => d
          end
      | None => d
      end
  | None => d
  end.

(** *** Teams and profit percentage *)

Definition travessao : N := 0x2013%N.

(** (\d+\.\d+)%\s*$ *)
Definition re_percent : Re.regex :=
  Re.seqs [Re.Grp 1 Re.decimal_number; Re.chr 37; Re.Star Re.s; Re.Eol].

Definition extrair_times (linhas : list text) (d : dados) : dados :=
  match find (fun linha =>
                Py.contains [travessao] linha && Py.contains [37%N] linha
                && negb (Py.contains (u "ROI") linha)
                && negb (Py.contains (u "Evento") linha)) linhas with
  | Some linha =>
      let match_percent := Re.search re_percent linha in
      let d :=
        match match_percent with
        | Some m => set_profitPercentage d (Float.of_text (Re.group 1 linha m))
        | None => d
        end in
      let linha_times :=
        match match_percent with
        | Some m => Py.strip (firstn (Re.m_start m) linha)
        | None => linha
        end in
      if Py.contains [travessao] linha_times then
        match Py.split_char travessao linha_times with
        | a :: b :: _ => set_teams d (Py.strip a) (Py.strip b)
        | _ => d
        end
      else d
  | None => d
  end.

(** *** Sport and league *)

Definition esportes : list text :=
  map u ["futebol"; "football"; "soccer";
         "basquete"; "basketball"; "basquetebol";
         "tênis"; "tennis";
         "hóquei"; "hockey"; "hoquei";
         "beisebol"; "beisebal"; "baseball";
         "voleibol"; "volleyball"; "vôlei"; "volei";
         "handball"; "handebol";
         "rugby";
         "cricket";
         "futsal"]%string.

Definition barra : text := u " / ".

(** Index of the first line that satisfies [p], as [enumerate] counts. *)
Fixpoint indice_de (p : text -> bool) (linhas : list text) (i : nat)
    : option nat :=
  match linhas with
  | [] => None
  | linha :: r => if p linha then Some i else indice_de p r (S i)
  end.

(** The anchor [indice_times]: [None] is the source's -1. *)
Definition indice_times (linhas : list text) (d : dados) : option nat :=
  indice_de (fun linha =>
               match teamA d, teamB d with
               | Some a, Some b =>
                   Py.truthy a && Py.contains a linha
                   && Py.truthy b && Py.contains b linha
               | _, _ => false
               end) linhas 0.

(** abs(i - indice_times) > 5 *)
Definition longe (i it : nat) : bool := (5 <? i - it) || (5 <? it - i).

Fixpoint esporte_conhecido (linhas : list text) (i : nat) (it : option nat)
    (d : dados) : dados :=
  match linhas with
  | [] => d
  | linha :: r =>
      if match it with Some k => longe i k | None => false end
      then esporte_conhecido r (S i) it d
      else if Py.contains barra linha
              && Py.contains_any esportes (Py.lower linha)
      then
        match Py.split_sep barra linha with
        | p0 :: p1 :: ps =>
            set_sport_league d (Py.strip p0)
                             (Py.strip (Py.join barra (p1 :: ps)))
        | _ => d
        end
      else esporte_conhecido r (S i) it d
  end.

Definition marcadores_outras_secoes : list text :=
  [u "Evento"; u "ROI"; [travessao]; [37%N]; u "USD"; u "BRL"; u "Chance";
   u "Aposta"].

(** \d+\.\d{2,} *)
Definition re_odds_2_decimais : Re.regex :=
  Re.seqs [Re.plus Re.d; Re.chr 46; Re.at_least 2 Re.d].

(** The loop over range(indice_times + 1, min(indice_times + 4, len(linhas))):
    [linhas] starts at the index [i], [n] indices are left. *)
Fixpoint esporte_generico (n : nat) (linhas : list text) (d : dados) : dados :=
  match n, linhas with
  | S n', linha :: r =>
      if Py.contains barra linha
         && negb (Py.contains_any marcadores_outras_secoes linha)
         && negb (Re.found re_odds_2_decimais linha)
      then
        match Py.split_sep barra linha with
        | p0 :: p1 :: ps =>
            let possivel_esporte := Py.strip p0 in
            let possivel_liga := Py.strip (Py.join barra (p1 :: ps)) in
            if (length possivel_esporte <? 30) && Py.truthy possivel_esporte
               && negb (Re.found (Re.at_least 2 Re.d) possivel_esporte)
            then set_sport_league d possivel_esporte possivel_liga
            else esporte_generico n' r d
        | _ => esporte_generico n' r d
        end
      else esporte_generico n' r d
  | _, _ => d
  end.

Definition extrair_esporte (linhas : list text) (d : dados) : dados :=
  let it := indice_times linhas d in
  let d := esporte_conhecido linhas 0 it d in
  match it with
  | Some k =>
      if negb (verdadeiro (sport d)) && verdadeiro (teamA d)
      then esporte_generico 3 (skipn (k + 1) linhas) d
      else d
  | None => d
  end.

End Assembler.

(** *** Bet segmenter: the leg loop of [extrair_dados_pdf] *)

Section Segmenter.
Context {U : Unicode}.

(** Truth value of what the detector returns. *)
Definition casa_detectada (o : option text) : bool := verdadeiro o.

(** Separator lines passed over while a house name is completed. *)
Definition linhas_separadoras : list text :=
  [[0x3009%N]; [0x25cb%N]; [0x25cf%N]; [0xf35d%N]; u "new"].

Definition marcas_financeiras_casa : list text :=
  [u "USD"; u "BRL"; [0x25cf%N]; [0x25cb%N]; [0xf35d%N]].

Definition marcas_financeiras : list text :=
  [u "USD"; u "BRL"; [0x25cf%N]; [0x25cb%N]].

(** ^\([A-Z]{2}\)$ *)
Definition re_pais : Re.regex :=
  Re.seqs [Re.Bol; Re.chr 40; Re.times 2 Re.upper_az; Re.chr 41; Re.Eol].

Definition plural (w : string) : Re.regex :=
  Re.Seq (Re.lit (u w)) (Re.opt (Re.chr 115)).

(** \b(gol|time|cantos?|escanteios?|acima|abaixo)\b *)
Definition re_palavra_tipo : Re.regex :=
  Re.seqs [Re.Wordb;
           Re.Grp 1 (Re.alts [Re.lit (u "gol"); Re.lit (u "time");
                              plural "canto"; plural "escanteio";
                              Re.lit (u "acima"); Re.lit (u "abaixo")]);
           Re.Wordb].

(** \b(gol|time|cantos?|escanteios?|resultado|final|tempo|minuto|chute|corner|
    primeiro|segundo|1º|2º|over|under|acima|abaixo|casa|fora|empate|handicap)\b *)
Definition re_continuacao_tipo : Re.regex :=
  Re.seqs [Re.Wordb;
           Re.Grp 1 (Re.alts
             ([Re.lit (u "gol"); Re.lit (u "time"); plural "canto";
               plural "escanteio"]
              ++ map (fun w => Re.lit (u w))
                   ["resultado"; "final"; "tempo"; "minuto"; "chute"; "corner";
                    "primeiro"; "segundo"; "1º"; "2º"; "over"; "under";
                    "acima"; "abaixo"; "casa"; "fora"; "empate";
                    "handicap"]%string));
           Re.Wordb].

Definition fim_de_secao : list text :=
  map u ["Aposta total"; "Mostrar"; "Use sua"; "Arredondar"]%string.

(** State of the loop that completes the house name: the cursor, the
    fragments, the set [linhas_usadas_fragmentos] and the dictionary
    [linhas_parcialmente_usadas]. *)
Record fragmentos : Type := Fragmentos {
  fr_j : nat;
  fragmentos_casa : list text;
  linhas_usadas_fragmentos : list nat;
  linhas_parcialmente_usadas : list (nat * text)
}.

Definition usar_linha (st : fragmentos) (frag : text) (resto : option text)
    : fragmentos :=
  let j := fr_j st in
  Fragmentos (S j) (fragmentos_casa st ++ [frag])
             (j :: linhas_usadas_fragmentos st)
             (match resto with
              | Some r => (j, r) :: linhas_parcialmente_usadas st
              | None => linhas_parcialmente_usadas st
              end).

Definition primeira_maiuscula (s : text) : bool :=
  match s with c :: _ => Py.isupper c | [] => false end.

(** The first inner loop: at most three lines after [i] are looked at. *)
Fixpoint completar_casa (fuel : nat) (linhas : list text) (i : nat)
    (st : fragmentos) : fragmentos :=
  match fuel with
  | O => st
  | S fuel' =>
      let j := fr_j st in
      if (j <? length linhas) && (j <? i + 4) then
        let proxima_linha := Py.strip (nth j linhas []) in
        if negb (Py.truthy proxima_linha)
           || Py.among proxima_linha linhas_separadoras
        then completar_casa fuel' linhas i
               (Fragmentos (S j) (fragmentos_casa st)
                           (linhas_usadas_fragmentos st)
                           (linhas_parcialmente_usadas st))
        else if Py.contains_any marcas_financeiras_casa proxima_linha
                || Re.found Re.decimal_number proxima_linha
        then st
        else if length proxima_linha <? 30 then
          let nova_casa := detectar_casa_apostas proxima_linha in
          if negb (casa_detectada nova_casa) then
            if Re.matches_start re_pais proxima_linha
            then completar_casa fuel' linhas i (usar_linha st proxima_linha None)
            else if (length (Py.split proxima_linha) =? 1)
                    && primeira_maiuscula proxima_linha
            then completar_casa fuel' linhas i (usar_linha st proxima_linha None)
            else if primeira_maiuscula proxima_linha then
              let palavras := Py.split proxima_linha in
              let primeira := hd [] palavras in
              if primeira_maiuscula primeira
                 && negb (Re.found re_palavra_tipo (Py.lower primeira))
              then
                let resto := Py.join [32%N] (tl palavras) in
                completar_casa fuel' linhas i
                  (usar_linha st primeira
                     (if Py.truthy resto then Some resto else None))
              else st
            else st
          else st
        else st
      else st
  end.

(** casa_encontrada.split()[0] if casa_encontrada else "" *)
Definition casa_base (casa : text) : text :=
  if Py.truthy casa then hd [] (Py.split casa) else [].

(** The correction for a fragmented "Marjo Sports (BR)". *)
Definition corrigir_marjo (linhas : list text) (i j : nat) (casa : text)
    : text :=
  if Py.startswith (u "Marjo") casa && negb (Py.contains (u "Sports") casa)
  then
    if existsb (Py.contains (u "Sports"))
               (firstn (Nat.min j (length linhas) - i) (skipn i linhas))
    then u "Marjo Sports (BR)"
    else casa
  else casa.

Definition debug_nova_casa (casa_atual_base primeira_palavra proxima_linha : text)
    : text :=
  u "DEBUG: Detectada NOVA CASA! casaAtual=" ++ casa_atual_base
    ++ u " novaDetectada=" ++ primeira_palavra
    ++ u " linha=" ++ firstn 50 proxima_linha.

(** State of the second inner loop: the cursor, the text of the leg, and the
    lines written to the diagnostic stream. *)
Record corpo : Type := Corpo {
  co_j : nat;
  texto_aposta : text;
  co_stderr : list text
}.

(** The second inner loop: the body of the leg, at most up to line [i + 7]. *)
Fixpoint acumular_corpo (fuel : nat) (linhas : list text) (i : nat)
    (casa_encontrada : text) (fr : fragmentos) (st : corpo) : corpo :=
  match fuel with
  | O => st
  | S fuel' =>
      let j := co_j st in
      if (j <? length linhas) && (j <? i + 8) then
        let proxima_linha := nth j linhas [] in
        if existsb (Nat.eqb j) (linhas_usadas_fragmentos fr) then
          let texto :=
            match find (fun e => fst e =? j) (linhas_parcialmente_usadas fr) with
            | Some (_, resto) => texto_aposta st ++ sp ++ resto
            | None => texto_aposta st
            end in
          acumular_corpo fuel' linhas i casa_encontrada fr
            (Corpo (S j) texto (co_stderr st))
        else
          let nova_por_palavra :=
            match Py.split (Py.strip proxima_linha) with
            | primeira_palavra :: _ =>
                if palavra_capitalizada_curta primeira_palavra
                   && negb (Re.found Re.decimal_number proxima_linha)
                   && casa_detectada (detectar_casa_apostas primeira_palavra)
                   && negb (Py.eqb (Py.lower (casa_base casa_encontrada))
                                   (Py.lower primeira_palavra))
                then Some primeira_palavra
                else None
            | [] => None
            end in
          match nova_por_palavra with
          | Some primeira_palavra =>
              Corpo j (texto_aposta st)
                    (co_stderr st
                     ++ [debug_nova_casa (casa_base casa_encontrada)
                                         primeira_palavra proxima_linha])
          | None =>
              let casa_na_proxima := detectar_casa_apostas proxima_linha in
              let outra_casa :=
                match casa_na_proxima with
                | Some c =>
                    Py.truthy c
                    && negb (Py.eqb (Py.lower (casa_base casa_encontrada))
                                    (Py.lower (casa_base c)))
                | None => false
                end in
              if outra_casa then st
              else if Py.contains_any fim_de_secao proxima_linha then st
              else
                let tem_dados_financeiros :=
                  Py.contains_any marcas_financeiras proxima_linha
                  || Re.found Re.decimal_number proxima_linha in
                let eh_continuacao_tipo :=
                  Re.found re_continuacao_tipo (Py.lower proxima_linha) in
                let eh_linha_curta := length (Py.split proxima_linha) <=? 6 in
                if tem_dados_financeiros
                   || (eh_continuacao_tipo && eh_linha_curta)
                then acumular_corpo fuel' linhas i casa_encontrada fr
                       (Corpo (S j) (texto_aposta st ++ sp ++ proxima_linha)
                              (co_stderr st))
                else st
          end
      else st
  end.

(** if aposta and aposta['house'] and aposta['odd'] *)
Definition aceitar (a : aposta) : option aposta :=
  if verdadeiro (house a) && Float.truthy (odd a) then Some a else None.

(** What one leg leaves: the cursor after it, the leg when it is accepted,
    the diagnostics. *)
Record perna : Type := Perna {
  pe_j : nat;
  pe_aposta : option aposta;
  pe_stderr : list text
}.

(** One leg that starts at line [i] with the detected house [casa]. *)
Definition segmentar_aposta (linhas : list text) (i : nat) (casa : text)
    : perna :=
  let linha := nth i linhas [] in
  let fr := completar_casa 3 linhas i (Fragmentos (i + 1) [] [] []) in
  let j := fr_j fr in
  let casa_encontrada :=
    match fragmentos_casa fr with
    | [] => casa
    | fs => casa ++ sp ++ Py.join sp fs
    end in
  let casa_encontrada := corrigir_marjo linhas i j casa_encontrada in
  let co := acumular_corpo 8 linhas i casa_encontrada fr (Corpo j linha []) in
  Perna (co_j co)
        (aceitar (processar_aposta_completa (texto_aposta co) casa_encontrada))
        (co_stderr co).

(** The loop [while i < len(linhas)]: the accepted legs in detection order
    and the diagnostics. Every turn moves the cursor forward, so the number
    of lines bounds the number of turns. *)
Fixpoint extrair_apostas (fuel : nat) (linhas : list text) (i : nat)
    : list aposta * list text :=
  match fuel with
  | O => ([], [])
  | S fuel' =>
      if i <? length linhas then
        let linha := nth i linhas [] in
        match detectar_casa_apostas linha with
        | Some casa =>
            if Py.truthy casa then
              let pe := segmentar_aposta linhas i casa in
              let resto := extrair_apostas fuel' linhas (pe_j pe) in
              (match pe_aposta pe with
               | Some a => a :: fst resto
               | None => fst resto
               end,
               pe_stderr pe ++ snd resto)
            else extrair_apostas fuel' linhas (S i)
        | None => extrair_apostas fuel' linhas (S i)
        end
      else ([], [])
  end.

Definition apostas_encontradas (linhas : list text) : list aposta * list text :=
  extrair_apostas (length linhas) linhas 0.

End Segmenter.

(** *** Pages and early termination *)

(** What a call gives: a value or an exception. *)
Inductive resultado (A : Type) : Type :=
| Retorno (a : A)
| Excecao (e : text).
Arguments Retorno {A} a.
Arguments Excecao {A} e.

Section Pages.
Context {U : Unicode}.

(** One turn of the page loop on a page with text: the updated record, the
    number [bets_detected] of legs accepted on the page, the diagnostics. *)
Definition processar_pagina (texto : text) (d : dados)
    : dados * nat * list text :=
  let linhas := linhas_da_pagina texto in
  let d := extrair_data linhas d in
  let d := extrair_times linhas d in
  let d := extrair_esporte linhas d in
  let '(apostas, err) := apostas_encontradas linhas in
  let d := match apostas with a :: _ => set_bet1 d a | _ => d end in
  let d := match apostas with _ :: a :: _ => set_bet2 d a | _ => d end in
  let d := match apostas with _ :: _ :: a :: _ => set_bet3 d a | _ => d end in
  (d, length apostas, err).

(** The test that ends the page loop. *)
Definition dados_suficientes (d : dados) (bets_detected : nat) : bool :=
  verdadeiro (teamA d) && verdadeiro (teamB d)
  && verdadeiro (house (bet1 d)) && verdadeiro (house (bet2 d))
  && ((bets_detected <? 3) || verdadeiro (house (bet3 d))).

Definition erro_pdf (e : text) : text := u "Erro ao processar PDF: " ++ e.

(** The loop over [pdf.pages[:2]] inside the [try]: an exception of the
    decoder ends it, with its message on the diagnostic stream. The last
    component counts the pages whose text was processed. *)
Fixpoint processar_paginas (paginas : list pagina) (d : dados)
    : dados * list text * nat :=
  match paginas with
  | [] => (d, [], 0)
  | FalhaPagina e :: _ => (d, [erro_pdf e], 0)
  | SemTexto :: r => processar_paginas r d
  | Texto texto :: r =>
      if negb (Py.truthy texto) then processar_paginas r d
      else
        let '(d, bets_detected, err) := processar_pagina texto d in
        if dados_suficientes d bets_detected then (d, err, 1)
        else
          let '(d, err', n) := processar_paginas r d in
          (d, err ++ err', S n)
  end.

(** The record, the lines written to the diagnostic stream and the number of
    pages processed. The handler of the function catches every exception, so
    the call returns. *)
Definition extrair_dados_pdf (abrir : text -> documento) (caminho_pdf : text)
    : resultado dados * list text * nat :=
  match abrir caminho_pdf with
  | Aberto paginas =>
      let '(d, err, n) := processar_paginas (firstn 2 paginas) dados_iniciais in
      (Retorno d, err, n)
  | FalhaAbertura e => (Retorno dados_iniciais, [erro_pdf e], 0)
  end.

End Pages.

(** ** The program: [main] *)

Set Warnings "-register-all".
Inductive json : Type :=
| JNull
| JNum (x : Q)
| JStr (t : text)
| JObj (campos : list (string * json)).

Definition json_str (o : option text) : json :=
  match o with Some t => JStr t | None => JNull end.
Definition json_num (o : option Q) : json :=
  match o with Some x => JNum x | None => JNull end.

Local Open Scope string_scope.

Definition json_aposta (a : aposta) : json :=
  JObj [("house", json_str (house a)); ("odd", json_num (odd a));
        ("type", json_str (type a)); ("stake", json_num (stake a));
        ("profit", json_num (profit a))].

Definition json_dados (d : dados) : json :=
  JObj [("date", json_str (date d)); ("sport", json_str (sport d));
        ("league", json_str (league d)); ("teamA", json_str (teamA d));
        ("teamB", json_str (teamB d)); ("bet1", json_aposta (bet1 d));
        ("bet2", json_aposta (bet2 d)); ("bet3", json_aposta (bet3 d));
        ("profitPercentage", json_num (profitPercentage d))].

Definition json_aposta_vazia : json :=
  JObj [("house", JNull); ("odd", JNull); ("type", JNull); ("stake", JNull);
        ("profit", JNull)].

(** The structure printed by the handler of [main]. *)
Definition dados_vazio : json :=
  JObj [("date", JNull); ("sport", JNull); ("league", JNull);
        ("teamA", JNull); ("teamB", JNull); ("bet1", json_aposta_vazia);
        ("bet2", json_aposta_vazia); ("profitPercentage", JNull)].

Local Close Scope string_scope.

(** What a run leaves behind: the objects printed on standard output, the
    lines of the diagnostic stream, the exit status. *)
Record saida : Type := Saida {
  stdout : list json;
  stderr : list text;
  status : Z
}.

(** [json.dumps(j, ensure_ascii=False)] *)
Module Json.

Definition hex_digit (n : N) : N :=
  if (n <? 10)%N then (48 + n)%N else (87 + n)%N.

(** [n] as [k] hexadecimal digits. *)
Fixpoint hex (k : nat) (n : N) : text :=
  match k with
  | O => []
  | S k' => hex k' (n / 16)%N ++ [hex_digit (n mod 16)]
  end.

(** One character inside a string: the quote, the backslash and the control
    characters are escaped, every other character is written as it is. *)
Definition escape (c : N) : text :=
  if (c =? 34)%N then [92; 34]%N
  else if (c =? 92)%N then [92; 92]%N
  else if (c =? 10)%N then [92; 110]%N
  else if (c =? 13)%N then [92; 114]%N
  else if (c =? 9)%N then [92; 116]%N
  else if (c =? 8)%N then [92; 98]%N
  else if (c =? 12)%N then [92; 102]%N
  else if (c <? 32)%N then [92; 117]%N ++ hex 4 c
  else [c].

Definition quoted (t : text) : text := [34%N] ++ flat_map escape t ++ [34%N].

Definition number (x : Q) : text :=
  if Float.is_inf x then
    match Qnum x with
    | Zneg _ => u "-Infinity"
    | _ => u "Infinity"
    end
  else Float.to_text x.

Fixpoint dumps (j : json) : text :=
  match j with
  | JNull => u "null"
  | JNum x => number x
  | JStr t => quoted t
  | JObj campos =>
      [123%N]
      ++ Py.join (u ", ")
           (map (fun campo : string * json =>
                   quoted (u (fst campo)) ++ u ": " ++ dumps (snd campo))
                campos)
      ++ [125%N]
  end.

End Json.

(** The text encoding of standard output: the characters above U+007F it
    has, its name, and what it says of a character it does not have. Every
    encoding has the characters up to U+007F. *)
Class Stdout : Type := {
  out_has : N -> bool;
  out_codec : text;
  out_reason : text
}.

(** UTF-8 has every character but the surrogates. *)
Definition utf8 : Stdout :=
  {| out_has := fun c => negb ((0xd800 <=? c) && (c <=? 0xdfff))%N;
     out_codec := u "utf-8";
     out_reason := u "surrogates not allowed" |}.

(** Windows code page 1252: Latin-1 from U+00A0 on and 27 more characters. *)
Definition cp1252 : Stdout :=
  {| out_has := fun c =>
       ((0xa0 <=? c) && (c <=? 0xff))%N
       || existsb (N.eqb c)
            [0x20ac; 0x201a; 0x0192; 0x201e; 0x2026; 0x2020; 0x2021; 0x02c6;
             0x2030; 0x0160; 0x2039; 0x0152; 0x017d; 0x2018; 0x2019; 0x201c;
             0x201d; 0x2022; 0x2013; 0x2014; 0x02dc; 0x2122; 0x0161; 0x203a;
             0x0153; 0x017e; 0x0178]%N;
     out_codec := u "charmap";
     out_reason := u "character maps to <undefined>" |}.

Section Main.
Context {U : Unicode} {Sd : Stdout}.

Definition uso : text := u "Uso: python parse_pdf.py <caminho_do_pdf>".

Definition codifica (c : N) : bool := (c <? 128)%N || out_has c.

(** The place of the first character that cannot be encoded. *)
Fixpoint primeiro_erro (t : text) (i : nat) : option (nat * text) :=
  match t with
  | [] => None
  | c :: r => if codifica c then primeiro_erro r (S i) else Some (i, t)
  end.

(** The number of characters at the start of a text that cannot be
    encoded. *)
Fixpoint sem_codigo (t : text) : nat :=
  match t with
  | c :: r => if codifica c then 0 else S (sem_codigo r)
  | [] => 0
  end.

Definition repr_char (c : N) : text :=
  if (c <=? 0xff)%N then u "\x" ++ Json.hex 2 c
  else if (c <=? 0xffff)%N then u "\u" ++ Json.hex 4 c
  else u "\U" ++ Json.hex 8 c.

Definition decimal_nat (n : nat) : text := Float.numeral (N.of_nat n).

(** [str(e)] of the UnicodeEncodeError for the run of characters at [i]. *)
Definition erro_de_codificacao (i : nat) (t : text) : text :=
  match sem_codigo t, t with
  | 1, c :: _ =>
      u "'" ++ out_codec ++ u "' codec can't encode character '"
      ++ repr_char c ++ u "' in position " ++ decimal_nat i ++ u ": "
      ++ out_reason
  | n, _ =>
      u "'" ++ out_codec ++ u "' codec can't encode characters in position "
      ++ decimal_nat i ++ u "-" ++ decimal_nat (i + n - 1) ++ u ": "
      ++ out_reason
  end.

(** [print(t)] on standard output: the text is encoded as a whole, and a
    character the encoding does not have raises UnicodeEncodeError before
    anything is written. The stream is taken to be open. *)
Definition print (t : text) : resultado unit :=
  match primeiro_erro t 0 with
  | None => Retorno tt
  | Some (i, r) => Excecao (erro_de_codificacao i r)
  end.

(** [argv] is [sys.argv], the name of the script first. The call of the
    record assembler and the [print] of its record are inside the [try];
    the handler prints an object of ASCII characters. *)
Definition main (abrir : text -> documento) (argv : list text) : saida :=
  if negb (length argv =? 2) then Saida [] [uso] 1
  else
    let caminho_pdf := nth 1 argv [] in
    let fatal (err : list text) (e : text) :=
      Saida [dados_vazio] (err ++ [u "Erro fatal: " ++ e]) 1 in
    match extrair_dados_pdf abrir caminho_pdf with
    | (Retorno d, err, _) =>
        match print (Json.dumps (json_dados d)) with
        | Retorno _ => Saida [json_dados d] err 0
        | Excecao e => fatal err e
        end
    | (Excecao e, err, _) => fatal err e
    end.

End Main.

(** A text in which the quotation marks are written as apostrophes. *)
Definition aspas (s : string) : text :=
  map (fun c => if (c =? 39)%N then 34%N else c) (u s).

(** Standard output has every character of the text. *)
Definition imprimivel {Sd : Stdout} (t : text) : bool := forallb codifica t.

(** The record the assembler returns for a path. *)
Definition registro_de {U : Unicode} (abrir : text -> documento)
    (caminho_pdf : text) : dados :=
  match extrair_dados_pdf abrir caminho_pdf with
  | (Retorno d, _, _) => d
  | (Excecao _, _, _) => dados_iniciais
  end.

(** ** The specification's own words *)

Section Specified.
Context {U : Unicode}.

(** A bullet or record-separator glyph: U+25CF, U+25CB or U+F35D. *)
Definition glifo (c : N) : bool :=
  ((c =? 0x25cf) || (c =? 0x25cb) || (c =? 0xf35d))%N.

Definition comeca_com_glifo (s : text) : bool :=
  match s with
  | c :: _ => glifo c
  | [] => false
  end.

(** The text starts with a currency token. *)
Definition comeca_com_moeda (s : text) : bool :=
  Py.startswith (u "USD") s || Py.startswith (u "BRL") s.

(** The text before the first place from which [p] holds of the text. *)
Fixpoint antes_de (p : text -> bool) (s : text) : option text :=
  if p s then Some []
  else match s with
       | [] => None
       | c :: t => option_map (cons c) (antes_de p t)
       end.

(** Split point (section 4.5 of the specification): the descriptive part is
    the text before the first glyph; without a glyph, the text before the
    first currency token; without either, the whole text. *)
Definition parte_descritiva (texto : text) : text :=
  match antes_de comeca_com_glifo texto with
  | Some antes => antes
  | None =>
      match antes_de comeca_com_moeda texto with
      | Some antes => antes
      | None => texto
      end
  end.

(** Odd (section 4.5 of the specification): scanning the decimal numbers of
    the descriptive part from the end, the first value within [1.0, 50.0];
    the last decimal number found when none is in range. *)
Definition odd_especificada (numeros : list Q) : option Q :=
  match find (fun x => Qle_bool 1 x && Qle_bool x 50) (rev numeros) with
  | Some x => Some x
  | None => hd_error (rev numeros)
  end.




(** The first character, when there is one, is not white space. *)
Definition inicio_limpo (s : text) : bool :=
  match s with
  | [] => true
  | c :: _ => negb (Py.isspace c)
  end.

(** A logical line: not empty, no white space at either end, no line
    break inside. *)
Definition linha_logica (l : text) : Prop :=
  l <> [] /\ inicio_limpo l = true /\ inicio_limpo (rev l) = true
  /\ ~ In nl l.

(** Rule 2 or rule 3 of the reassembler would join the line [b] to the line
    [a] before it. *)
Definition par_juntavel (a b : text) : bool :=
  Py.among (Py.strip b) sufixos_pais
  || (tem_odds_usd (Py.strip a) && eh_continuacao (Py.strip b)).

Fixpoint sem_pares_juntaveis (linhas : list text) : bool :=
  match linhas with
  | a :: r =>
      match r with
      | b :: _ => negb (par_juntavel a b) && sem_pares_juntaveis r
      | [] => true
      end
  | [] => true
  end.

End Specified.

(** What the detector returns for a gazetteer entry: the entry, or for the
    two entries that have a longer spaced variant, that variant. *)
Definition variante_detectada (h : text) : text :=
  if Py.eqb h (u "SuperBet (BR)") then u "Super Bet (BR)"
  else if Py.eqb h (u "MarjoSports (BR)") then u "Marjo Sports (BR)"
  else h.

Definition detecta_variante (U : Unicode) (h : text) : bool :=
  match detectar_casa_apostas h with
  | Some c => Py.eqb c (variante_detectada h)
  | None => false
  end.

(** A slip of three legs on two pages: on the first page the third leg has
    its house and its stake but no odd. *)
Definition pagina_1 : text :=
  Py.join [nl]
    [u "Evento (2024-05-10 18:30)";
     u "Flamengo – Palmeiras 2.35%";
     u "Futebol / Brasil - Serie A";
     u "Pinnacle Casa 2.10 ● 100.00 USD 5.00";
     u "Betano (BR) Empate 3.40 ● 60.00 USD 5.00";
     u "Stake Fora ● 50.00 USD 5.00"].

Definition pagina_2 : text := u "Stake Fora 4.00 ● 50.00 USD 5.00".

(** A slip of two legs with team names in Cyrillic letters. *)
Definition pagina_cirilica : text :=
  Py.join [nl]
    [u "Evento (2024-05-10 18:30)";
     u "Спартак – Зенит 2.35%";
     u "Futebol / Russia - Premier";
     u "Pinnacle Casa 2.10 ● 100.00 USD 5.00";
     u "Betano (BR) Empate 3.40 ● 60.00 USD 5.00"].

Definition slip_cirilico (caminho_pdf : text) : documento :=
  Aberto [Texto pagina_cirilica].

(** The lines of a leg whose house line is followed by a line of two words:
    the first word goes into the house name and the rest of the line is
    saved in [linhas_parcialmente_usadas]. *)
Definition linhas_com_resto : list text :=
  [u "Pinnacle"; u "Xyzabc escanteios"; u "2.10 ● 100.00 USD 5.00"].

Definition slip_de_tres_apostas (caminho_pdf : text) : documento :=
  Aberto [Texto pagina_1; Texto pagina_2].

(** A decoder for which no path names a file. *)
Definition sem_arquivo (caminho_pdf : text) : documento :=
  FalhaAbertura (u "[Errno 2] No such file or directory: 'missing.pdf'").

(** ** Vocabulary of the further properties *)

(** The characters of a text that are not white space, in order. *)
Definition visiveis {U : Unicode} (s : text) : text :=
  filter (fun c => negb (Py.isspace c)) s.

(** The sort key of the gazetteer as one number: larger comes first. *)
Definition peso (x : text) : nat :=
  2 * length x + (if tem_parentese x then 1 else 0).

(** [x] may stand before [y] in the sorted gazetteer. *)
Definition antes (x y : text) : Prop := peso y <= peso x.

(** An optional number that is not negative. *)
Definition nao_negativo (o : option Q) : Prop :=
  forall x, o = Some x -> (0 <= x)%Q.

(** A leg as the caller accepts it: a house, an odd above zero, and no
    negative stake or profit. *)
Definition aposta_aceita (a : aposta) : Prop :=
  verdadeiro (house a) = true
  /\ (exists o, odd a = Some o /\ (0 < o)%Q)
  /\ nao_negativo (stake a) /\ nao_negativo (profit a).

(** A leg of the record: never filled, or accepted. *)
Definition aposta_bem_formada (a : aposta) : Prop :=
  a = aposta_vazia \/ aposta_aceita a.

(** An optional string without white space at its ends. *)
Definition campo_limpo {U : Unicode} (o : option text) : Prop :=
  forall t, o = Some t -> Py.strip t = t.

(** What holds of every record the assembler builds. *)
Definition registro_bem_formado {U : Unicode} (d : dados) : Prop :=
  aposta_bem_formada (bet1 d) /\ aposta_bem_formada (bet2 d)
  /\ aposta_bem_formada (bet3 d)
  /\ (teamA d = None <-> teamB d = None)
  /\ (sport d = None <-> league d = None)
  /\ campo_limpo (teamA d) /\ campo_limpo (teamB d)
  /\ campo_limpo (sport d) /\ campo_limpo (league d)
  /\ nao_negativo (profitPercentage d).

(** A page without text, or with white space only. *)
Definition pagina_em_branco {U : Unicode} (p : pagina) : Prop :=
  match p with
  | Texto t => visiveis t = []
  | SemTexto => True
  | FalhaPagina _ => False
  end.

(** The record [d'] differs from [d] at most in sport and league, which are
    then both set, stripped. *)
Definition same_but_sport {U : Unicode} (d d' : dados) : Prop :=
  date d' = date d /\ teamA d' = teamA d /\ teamB d' = teamB d
  /\ bet1 d' = bet1 d /\ bet2 d' = bet2 d /\ bet3 d' = bet3 d
  /\ profitPercentage d' = profitPercentage d
  /\ ((sport d' = sport d /\ league d' = league d)
      \/ exists a b, sport d' = Some (Py.strip a) /\ league d' = Some (Py.strip b)).

(** The state after the longest run of characters of the class [p] at the
    start of [s], the rest of the state [st]. *)
Fixpoint avancar (p : N -> bool) (st : Re.mstate) (s : text) : Re.mstate :=
  match s with
  | c :: t => if p c then avancar p (Re.advance st c t) t else st
  | [] => st
  end.

(** What the matcher does on [p*] followed by [k]: the longest run first,
    then the shorter ones. *)
Fixpoint estrela (p : N -> bool) (k : Re.mstate -> option Re.mstate)
    (st : Re.mstate) (s : text) : option Re.mstate :=
  match s with
  | c :: t =>
      if p c then
        match estrela p k (Re.advance st c t) t with
        | Some m => Some m
        | None => k st
        end
      else k st
  | [] => k st
  end.

(** The number of decimal digits at the start of a text. *)
Fixpoint digitos {U : Unicode} (s : text) : nat :=
  match s with
  | c :: t => if Py.isdecimal c then S (digitos t) else 0
  | [] => 0
  end.

(** The length of the decimal number at the start of a text: digits, a
    point, digits, each run as long as it can be. *)
Definition decimal_at {U : Unicode} (s : text) : option nat :=
  match digitos s with
  | O => None
  | S a =>
      match skipn (S a) s with
      | c :: r =>
          if (46 =? c)%N then
            match digitos r with
            | O => None
            | S b => Some (S a + 1 + S b)
            end
          else None
      | [] => None
      end
  end.

(** A character that is no part of a decimal number. *)
Definition sem_numero {U : Unicode} (c : N) : Prop :=
  Py.isdecimal c = false /\ (46 =? c)%N = false.

(** The decimal numbers of a text, left to right; [skip] counts the
    characters of the last one still to be passed over. *)
Fixpoint numeros_go {U : Unicode} (s : text) (skip : nat) : list text :=
  match skip with
  | S k =>
      match s with
      | [] => []
      | _ :: t => numeros_go t k
      end
  | O =>
      match decimal_at s with
      | Some n =>
          firstn n s :: match s with
                        | [] => []
                        | _ :: t => numeros_go t (n - 1)
                        end
      | None =>
          match s with
          | [] => []
          | _ :: t => numeros_go t 0
          end
      end
  end.

(** The decimal numbers of a text (section 4.5 of the specification): the
    runs of digits, a point and digits, each as long as it can be, from left
    to right. *)
Definition numeros_decimais {U : Unicode} (s : text) : list text :=
  numeros_go s 0.

(** The numbers of the capturing groups of a pattern. *)
Fixpoint grupos (r : Re.regex) : list nat :=
  match r with
  | Re.Seq a b | Re.Alt a b => grupos a ++ grupos b
  | Re.Star a => grupos a
  | Re.Grp n a => n :: grupos a
  | _ => []
  end.

(** The state [st'] has the groups of [st] and, before them, groups with
    numbers among [gs]. *)
Definition mais_grupos (gs : list nat) (st st' : Re.mstate) : Prop :=
  exists novos,
    Re.caps st' = novos ++ Re.caps st
    /\ Forall (fun c => In (fst c) gs) novos.

(** * Properties *)

(** ** Strings *)

Lemma eqb_eq (a b : text) : Py.eqb a b = true <-> a = b.
Proof.
  revert b; induction a as [|x a IH]; intros [|y b]; simpl; split;
    try congruence; try reflexivity.
  - intros H. apply andb_true_iff in H as [Hx Ha].
    apply N.eqb_eq in Hx. apply IH in Ha. congruence.
  - intros H. injection H as -> ->. rewrite N.eqb_refl.
    apply IH. reflexivity.
Qed.

Lemma eqb_refl (a : text) : Py.eqb a a = true.
Proof. apply eqb_eq. reflexivity. Qed.

(** ** Field extractor *)

Section ExtractorFacts.
Context {U : Unicode}.

Lemma odd_do_fim_find (l : list text) :
  odd_do_fim l = find odd_na_faixa (map Float.of_text l).
Proof.
  induction l as [|s l IH]; simpl; [reflexivity|].
  destruct (odd_na_faixa (Float.of_text s)); [reflexivity | exact IH].
Qed.

Lemma profit_do_fim_find (l : list text) (stake odd : option Q) :
  profit_do_fim l stake odd
  = find (fun x => Float.neb_opt x stake && Float.neb_opt x odd
                   && Float.ltb x 1000) (map Float.of_text l).
Proof.
  induction l as [|s l IH]; simpl; [reflexivity|].
  destruct (Float.neb_opt (Float.of_text s) stake
            && Float.neb_opt (Float.of_text s) odd
            && Float.ltb (Float.of_text s) 1000); [reflexivity | exact IH].
Qed.

Lemma odd_na_faixa_truthy (x : Q) :
  odd_na_faixa x = true -> Float.truthy (Some x) = true.
Proof.
  unfold odd_na_faixa, Float.truthy, Float.leb, Float.eqb. intros H.
  apply andb_true_iff in H as [H1 _]. apply Qle_bool_iff in H1.
  apply negb_true_iff. destruct (Qeq_bool x 0) eqn:E; [|reflexivity].
  apply Qeq_bool_iff in E. rewrite E in H1.
  exfalso. revert H1. unfold Qle; simpl. lia.
Qed.

Lemma last_hd_rev {A} (l : list A) (x d : A) :
  last (x :: l) d = hd d (rev (x :: l)).
Proof.
  revert x. induction l as [|y l IH]; intros x; [reflexivity|].
  change (last (x :: y :: l) d) with (last (y :: l) d). rewrite IH.
  simpl. destruct (rev l ++ [y]) eqn:E; [|reflexivity].
  destruct (rev l); discriminate.
Qed.

Lemma extrair_odd_especificada (numeros_antes : list text) :
  extrair_odd numeros_antes
  = odd_especificada (map Float.of_text numeros_antes).
Proof.
  destruct numeros_antes as [|s l]; [reflexivity|].
  unfold extrair_odd, odd_especificada.
  rewrite odd_do_fim_find, map_rev.
  change (fun x : Q => Qle_bool 1 x && Qle_bool x 50) with odd_na_faixa.
  destruct (find odd_na_faixa (rev (map Float.of_text (s :: l)))) eqn:F.
  - apply find_some in F as [_ F]. rewrite (odd_na_faixa_truthy _ F).
    reflexivity.
  - simpl Float.truthy. cbn [negb].
    rewrite (last_hd_rev l s []), <- map_rev.
    destruct (rev (s :: l)) eqn:E; [|reflexivity].
    simpl in E. destruct (rev l); discriminate.
Qed.

End ExtractorFacts.

(** ** The matcher on decimal numbers and on the split point *)

Section MatcherFacts.
Context {U : Unicode}.

Lemma run_star_chr (p : N -> bool) (k : Re.mstate -> option Re.mstate)
    (st : Re.mstate) :
  Re.run (Re.Star (Re.Chr p)) st k = estrela p k st (Re.rest st).
Proof.
  change (Re.run (Re.Star (Re.Chr p)) st k) with
    ((fix loop (n : nat) (st : Re.mstate) {struct n} : option Re.mstate :=
        match n with
        | O => k st
        | S n' =>
            match Re.run (Re.Chr p) st (fun st' =>
                    if Re.pos st <? Re.pos st' then loop n' st' else None) with
            | Some m => Some m
            | None => k st
            end
        end) (S (length (Re.rest st))) st).
  set (loop := fix loop (n : nat) (st : Re.mstate) {struct n}
                  : option Re.mstate :=
        match n with
        | O => k st
        | S n' =>
            match Re.run (Re.Chr p) st (fun st' =>
                    if Re.pos st <? Re.pos st' then loop n' st' else None) with
            | Some m => Some m
            | None => k st
            end
        end).
  assert (L : length (Re.rest st) < S (length (Re.rest st))) by lia.
  revert L. generalize (S (length (Re.rest st))) as n. intros n.
  remember (Re.rest st) as s eqn:Es. revert st Es n.
  induction s as [|c t IH]; intros st Es n L.
  - destruct n as [|n]; [reflexivity|].
    change (loop (S n) st) with
      (match Re.run (Re.Chr p) st (fun st' =>
               if Re.pos st <? Re.pos st' then loop n st' else None) with
       | Some m => Some m
       | None => k st
       end).
    cbn [Re.run]. rewrite <- Es. reflexivity.
  - destruct n as [|n]; [simpl in L; lia|].
    change (loop (S n) st) with
      (match Re.run (Re.Chr p) st (fun st' =>
               if Re.pos st <? Re.pos st' then loop n st' else None) with
       | Some m => Some m
       | None => k st
       end).
    cbn [Re.run estrela]. rewrite <- Es.
    destruct (p c); [|reflexivity].
    assert (P : (Re.pos st <? Re.pos (Re.advance st c t)) = true)
      by (apply Nat.ltb_lt; simpl; lia).
    rewrite P. rewrite (IH (Re.advance st c t) eq_refl n);
      [reflexivity | simpl in L; lia].
Qed.

(** When what follows cannot start on a character of the class, the run is
    the longest one. *)
Lemma estrela_greedy (p : N -> bool) (k : Re.mstate -> option Re.mstate) :
  (forall st c t, Re.rest st = c :: t -> p c = true -> k st = None) ->
  forall s st, Re.rest st = s -> estrela p k st s = k (avancar p st s).
Proof.
  intros Hk. induction s as [|c t IH]; intros st Es; [reflexivity|].
  cbn [estrela avancar]. destruct (p c) eqn:Pc; [|reflexivity].
  rewrite (IH (Re.advance st c t) eq_refl).
  destruct (k (avancar p (Re.advance st c t) t)); [reflexivity|].
  exact (Hk st c t Es Pc).
Qed.

(** When what follows accepts the state after the longest run, that is the
    result. *)
Lemma estrela_accept (p : N -> bool) (k : Re.mstate -> option Re.mstate) :
  (forall st, k st = Some st) ->
  forall s st, estrela p k st s = Some (avancar p st s).
Proof.
  intros Hk. induction s as [|c t IH]; intros st; cbn [estrela avancar];
    [apply Hk|].
  destruct (p c); [|apply Hk]. rewrite IH. reflexivity.
Qed.

Lemma avancar_pos (s : text) :
  forall st, Re.pos (avancar Py.isdecimal st s) = Re.pos st + digitos s.
Proof.
  induction s as [|c t IH]; intros st; cbn [avancar digitos]; [lia|].
  destruct (Py.isdecimal c); [|lia]. rewrite IH. simpl. lia.
Qed.

Lemma avancar_rest (s : text) :
  forall st, Re.rest st = s ->
    Re.rest (avancar Py.isdecimal st s) = skipn (digitos s) s.
Proof.
  induction s as [|c t IH]; intros st Es; cbn [avancar digitos];
    [exact Es|].
  destruct (Py.isdecimal c); [|exact Es]. apply IH. reflexivity.
Qed.

Lemma avancar_caps (s : text) :
  forall st, Re.caps (avancar Py.isdecimal st s) = Re.caps st.
Proof.
  induction s as [|c t IH]; intros st; cbn [avancar]; [reflexivity|].
  destruct (Py.isdecimal c); [|reflexivity]. rewrite IH. reflexivity.
Qed.

Lemma point_not_decimal (c : N) : Py.isdecimal c = true -> (46 =? c)%N = false.
Proof.
  intros H. destruct (N.eqb_spec 46 c) as [<-|]; [discriminate | reflexivity].
Qed.

Lemma run_seq (a b : Re.regex) (st : Re.mstate)
    (k : Re.mstate -> option Re.mstate) :
  Re.run (Re.Seq a b) st k = Re.run a st (fun st' => Re.run b st' k).
Proof. reflexivity. Qed.

Lemma run_chr (p : N -> bool) (st : Re.mstate)
    (k : Re.mstate -> option Re.mstate) :
  Re.run (Re.Chr p) st k
  = match Re.rest st with
    | c :: t => if p c then k (Re.advance st c t) else None
    | [] => None
    end.
Proof. reflexivity. Qed.

(** A match of \d+\.\d+ at a position is the decimal number that starts
    there. *)
Lemma match_at_decimal (i : nat) (prev : option N) (s : text) :
  Re.match_at Re.decimal_number i prev s
  = option_map (fun n => Re.RMatch i (i + n) []) (decimal_at s).
Proof.
  unfold Re.match_at, Re.decimal_number, Re.seqs, Re.plus, Re.d, Re.chr,
    decimal_at.
  rewrite !run_seq, run_chr. cbn [Re.rest].
  destruct s as [|c t]; [reflexivity|]. cbn [digitos].
  destruct (Py.isdecimal c) eqn:Dc; [|reflexivity].
  rewrite run_star_chr. cbn [Re.advance Re.rest].
  rewrite estrela_greedy; [| |reflexivity].
  2: { intros st c' t' E D. rewrite run_seq, run_chr, E.
       rewrite (point_not_decimal c' D). reflexivity. }
  rewrite run_seq, run_chr.
  rewrite avancar_rest by reflexivity. cbn [skipn].
  destruct (skipn (digitos t) t) as [|c1 r] eqn:Er; [reflexivity|].
  destruct (46 =? c1)%N; [|reflexivity].
  rewrite run_seq, run_chr. cbn [Re.advance Re.rest].
  destruct r as [|c2 r2]; [reflexivity|]. cbn [digitos].
  destruct (Py.isdecimal c2) eqn:D2; [|reflexivity].
  rewrite run_star_chr. cbn [Re.advance Re.rest].
  rewrite estrela_accept by reflexivity.
  cbn [option_map]. rewrite ?avancar_pos, ?avancar_caps.
  cbn [Re.pos Re.caps Re.advance]. rewrite ?avancar_pos, ?avancar_caps.
  cbn [Re.pos Re.caps Re.advance].
  f_equal. f_equal. lia.
Qed.

Lemma skipn_cons_tail (i : nat) (s0 : text) (c : N) (t : text) :
  skipn i s0 = c :: t -> skipn (S i) s0 = t.
Proof.
  revert s0. induction i as [|i IH]; intros [|x s0] H; try discriminate.
  - injection H as _ ->. reflexivity.
  - simpl in H. apply IH in H. exact H.
Qed.

(** [re.findall] of \d+\.\d+ lists the decimal numbers of the text. *)
Lemma matches_from_numeros (s0 : text) :
  forall (s : text) (i : nat) (prev : option N) (skip : nat),
    skipn i s0 = s ->
    map (Re.group0 s0) (Re.matches_from Re.decimal_number i prev s skip)
    = numeros_go s skip.
Proof.
  induction s as [|c t IH]; intros i prev skip Es.
  - destruct skip as [|skip]; [|reflexivity].
    cbn [Re.matches_from numeros_go]. rewrite match_at_decimal.
    reflexivity.
  - pose proof (skipn_cons_tail i s0 c t Es) as Et.
    destruct skip as [|skip]; cbn [Re.matches_from numeros_go];
      [|apply IH; exact Et].
    rewrite match_at_decimal.
    destruct (decimal_at (c :: t)) as [n|]; cbn [option_map map];
      [|apply IH; exact Et].
    f_equal.
    + unfold Re.group0, Py.slice. cbn [Re.m_start Re.m_end]. rewrite Es.
      f_equal. lia.
    + cbn [Re.m_end]. replace (i + n - i - 1) with (n - 1) by lia.
      apply IH. exact Et.
Qed.

Lemma findall_numeros (s : text) :
  Re.findall Re.decimal_number s = numeros_go s 0.
Proof.
  unfold Re.findall, Re.matches. apply matches_from_numeros. reflexivity.
Qed.

End MatcherFacts.

(** ** The decimal numbers of a text and the white space around it *)

Section NumberFacts.
Context {U : Unicode}.

Lemma digitos_le (s : text) : digitos s <= length s.
Proof.
  induction s as [|c t IH]; simpl; [lia|].
  destruct (Py.isdecimal c); simpl; lia.
Qed.

Lemma digitos_app (s w : text) : digitos w = 0 -> digitos (s ++ w) = digitos s.
Proof.
  intros W. induction s as [|c t IH]; [exact W|]. simpl.
  destruct (Py.isdecimal c); [rewrite IH|]; reflexivity.
Qed.

Lemma decimal_at_le (s : text) (n : nat) :
  decimal_at s = Some n -> n <= length s.
Proof.
  unfold decimal_at. destruct (digitos s) as [|a] eqn:A; [discriminate|].
  destruct (skipn (S a) s) as [|c r] eqn:E; [discriminate|].
  destruct (46 =? c)%N; [|discriminate].
  destruct (digitos r) as [|b] eqn:B; [discriminate|].
  intros H. injection H as <-.
  pose proof (digitos_le r) as Lr. rewrite B in Lr.
  pose proof (length_skipn (S a) s) as Ls. rewrite E in Ls. simpl in Ls.
  lia.
Qed.

(** Text that starts neither on a digit nor on a point does not change the
    decimal number before it. *)
Lemma decimal_at_app (s w : text) :
  digitos w = 0 ->
  (forall c r, w = c :: r -> (46 =? c)%N = false) ->
  decimal_at (s ++ w) = decimal_at s.
Proof.
  intros W P. unfold decimal_at. rewrite (digitos_app s w W).
  destruct (digitos s) as [|a] eqn:A; [reflexivity|].
  pose proof (digitos_le s) as Ls. rewrite A in Ls.
  rewrite skipn_app. replace (S a - length s) with 0 by lia.
  change (skipn 0 w) with w.
  destruct (skipn (S a) s) as [|c r]; cbn [app].
  - destruct w as [|c r]; [reflexivity|].
    rewrite (P c r eq_refl). reflexivity.
  - rewrite (digitos_app r w W). reflexivity.
Qed.

Lemma numeros_go_none (w : text) :
  Forall sem_numero w -> forall skip, numeros_go w skip = [].
Proof.
  induction 1 as [|c w [D _] _ IH]; intros [|skip]; try reflexivity.
  - cbn [numeros_go]. unfold decimal_at. cbn [digitos]. rewrite D. apply IH.
  - cbn [numeros_go]. apply IH.
Qed.

Lemma numeros_go_leading (pre t : text) :
  Forall sem_numero pre -> numeros_go (pre ++ t) 0 = numeros_go t 0.
Proof.
  induction 1 as [|c w [D _] _ IH]; [reflexivity|].
  cbn [app numeros_go]. unfold decimal_at. cbn [digitos]. rewrite D.
  exact IH.
Qed.

Lemma numeros_go_trailing (w : text) :
  Forall sem_numero w ->
  forall s skip, numeros_go (s ++ w) skip = numeros_go s skip.
Proof.
  intros W.
  assert (W0 : digitos w = 0).
  { destruct W as [|c w [D _] _]; [reflexivity|]. simpl. rewrite D.
    reflexivity. }
  assert (WP : forall c r, w = c :: r -> (46 =? c)%N = false).
  { intros c r ->. inversion W as [|? ? [_ P] _]. exact P. }
  induction s as [|c t IH]; intros skip.
  - cbn [app]. rewrite (numeros_go_none w W). destruct skip; reflexivity.
  - change ((c :: t) ++ w) with (c :: (t ++ w)).
    destruct skip as [|skip]; [|cbn [numeros_go]; apply IH].
    cbn [numeros_go]. change (c :: (t ++ w)) with ((c :: t) ++ w).
    rewrite (decimal_at_app (c :: t) w W0 WP).
    destruct (decimal_at (c :: t)) as [n|] eqn:E; [|apply IH].
    apply decimal_at_le in E. f_equal; [|apply IH].
    rewrite firstn_app.
    replace (n - length (c :: t)) with 0 by lia.
    change (firstn 0 w) with (@nil N). apply app_nil_r.
Qed.

Lemma dropwhile_prefix (p : N -> bool) (s : text) :
  exists pre, s = pre ++ Py.dropwhile p s /\ Forall (fun c => p c = true) pre.
Proof.
  induction s as [|c r (pre & E & F)]; [exists []; split; [reflexivity|constructor]|].
  simpl. destruct (p c) eqn:Pc.
  - exists (c :: pre). split; [simpl; rewrite <- E; reflexivity|].
    constructor; assumption.
  - exists []. split; [reflexivity | constructor].
Qed.

(** A text is its stripped text between two runs of white space. *)
Lemma strip_between (t : text) :
  exists pre w,
    t = pre ++ Py.strip t ++ w
    /\ Forall (fun c => Py.isspace c = true) pre
    /\ Forall (fun c => Py.isspace c = true) w.
Proof.
  unfold Py.strip, Py.rstrip, Py.lstrip.
  destruct (dropwhile_prefix Py.isspace t) as (pre & E & F).
  set (t1 := Py.dropwhile Py.isspace t) in *.
  destruct (dropwhile_prefix Py.isspace (rev t1)) as (pre' & E' & F').
  exists pre, (rev pre'). repeat split; [|exact F|apply Forall_rev; exact F'].
  rewrite <- rev_app_distr, <- E', rev_involutive. exact E.
Qed.

Hypothesis espaco_nao_digito :
  forall c, Py.isspace c = true -> Py.isdecimal c = false.

Lemma espaco_sem_numero (w : text) :
  Forall (fun c => Py.isspace c = true) w -> Forall sem_numero w.
Proof.
  intros F. eapply Forall_impl; [|exact F]. intros c H. split.
  - apply espaco_nao_digito. exact H.
  - destruct (N.eqb_spec 46 c) as [<-|]; [discriminate | reflexivity].
Qed.

(** Stripping a text leaves its decimal numbers as they are. *)
Lemma findall_decimal_strip (t : text) :
  Re.findall Re.decimal_number (Py.strip t) = Re.findall Re.decimal_number t.
Proof.
  rewrite !findall_numeros.
  destruct (strip_between t) as (pre & w & E & Fp & Fw).
  rewrite E at 2.
  rewrite (numeros_go_leading pre _ (espaco_sem_numero pre Fp)).
  rewrite (numeros_go_trailing w (espaco_sem_numero w Fw)). reflexivity.
Qed.

End NumberFacts.

(** ** The split point *)

Section SplitPoint.
Context {U : Unicode}.

Lemma antes_de_split (p : text -> bool) (s a : text) :
  antes_de p s = Some a -> firstn (length a) s = a.
Proof.
  revert a. induction s as [|c t IH]; intros a; simpl.
  - destruct (p []); [|discriminate]. intros H. injection H as <-. reflexivity.
  - destruct (p (c :: t)); [intros H; injection H as <-; reflexivity|].
    destruct (antes_de p t) as [a'|]; [|discriminate].
    intros H. injection H as <-. simpl. rewrite (IH a' eq_refl). reflexivity.
Qed.

Lemma match_at_start (r : Re.regex) (i : nat) (prev : option N) (s : text)
    (m : Re.rmatch) :
  Re.match_at r i prev s = Some m -> Re.m_start m = i.
Proof.
  unfold Re.match_at. destruct (Re.run r _ Some); [|discriminate].
  intros H. injection H as <-. reflexivity.
Qed.

(** When a pattern matches at a position exactly if [p] holds of the text
    from there, [re.search] finds the text before the first such place. *)
Lemma search_from_antes (r : Re.regex) (p : text -> bool) :
  (forall i prev s,
      match Re.match_at r i prev s with Some _ => true | None => false end
      = p s) ->
  forall s i prev,
    match Re.search_from r i prev s, antes_de p s with
    | Some m, Some a => Re.m_start m = i + length a
    | None, None => True
    | _, _ => False
    end.
Proof.
  intros H. induction s as [|c t IH]; intros i prev.
  - cbn [Re.search_from antes_de]. rewrite <- (H i prev []).
    destruct (Re.match_at r i prev []) as [m|] eqn:E; [|exact I].
    apply match_at_start in E. simpl. lia.
  - cbn [Re.search_from antes_de]. rewrite <- (H i prev (c :: t)).
    destruct (Re.match_at r i prev (c :: t)) as [m|] eqn:E.
    + apply match_at_start in E. simpl. lia.
    + specialize (IH (S i) (Some c)).
      destruct (Re.search_from r (S i) (Some c) t) as [m|];
        destruct (antes_de p t) as [a|]; simpl; try exact IH.
      rewrite IH. lia.
Qed.

Lemma match_at_simbolo (i : nat) (prev : option N) (s : text) :
  match Re.match_at re_simbolo i prev s with Some _ => true | None => false end
  = comeca_com_glifo s.
Proof.
  unfold Re.match_at, re_simbolo. rewrite run_chr. cbn [Re.rest].
  destruct s as [|c t]; [reflexivity|].
  unfold comeca_com_glifo, glifo. cbn [existsb].
  destruct (c =? 9679)%N, (c =? 9675)%N, (c =? 62301)%N; reflexivity.
Qed.

Lemma match_at_moeda (i : nat) (prev : option N) (s : text) :
  match Re.match_at re_moeda i prev s with Some _ => true | None => false end
  = comeca_com_moeda s.
Proof.
  unfold Re.match_at, re_moeda, comeca_com_moeda.
  change (u "USD") with [85; 83; 68]%N. change (u "BRL") with [66; 82; 76]%N.
  cbn [Re.lit Re.run Re.chr Re.rest Py.startswith].
  destruct s as [|a [|b [|c r]]]; cbn [Re.advance Re.rest];
    repeat match goal with
           | |- context [(?x =? ?y)%N] => destruct (x =? y)%N
           end; reflexivity.
Qed.

Hypothesis espaco_nao_digito :
  forall c, Py.isspace c = true -> Py.isdecimal c = false.

(** The text the extractor takes its odd from has the decimal numbers of the
    descriptive part. *)
Lemma numeros_da_parte_descritiva (texto : text) :
  Re.findall Re.decimal_number (parte_antes_simbolo texto)
  = Re.findall Re.decimal_number (parte_descritiva texto).
Proof.
  unfold parte_antes_simbolo, parte_descritiva, Re.search.
  pose proof (search_from_antes re_simbolo comeca_com_glifo match_at_simbolo
                texto 0 None) as S1.
  destruct (Re.search_from re_simbolo 0 None texto) as [m|];
    destruct (antes_de comeca_com_glifo texto) as [a|] eqn:A;
    try contradiction.
  - rewrite S1. cbn [Nat.add]. rewrite (antes_de_split _ _ _ A).
    apply findall_decimal_strip. exact espaco_nao_digito.
  - pose proof (search_from_antes re_moeda comeca_com_moeda match_at_moeda
                  texto 0 None) as S2.
    destruct (Re.search_from re_moeda 0 None texto) as [m|];
      destruct (antes_de comeca_com_moeda texto) as [a|] eqn:B;
      try contradiction; [|reflexivity].
    rewrite S2. cbn [Nat.add]. rewrite (antes_de_split _ _ _ B).
    apply findall_decimal_strip. exact espaco_nao_digito.
Qed.

(** C5. For every leg text the extracted odd is determined from the decimal
    numbers of the descriptive part, the text before the first bullet glyph
    or else before the first currency token: scanning them from the end, it
    is the first value within [1.0, 50.0], and the last decimal number found
    when none is in range. For the text "Handicap 1.75 Casa 1.65", which has
    no currency and no bullet and so is its own descriptive part, the odd is
    the float 1.65. (White space and decimal digits are disjoint classes of
    characters.) *)
Theorem odd_is_last_in_range_of_descriptive_part
    (texto_aposta casa_aposta : text) :
  odd (processar_aposta_completa texto_aposta casa_aposta)
  = odd_especificada
      (map Float.of_text (numeros_decimais (parte_descritiva texto_aposta)))
  /\ parte_descritiva (u "Handicap 1.75 Casa 1.65")
     = u "Handicap 1.75 Casa 1.65"
  /\ odd (processar_aposta_completa (u "Handicap 1.75 Casa 1.65") casa_aposta)
     = Some (Float.of_text (u "1.65"))
  /\ Float.to_text (Float.of_text (u "1.65")) = u "1.65".
Proof.
  split; [|split; [|split]].
  - unfold processar_aposta_completa. cbn [odd].
    rewrite extrair_odd_especificada, numeros_da_parte_descritiva.
    rewrite findall_numeros. reflexivity.
  - vm_compute. reflexivity.
  - unfold processar_aposta_completa. cbn [odd]. vm_compute. reflexivity.
  - vm_compute. reflexivity.
Qed.

End SplitPoint.

Lemma latin_cyrillic_espaco_nao_digito (c : N) :
  @Py.isspace latin_cyrillic c = true -> @Py.isdecimal latin_cyrillic c = false.
Proof.
  unfold Py.isspace, Py.isdecimal, Py.decimal.
  destruct (Py.is_ascii c); [|reflexivity].
  unfold Py.ascii_space, Py.ascii_digit. intros H.
  destruct (48 <=? c)%N eqn:A; [|reflexivity].
  destruct (c <=? 57)%N eqn:B; [|reflexivity].
  apply N.leb_le in A.
  apply orb_true_iff in H as [H|H]; apply andb_true_iff in H as [_ H];
    apply N.leb_le in H; lia.
Qed.

Section OddExamples.
#[local] Existing Instance latin_cyrillic.

Lemma odd_is_last_in_range_witness :
  let texto := u "Pinnacle Acima 55.5 Casa 1.85 ● 50.00 USD 9.25" in
  parte_descritiva texto = u "Pinnacle Acima 55.5 Casa 1.85 "
  /\ numeros_decimais (parte_descritiva texto) = [u "55.5"; u "1.85"]
  /\ odd (processar_aposta_completa texto (u "Pinnacle"))
     = odd_especificada
         (map Float.of_text (numeros_decimais (parte_descritiva texto)))
  /\ odd (processar_aposta_completa texto (u "Pinnacle"))
     = Some (Float.of_text (u "1.85")).
Proof.
  cbv zeta. split; [vm_compute; reflexivity|].
  split; [vm_compute; reflexivity|]. split.
  - exact (proj1 (odd_is_last_in_range_of_descriptive_part
                    latin_cyrillic_espaco_nao_digito
                    (u "Pinnacle Acima 55.5 Casa 1.85 ● 50.00 USD 9.25")
                    (u "Pinnacle"))).
  - vm_compute. reflexivity.
Defined.

(** The example of the specification: both numbers are in range and the
    one nearest the end is the odd. *)
Example odd_acima : forall casa_aposta : text,
  odd (processar_aposta_completa (u "Acima 2.5 1.85") casa_aposta)
  = Some (Float.of_text (u "1.85")).
Proof. intros casa_aposta. vm_compute. reflexivity. Qed.

(** No number of the descriptive part is in range: the last one is the odd,
    though 2.00 after the currency is in range. *)
Example odd_fora_da_faixa :
  odd (processar_aposta_completa (u "Casa Total 120.5 55.0 USD 2.00")
                                 (u "Casa"))
  = Some (Float.of_text (u "55.0")).
Proof. vm_compute. reflexivity. Qed.

(** A numeral is read as the float nearest to it: 50.0000000000000000001 is
    the float 50.0, which is in range. *)
Example odd_arredondada :
  odd (processar_aposta_completa (u "Casa 2.0 50.0000000000000000001")
                                 (u "Casa"))
  = Some 50%Q.
Proof. vm_compute. reflexivity. Qed.

End OddExamples.

Section ExtractorClaims.
Context {U : Unicode}.

(** C10. For every accumulated leg text and every house-name argument, the
    record the field extractor returns has its house field equal to exactly
    the argument it was given: the extractor neither canonicalises, modifies
    nor nulls the house. *)
Theorem extractor_returns_house_unchanged (texto_aposta casa_aposta : text) :
  house (processar_aposta_completa texto_aposta casa_aposta)
  = Some casa_aposta.
Proof. reflexivity. Qed.

End ExtractorClaims.

Section ExtractorExamples.
#[local] Existing Instance latin_cyrillic.

(** The text of the bet-type example with an odd added before the bullet:
    the total 2.5 stays in the type. *)
Example tipo_com_odd_presente :
  let a := processar_aposta_completa
             (u "Pinnacle Mais de 2.5 gols 1.85 ● 50.00 USD 9.25")
             (u "Pinnacle") in
  odd a = Some (Float.of_text (u "1.85"))
  /\ type a = Some (u "Mais de 2.5 gols").
Proof. vm_compute. split; reflexivity. Qed.

(** C4, as stated, fails: on "Pinnacle Mais de 2.5 gols ● 50.00 USD 9.25" with
    the house "Pinnacle" the bet type is not "Mais de 2.5 gols". *)
Lemma tipo_mais_de_gols_counterexample :
  type (processar_aposta_completa
          (u "Pinnacle Mais de 2.5 gols ● 50.00 USD 9.25") (u "Pinnacle"))
  <> Some (u "Mais de 2.5 gols").
Proof. vm_compute. discriminate. Qed.

(** C4, amended. On "Pinnacle Mais de 2.5 gols ● 50.00 USD 9.25" with the
    house "Pinnacle" the bet type is "Mais de gols": the tokens "Pinnacle",
    "50.00", "USD" and "9.25" are excluded, and so is "2.5", which is the only
    decimal number before the bullet and is therefore the odd. *)
Theorem tipo_mais_de_gols :
  let a := processar_aposta_completa
             (u "Pinnacle Mais de 2.5 gols ● 50.00 USD 9.25")
             (u "Pinnacle") in
  type a = Some (u "Mais de gols")
  /\ odd a = Some 2.5%Q /\ stake a = Some 50.00%Q /\ profit a = Some 9.25%Q.
Proof. vm_compute. repeat split; reflexivity. Qed.

(** C7. On the leg text "KTO (BR) Vitória ● 100.00 USD 18.50" the stake is
    100.00, the number of the first match of a number followed by a currency
    token, and the profit is 18.50, the last decimal number after the place
    of the stake; whatever the house name passed along. *)
Theorem stake_and_profit_of_kto_example (casa_aposta : text) :
  let texto := u "KTO (BR) Vitória ● 100.00 USD 18.50" in
  let a := processar_aposta_completa texto casa_aposta in
  stake a = Some 100.00%Q
  /\ profit a = Some 18.50%Q
  /\ map (fun m => Re.group 1 texto m)
         (firstn 1 (Re.matches re_stake texto))
     = [u "100.00"]
  /\ profit_apos_stake texto (stake a) = Some 18.50%Q.
Proof.
  cbv zeta. unfold processar_aposta_completa. cbn [stake profit].
  vm_compute. repeat split; reflexivity.
Qed.

End ExtractorExamples.

(** ** Matches of \d+\.\d+ and the sign of a profit *)

Section DecimalMatches.
Context {U : Unicode}.

Lemma unsigned_nonneg (s : text) : (0 <= Float.unsigned s)%Q.
Proof.
  unfold Float.unsigned. destruct (Float.digits s 0%N 0 false) as [m e].
  unfold Qle. simpl. lia.
Qed.

Lemma pow2_pos (e : Z) : (0 < Float.pow2 e)%Q.
Proof.
  destruct e as [|p|p]; unfold Float.pow2, Qlt; simpl; lia.
Qed.

Lemma half_even_nonneg (q : Q) : (0 <= q)%Q -> (0 <= Float.half_even q)%Z.
Proof.
  intros H. apply Qfloor_resp_le in H. change (Qfloor 0) with 0%Z in H.
  unfold Float.half_even.
  destruct (Qcompare _ _); [destruct (Z.even _)| |]; lia.
Qed.

Lemma round_pos_nonneg (q : Q) : (0 <= q)%Q -> (0 <= Float.round_pos q)%Q.
Proof.
  intros H. unfold Float.round_pos.
  destruct (Qnum q) as [|n|n]; try exact H.
  set (ulp := Float.pow2 _).
  destruct (Qle_bool Float.inf _); [apply Qlt_le_weak, pow2_pos|].
  destruct (Qeq_bool _ q); [exact H|].
  rewrite Qred_correct. apply Qmult_le_0_compat.
  - change 0%Q with (inject_Z 0). rewrite <- Zle_Qle.
    apply half_even_nonneg. apply Qle_shift_div_l; [apply pow2_pos|].
    rewrite Qmult_0_l. exact H.
  - apply Qlt_le_weak, pow2_pos.
Qed.

(** The float nearest to a rational that is not negative is not negative. *)
Lemma round_nonneg (q : Q) : (0 <= q)%Q -> (0 <= Float.round q)%Q.
Proof.
  intros H. unfold Float.round.
  destruct (Qnum q) eqn:E; try (apply round_pos_nonneg; exact H).
  exfalso. revert H. unfold Qle. rewrite E. simpl. lia.
Qed.

Lemma of_text_nonneg (s : text) :
  hd_error s <> Some 45%N -> (0 <= Float.of_text s)%Q.
Proof.
  intros H. destruct s as [|c r]; [apply round_nonneg, unsigned_nonneg|].
  unfold Float.of_text.
  destruct c as [|p]; [apply round_nonneg, unsigned_nonneg|].
  do 6 (destruct p as [p|p|]; try (apply round_nonneg, unsigned_nonneg)).
  exfalso. apply H. reflexivity.
Qed.

Lemma minus_not_decimal : Py.isdecimal 45%N = false.
Proof. reflexivity. Qed.

(** A match of \d+\.\d+ starts where it was tried, on a decimal digit. *)
Lemma match_at_decimal_head (i : nat) (p : option N) (s : text)
    (m : Re.rmatch) :
  Re.match_at Re.decimal_number i p s = Some m ->
  Re.m_start m = i
  /\ exists c t, s = c :: t /\ Py.isdecimal c = true.
Proof.
  unfold Re.match_at.
  destruct (Re.run Re.decimal_number (Re.MState i p s []) Some) as [st|] eqn:R;
    [|discriminate].
  intros E. injection E as <-. split; [reflexivity|].
  unfold Re.decimal_number, Re.seqs, Re.plus, Re.d in R.
  cbn [Re.run Re.rest] in R.
  destruct s as [|c t]; [discriminate|].
  exists c, t. split; [reflexivity|].
  destruct (Py.isdecimal c); [reflexivity | discriminate].
Qed.

(** Every match listed for a subject was found at some position of it. *)
Lemma matches_from_origin (r : Re.regex) (s : text) :
  forall (i : nat) (p : option N) (skip : nat) (m : Re.rmatch),
    In m (Re.matches_from r i p s skip) ->
    exists k p', Re.match_at r (i + k) p' (skipn k s) = Some m.
Proof.
  induction s as [|c t IH]; intros i p skip m Hin.
  - destruct skip as [|skip]; simpl in Hin; [|contradiction].
    destruct (Re.match_at r i p []) as [m'|] eqn:E; [|contradiction].
    destruct Hin as [<-|[]]. exists 0, p. rewrite Nat.add_0_r. exact E.
  - assert (Hshift : forall skip' m',
               In m' (Re.matches_from r (S i) (Some c) t skip') ->
               exists k p', Re.match_at r (i + k) p' (skipn k (c :: t))
                            = Some m').
    { intros skip' m' H. apply IH in H as (k & p' & H).
      exists (S k), p'. rewrite Nat.add_succ_r. exact H. }
    destruct skip as [|skip]; simpl in Hin.
    + destruct (Re.match_at r i p (c :: t)) as [m'|] eqn:E.
      * destruct Hin as [<-|Hin].
        -- exists 0, p. rewrite Nat.add_0_r. exact E.
        -- eapply Hshift; eassumption.
      * eapply Hshift; eassumption.
    + eapply Hshift; eassumption.
Qed.

Lemma findall_decimal_nonneg (s x : text) :
  In x (Re.findall Re.decimal_number s) -> (0 <= Float.of_text x)%Q.
Proof.
  unfold Re.findall, Re.matches. intros H.
  apply in_map_iff in H as (m & <- & Hin).
  apply matches_from_origin in Hin as (k & p' & Hm).
  apply match_at_decimal_head in Hm as (Hs & c & t & Hk & Hc).
  apply of_text_nonneg.
  unfold Re.group0, Py.slice. simpl in Hs. rewrite Hs, Hk.
  destruct (Re.m_end m - k); simpl; [discriminate|].
  intros E. injection E as ->. rewrite minus_not_decimal in Hc.
  discriminate.
Qed.

Lemma last_in {A} (l : list A) (d : A) : l <> [] -> In (last l d) l.
Proof.
  induction l as [|x l IH]; [congruence|]. intros _.
  destruct l as [|y l]; [left; reflexivity|].
  right. apply IH. discriminate.
Qed.

Lemma profit_apos_stake_nonneg (texto : text) (stake : option Q) (p : Q) :
  profit_apos_stake texto stake = Some p -> (0 <= p)%Q.
Proof.
  unfold profit_apos_stake. destruct stake as [valor|]; [|discriminate].
  destruct (Float.truthy (Some valor)); [|discriminate].
  destruct (Re.search _ texto) as [sp|]; [|discriminate].
  destruct (Re.findall Re.decimal_number _) as [|x l] eqn:E; [discriminate|].
  intros H. injection H as <-.
  apply (findall_decimal_nonneg (skipn (Re.m_end sp) texto)).
  rewrite E. refine (last_in (x :: l) [] _). discriminate.
Qed.

Lemma profit_do_fim_nonneg (texto : text) (stake odd : option Q) (p : Q) :
  profit_do_fim (rev (Re.findall Re.decimal_number texto)) stake odd = Some p ->
  (0 <= p)%Q.
Proof.
  rewrite profit_do_fim_find. intros H.
  apply find_some in H as [H _].
  apply in_map_iff in H as (x & <- & H).
  apply in_rev in H. eapply findall_decimal_nonneg; eassumption.
Qed.

(** C9. For every leg text and house name, a profit the field extractor
    returns is not negative. *)
Theorem extracted_profit_nonnegative (texto_aposta casa_aposta : text) (p : Q) :
  profit (processar_aposta_completa texto_aposta casa_aposta) = Some p ->
  (0 <= p)%Q.
Proof.
  unfold processar_aposta_completa. cbn [profit]. unfold extrair_profit.
  set (stake := extrair_stake texto_aposta).
  set (odd := extrair_odd _).
  destruct (profit_apos_stake texto_aposta stake) as [q|] eqn:A.
  - apply profit_apos_stake_nonneg in A.
    destruct (negb (Float.truthy (Some q))).
    + destruct (profit_do_fim _ stake odd) as [q'|] eqn:B.
      * intros H. injection H as <-.
        eapply profit_do_fim_nonneg; eassumption.
      * intros H. injection H as <-. exact A.
    + intros H. injection H as <-. exact A.
  - simpl. destruct (profit_do_fim _ stake odd) as [q'|] eqn:B; [|discriminate].
    intros H. injection H as <-. eapply profit_do_fim_nonneg; eassumption.
Qed.


End DecimalMatches.

Section FallbackExamples.
#[local] Existing Instance latin_cyrillic.


(** Floats as the runtime has them: the float nearest to the numeral, and
    its shortest text. *)
Example float_of_a_tenth :
  Float.of_text (u "0.1") = (3602879701896397 # 36028797018963968)%Q.
Proof. vm_compute. reflexivity. Qed.

Example float_texts :
  map (fun s => Float.to_text (Float.of_text s))
      [u "0.1"; u "100.00"; u "60"; u "0.00001"; u "0.0001";
       u "10000000000000000"; u "1000000000000000";
       u "50.0000000000000000001"; u "0.30000000000000004";
       u "799719072637792.7961"; u "1" ++ repeat 48%N 309 ++ u ".0"]
  = [u "0.1"; u "100.0"; u "60.0"; u "1e-05"; u "0.0001";
     u "1e+16"; u "1000000000000000.0";
     u "50.0"; u "0.30000000000000004";
     u "799719072637792.8"; u "inf"].
Proof. vm_compute. reflexivity. Qed.

(** abs(2.51 - 2.5) < 0.01 holds of the floats, though not of the numbers
    written: the token 2.51 is taken for the odd 2.5 and left out of the
    bet type. *)
Example tipo_com_tolerancia_binaria :
  Float.near (Float.of_text (u "2.51")) (Some (Float.of_text (u "2.5"))) = true
  /\ type (processar_aposta_completa
             (u "Casa 2.51 Fora 2.5 ● 10.00 USD 1.00") (u "Casa"))
     = Some (u "Fora").
Proof. vm_compute. split; reflexivity. Qed.

(** A stake that prints with an exponent: "1e-05" is not in the text, so
    the profit comes from the fallback, which passes over 2.0, the odd. *)
Example fallback_after_small_stake :
  let texto := u "Casa 2.0 0.00001 USD 3.0 2.0" in
  let a := processar_aposta_completa texto (u "Casa") in
  option_map Float.to_text (stake a) = Some (u "1e-05")
  /\ profit_apos_stake texto (stake a) = None
  /\ odd a = Some 2.0%Q
  /\ profit a = Some 3.0%Q.
Proof. vm_compute. repeat split; reflexivity. Qed.

(** "1e+16" is a pattern in which [+] repeats the [e]: it is found in
    "1e16", and the profit is the last decimal number after that place. *)
Example stake_pattern_with_exponent :
  let texto := u "Casa 2.0 10000000000000000 USD 1e16 7.5 3.0" in
  let a := processar_aposta_completa texto (u "Casa") in
  option_map Float.to_text (stake a) = Some (u "1e+16")
  /\ option_map Re.m_start
       (Re.search (padrao_do_numeral (u "1e+16")) texto) = Some 31
  /\ profit_apos_stake texto (stake a) = Some 3.0%Q.
Proof. vm_compute. repeat split; reflexivity. Qed.

(** Two numerals of one float: 1.50000000000000000001 reads as 1.5, which
    is the odd, so the fallback finds no profit. *)
Example fallback_rounded_equal_to_odd :
  let a := processar_aposta_completa (u "Casa 1.5 1.50000000000000000001")
                                     (u "Casa") in
  odd a = Some (3 # 2)%Q /\ stake a = None /\ profit a = None.
Proof. vm_compute. repeat split; reflexivity. Qed.


Lemma extracted_profit_nonnegative_witness :
  profit (processar_aposta_completa (u "KTO (BR) Vitória ● 100.00 USD 18.50")
                                    (u "KTO (BR)")) = Some 18.50%Q
  /\ (0 <= 18.50)%Q.
Proof.
  split; [vm_compute; reflexivity|].
  apply (extracted_profit_nonnegative
           (u "KTO (BR) Vitória ● 100.00 USD 18.50") (u "KTO (BR)")).
  vm_compute. reflexivity.
Defined.

End FallbackExamples.

(** ** House detector *)

Lemma among_in (h : text) (l : list text) : Py.among h l = true -> In h l.
Proof.
  unfold Py.among. intros H. apply existsb_exists in H as (x & Hx & E).
  apply eqb_eq in E. subst. exact Hx.
Qed.

Section DetectorClaims.
#[local] Existing Instance latin_cyrillic.

(** C1, as stated, fails: "SuperBet (BR)" is an entry of the gazetteer, and
    on a line that is exactly this text the detector returns the other entry
    "Super Bet (BR)". *)
Lemma superbet_detected_as_spaced_variant_counterexample :
  In (u "SuperBet (BR)") casas_sistema
  /\ detectar_casa_apostas (u "SuperBet (BR)") = Some (u "Super Bet (BR)")
  /\ detectar_casa_apostas (u "SuperBet (BR)") <> Some (u "SuperBet (BR)").
Proof.
  split; [apply among_in; vm_compute; reflexivity|].
  split; [vm_compute; reflexivity | vm_compute; discriminate].
Qed.

Lemma gazetteer_detected_as_variant :
  forallb (detecta_variante latin_cyrillic) casas_sistema = true.
Proof. vm_cast_no_check (eq_refl true). Qed.

(** C1, amended. For every entry h of the gazetteer, the detector on a line
    that is exactly h returns h itself, except for "SuperBet (BR)" and
    "MarjoSports (BR)", for which it returns the entries "Super Bet (BR)" and
    "Marjo Sports (BR)". *)
Theorem gazetteer_entry_detected (h : text) :
  In h casas_sistema ->
  detectar_casa_apostas h
  = Some (if Py.eqb h (u "SuperBet (BR)") then u "Super Bet (BR)"
          else if Py.eqb h (u "MarjoSports (BR)") then u "Marjo Sports (BR)"
          else h).
Proof.
  intros Hin.
  pose proof (proj1 (forallb_forall _ _) gazetteer_detected_as_variant h Hin)
    as H.
  unfold detecta_variante in H.
  destruct (detectar_casa_apostas h) as [c|]; [|discriminate].
  apply eqb_eq in H. rewrite H. reflexivity.
Qed.

Lemma gazetteer_entry_detected_witness :
  In (u "10Bet") casas_sistema
  /\ detectar_casa_apostas (u "10Bet") = Some (u "10Bet").
Proof.
  assert (Hin : In (u "10Bet") casas_sistema)
    by (apply among_in; vm_compute; reflexivity).
  split; [exact Hin|].
  exact (gazetteer_entry_detected (u "10Bet") Hin).
Defined.

End DetectorClaims.

(** ** Record assembler and program *)

Section AssemblerFacts.
Context {U : Unicode} {Sd : Stdout}.

(** An accepted leg has a house. *)
Lemma aceitar_house (a b : aposta) :
  aceitar a = Some b -> verdadeiro (house b) = true.
Proof.
  unfold aceitar.
  destruct (verdadeiro (house a) && Float.truthy (odd a)) eqn:C;
    [|discriminate].
  intros E. injection E as <-. apply andb_true_iff in C as [C _]. exact C.
Qed.

(** Every leg the segmenter accepts has a house. *)
Lemma extrair_apostas_house (fuel : nat) (linhas : list text) :
  forall (i : nat) (a : aposta),
    In a (fst (extrair_apostas fuel linhas i)) ->
    verdadeiro (house a) = true.
Proof.
  induction fuel as [|fuel IH]; intros i a; [cbn; contradiction|].
  cbn [extrair_apostas].
  destruct (i <? length linhas); [|contradiction].
  destruct (detectar_casa_apostas (nth i linhas [])) as [casa|];
    [|apply IH].
  destruct (Py.truthy casa); [|apply IH].
  cbn [fst].
  destruct (pe_aposta (segmentar_aposta linhas i casa)) as [b|] eqn:S;
    [|apply IH].
  intros [E|Hin]; [|eapply IH; exact Hin].
  subst b. exact (aceitar_house _ _ S).
Qed.

(** When a page gives three legs or more, the third is stored with its
    house: the second alternative of the termination test adds nothing to
    the first. *)
Lemma third_leg_stored_when_three_accepted (texto : text) (d : dados) :
  let '(d', bets_detected, _) := processar_pagina texto d in
  3 <= bets_detected -> verdadeiro (house (bet3 d')) = true.
Proof.
  unfold processar_pagina.
  pose proof (extrair_apostas_house
                (length (linhas_da_pagina texto)) (linhas_da_pagina texto) 0)
    as H.
  unfold apostas_encontradas.
  destruct (extrair_apostas _ _ 0) as [apostas err]. cbn [fst] in H.
  destruct apostas as [|a1 [|a2 [|a3 r]]]; cbn [length]; try lia.
  intros _. cbn [bet3 set_bet3]. apply H. right. right. left. reflexivity.
Qed.

(** The page loop goes on to the next page exactly when the test fails. *)
Lemma dados_suficientes_iff (d : dados) (bets_detected : nat) :
  dados_suficientes d bets_detected = true <->
  verdadeiro (teamA d) = true /\ verdadeiro (teamB d) = true
  /\ verdadeiro (house (bet1 d)) = true /\ verdadeiro (house (bet2 d)) = true
  /\ (bets_detected < 3 \/ verdadeiro (house (bet3 d)) = true).
Proof.
  unfold dados_suficientes.
  rewrite !andb_true_iff, orb_true_iff, Nat.ltb_lt. tauto.
Qed.

(** The test on the legs is met after every page: legs that were detected
    but not accepted are not counted. *)
Lemma legs_test_always_met (texto : text) (d : dados) :
  let r := processar_pagina texto d in
  snd (fst r) < 3 \/ verdadeiro (house (bet3 (fst (fst r)))) = true.
Proof.
  pose proof (third_leg_stored_when_three_accepted texto d) as H.
  cbv zeta. destruct (processar_pagina texto d) as [[d' n] err].
  cbn [fst snd]. destruct (Nat.lt_ge_cases n 3) as [L|G];
    [left; exact L | right; exact (H G)].
Qed.

(** Two legs accepted on a page are stored as bet1 and bet2, with their
    houses. *)
Lemma two_legs_stored (texto : text) (d : dados) :
  let r := processar_pagina texto d in
  snd (fst r) = 2 ->
  verdadeiro (house (bet1 (fst (fst r)))) = true
  /\ verdadeiro (house (bet2 (fst (fst r)))) = true.
Proof.
  cbv zeta. unfold processar_pagina.
  pose proof (extrair_apostas_house
                (length (linhas_da_pagina texto)) (linhas_da_pagina texto) 0)
    as H.
  unfold apostas_encontradas.
  destruct (extrair_apostas _ _ 0) as [apostas err]. cbn [fst] in H.
  destruct apostas as [|a1 [|a2 [|a3 r]]]; cbn [fst snd length];
    try discriminate.
  intros _. cbn [bet1 bet2 set_bet1 set_bet2]. split; apply H.
  - left. reflexivity.
  - right. left. reflexivity.
Qed.

(** The page loop as the code runs it. After a page with text, the record
    assembler stops, without looking at the pages that remain, exactly when
    its test holds; the test requires teamA, teamB, bet1.house and
    bet2.house to be set and either fewer than 3 legs accepted on the page
    or bet3.house set. The number the test compares with 3 counts the legs
    accepted on the page, so a leg that is detected and not accepted does
    not count: when the page yields the team names and exactly two accepted
    legs, the assembler stops after it, also when a third leg was present
    and its extraction failed. The comments of the source say otherwise
    ("Para apostas triplas: bet1, bet2 E bet3 devem ter house"). *)
Theorem early_termination_after_page
    (texto : text) (resto : list pagina) (d : dados) :
  Py.truthy texto = true ->
  let r := processar_pagina texto d in
  let d' := fst (fst r) in
  let bets_detected := snd (fst r) in
  (dados_suficientes d' bets_detected = true ->
     processar_paginas (Texto texto :: resto) d = (d', snd r, 1))
  /\ (dados_suficientes d' bets_detected = false ->
       processar_paginas (Texto texto :: resto) d
       = (let '(d'', err', n) := processar_paginas resto d' in
          (d'', snd r ++ err', S n)))
  /\ (dados_suficientes d' bets_detected = true ->
       verdadeiro (teamA d') = true /\ verdadeiro (teamB d') = true
       /\ verdadeiro (house (bet1 d')) = true
       /\ verdadeiro (house (bet2 d')) = true
       /\ (bets_detected < 3 \/ verdadeiro (house (bet3 d')) = true))
  /\ (verdadeiro (teamA d') = true -> verdadeiro (teamB d') = true ->
       bets_detected = 2 ->
       processar_paginas (Texto texto :: resto) d = (d', snd r, 1)).
Proof.
  intros T. cbv zeta.
  pose proof (two_legs_stored texto d) as H2. cbv zeta in H2.
  assert (Stop : dados_suficientes (fst (fst (processar_pagina texto d)))
                   (snd (fst (processar_pagina texto d))) = true ->
                 processar_paginas (Texto texto :: resto) d
                 = (fst (fst (processar_pagina texto d)),
                    snd (processar_pagina texto d), 1)).
  { cbn [processar_paginas]. rewrite T. cbn [negb].
    destruct (processar_pagina texto d) as [[d' n] err]. cbn [fst snd].
    intros ->. reflexivity. }
  split; [exact Stop|]. split; [|split].
  - cbn [processar_paginas]. rewrite T. cbn [negb].
    destruct (processar_pagina texto d) as [[d' n] err]. cbn [fst snd].
    intros ->. reflexivity.
  - apply dados_suficientes_iff.
  - intros A B N. apply Stop. apply dados_suficientes_iff.
    destruct (H2 N) as [B1 B2]. rewrite N. repeat split; try assumption.
    left. lia.
Qed.

(** The record assembler returns: its handler catches every exception. *)
Lemma extrair_dados_pdf_retorna (abrir : text -> documento) (caminho : text) :
  exists d err n, extrair_dados_pdf abrir caminho = (Retorno d, err, n).
Proof.
  unfold extrair_dados_pdf. destruct (abrir caminho) as [paginas|e].
  - destruct (processar_paginas (firstn 2 paginas) dados_iniciais)
      as [[d err] n].
    exists d, err, n. reflexivity.
  - exists dados_iniciais, [erro_pdf e], 0. reflexivity.
Qed.

(** Given one path, [main] prints the record of the assembler; its handler
    is reached only when that record cannot be printed. *)
Lemma main_of_record (abrir : text -> documento) (script caminho : text)
    (d : dados) (err : list text) (n : nat) :
  extrair_dados_pdf abrir caminho = (Retorno d, err, n) ->
  main abrir [script; caminho]
  = match print (Json.dumps (json_dados d)) with
    | Retorno _ => Saida [json_dados d] err 0
    | Excecao e => Saida [dados_vazio] (err ++ [u "Erro fatal: " ++ e]) 1
    end.
Proof.
  intros H. unfold main. cbn [length Nat.eqb negb nth]. rewrite H.
  reflexivity.
Qed.

(** The record with every field null has ASCII characters only, which
    every encoding has. *)
Lemma print_null_record :
  print (Json.dumps (json_dados dados_iniciais)) = Retorno tt.
Proof. vm_compute. reflexivity. Qed.

(** C2, amended. For every invocation with a path that names a document the
    decoder cannot open, or whose first page it cannot read, the program
    writes the message of the record assembler to the diagnostic stream,
    writes to standard output the JSON object of the full shape with all
    fields null, bet3 included, and ends with status 0. *)
Theorem unreadable_document_full_null_record_status_zero
    (abrir : text -> documento) (script caminho_pdf erro : text) :
  abrir caminho_pdf = FalhaAbertura erro
  \/ (exists paginas, abrir caminho_pdf = Aberto (FalhaPagina erro :: paginas)) ->
  main abrir [script; caminho_pdf]
  = Saida [JObj [("date", JNull); ("sport", JNull); ("league", JNull);
                 ("teamA", JNull); ("teamB", JNull);
                 ("bet1", json_aposta_vazia); ("bet2", json_aposta_vazia);
                 ("bet3", json_aposta_vazia); ("profitPercentage", JNull)]%string]
          [u "Erro ao processar PDF: " ++ erro]
          0.
Proof.
  intros H.
  rewrite (main_of_record abrir script caminho_pdf dados_iniciais
             [erro_pdf erro] 0).
  - rewrite print_null_record. reflexivity.
  - unfold extrair_dados_pdf.
    destruct H as [H|[paginas H]]; rewrite H; reflexivity.
Qed.
End AssemblerFacts.

Section AssemblerExamples.
#[local] Existing Instance latin_cyrillic.
#[local] Existing Instance utf8.

(** C2, as stated, fails: for a path that names no file the program does
    write a diagnostic, but it prints an object that has the key bet3 and it
    ends with status 0. *)
Lemma missing_document_counterexample :
  let out := main sem_arquivo [u "parse_pdf.py"; u "missing.pdf"] in
  stderr out <> []
  /\ stdout out <> [dados_vazio]
  /\ status out <> 1%Z
  /\ ~ (stdout out = [dados_vazio] /\ status out = 1%Z).
Proof.
  vm_compute. repeat split; try discriminate.
  intros [_ H]. discriminate.
Qed.

Lemma unreadable_document_witness :
  sem_arquivo (u "missing.pdf")
  = FalhaAbertura (u "[Errno 2] No such file or directory: 'missing.pdf'")
  /\ status (main sem_arquivo [u "parse_pdf.py"; u "missing.pdf"]) = 0%Z.
Proof.
  split; [reflexivity|].
  rewrite (unreadable_document_full_null_record_status_zero
             sem_arquivo (u "parse_pdf.py") (u "missing.pdf")
             (u "[Errno 2] No such file or directory: 'missing.pdf'")
             (or_introl eq_refl)).
  reflexivity.
Defined.

(** C3. The code does not do what the claim and its own comments say. On
    the slip [slip_de_tres_apostas] the first page gives the team names and
    exactly two accepted legs; its third leg is detected ("Stake") but has
    no odd and is not accepted, so bet3 has no house. The claim has the
    assembler go on to the second page, where the third leg is complete; the
    assembler stops after the first page and returns bet3 null. *)
Lemma three_leg_slip_stops_after_first_page :
  let linhas := linhas_da_pagina pagina_1 in
  detectar_casa_apostas (nth 5 linhas []) = Some (u "Stake")
  /\ odd (processar_aposta_completa (nth 5 linhas []) (u "Stake")) = None
  /\ snd (fst (processar_pagina pagina_1 dados_iniciais)) = 2
  /\ odd (processar_aposta_completa pagina_2 (u "Stake")) = Some 4.00%Q
  /\ exists d err,
       extrair_dados_pdf slip_de_tres_apostas (u "slip.pdf")
       = (Retorno d, err, 1)
       /\ teamA d = Some (u "Flamengo") /\ teamB d = Some (u "Palmeiras")
       /\ house (bet1 d) = Some (u "Pinnacle")
       /\ house (bet2 d) = Some (u "Betano (BR)")
       /\ house (bet3 d) = None.
Proof.
  cbv zeta. split; [vm_compute; reflexivity|].
  split; [vm_compute; reflexivity|].
  split; [vm_compute; reflexivity|].
  split; [vm_compute; reflexivity|].
  eexists. eexists. split; [vm_compute; reflexivity|].
  repeat split.
Qed.

Example early_termination_after_first_page :
  Py.truthy pagina_1 = true
  /\ snd (processar_paginas [Texto pagina_1; Texto pagina_2] dados_iniciais)
     = 1.
Proof.
  split; [reflexivity|].
  pose proof (early_termination_after_page pagina_1 [Texto pagina_2]
                dados_iniciais eq_refl) as H.
  cbv zeta in H. destruct H as (_ & _ & _ & H).
  rewrite H; [reflexivity | vm_compute; reflexivity ..].
Qed.

End AssemblerExamples.

(** ** Line reassembler *)

Section StripFacts.
Context {U : Unicode}.

Lemma dropwhile_fixed (s : text) :
  inicio_limpo s = true -> Py.dropwhile Py.isspace s = s.
Proof.
  destruct s as [|c r]; [reflexivity|]. simpl. intros H.
  apply negb_true_iff in H. rewrite H. reflexivity.
Qed.

Lemma dropwhile_clean (s : text) :
  inicio_limpo (Py.dropwhile Py.isspace s) = true.
Proof.
  induction s as [|c r IH]; [reflexivity|]. simpl.
  destruct (Py.isspace c) eqn:E; [exact IH|]. simpl. rewrite E. reflexivity.
Qed.

Lemma dropwhile_split (p : N -> bool) (s : text) :
  exists pre, s = pre ++ Py.dropwhile p s.
Proof.
  induction s as [|c r [pre IH]]; [exists []; reflexivity|]. simpl.
  destruct (p c).
  - exists (c :: pre). simpl. f_equal. exact IH.
  - exists []. reflexivity.
Qed.

Lemma inicio_limpo_prefix (x y : text) :
  x <> [] -> inicio_limpo (x ++ y) = inicio_limpo x.
Proof. destruct x; [congruence | reflexivity]. Qed.

Lemma strip_fixed (s : text) :
  inicio_limpo s = true -> inicio_limpo (rev s) = true -> Py.strip s = s.
Proof.
  intros A B. unfold Py.strip, Py.rstrip, Py.lstrip.
  rewrite (dropwhile_fixed s A), (dropwhile_fixed (rev s) B).
  apply rev_involutive.
Qed.

Lemma strip_clean_end (s : text) : inicio_limpo (rev (Py.strip s)) = true.
Proof.
  unfold Py.strip, Py.rstrip. rewrite rev_involutive. apply dropwhile_clean.
Qed.

Lemma strip_clean_start (s : text) : inicio_limpo (Py.strip s) = true.
Proof.
  unfold Py.strip, Py.rstrip, Py.lstrip.
  set (t := Py.dropwhile Py.isspace s).
  destruct (dropwhile_split Py.isspace (rev t)) as [pre E].
  set (w := Py.dropwhile Py.isspace (rev t)) in *.
  destruct (rev w) as [|c r] eqn:R; [reflexivity|].
  assert (T : t = rev w ++ rev pre).
  { rewrite <- rev_app_distr, <- E. symmetry. apply rev_involutive. }
  rewrite <- (inicio_limpo_prefix (c :: r) (rev pre)) by discriminate.
  rewrite <- R, <- T. apply dropwhile_clean.
Qed.

Lemma strip_in (s : text) (x : N) : In x (Py.strip s) -> In x s.
Proof.
  unfold Py.strip, Py.rstrip, Py.lstrip. intros H. apply in_rev in H.
  destruct (dropwhile_split Py.isspace s) as [pre E].
  destruct (dropwhile_split Py.isspace (rev (Py.dropwhile Py.isspace s)))
    as [pre' E'].
  rewrite E. apply in_or_app. right. apply in_rev. rewrite E'.
  apply in_or_app. right. exact H.
Qed.

(** Two stripped, non-empty strings joined by one space are stripped. *)
Lemma strip_joined (a b : text) :
  a <> [] -> b <> [] ->
  inicio_limpo a = true -> inicio_limpo (rev b) = true ->
  Py.strip (a ++ sp ++ b) = a ++ sp ++ b.
Proof.
  intros Na Nb A B. apply strip_fixed.
  - rewrite inicio_limpo_prefix by exact Na. exact A.
  - rewrite !rev_app_distr, <- app_assoc.
    rewrite inicio_limpo_prefix; [exact B|].
    intros E. apply Nb. rewrite <- (rev_involutive b), E. reflexivity.
Qed.

End StripFacts.

Section SplitFacts.

Lemma split_char_none (c : N) (s : text) :
  ~ In c s -> Py.split_char c s = [s].
Proof.
  induction s as [|x r IH]; [reflexivity|]. intros H. simpl.
  destruct (N.eqb_spec x c) as [->|_]; [exfalso; apply H; left; reflexivity|].
  rewrite IH; [reflexivity|]. intros I. apply H. right. exact I.
Qed.

Lemma split_char_app (c : N) (x rest : text) :
  ~ In c x -> Py.split_char c (x ++ c :: rest) = x :: Py.split_char c rest.
Proof.
  induction x as [|a x IH]; intros H; simpl.
  - rewrite N.eqb_refl. reflexivity.
  - destruct (N.eqb_spec a c) as [->|_];
      [exfalso; apply H; left; reflexivity|].
    rewrite IH; [reflexivity|]. intros I. apply H. right. exact I.
Qed.

Lemma split_char_no_sep (c : N) (s l : text) :
  In l (Py.split_char c s) -> ~ In c l.
Proof.
  revert l. induction s as [|x r IH]; intros l; simpl.
  - intros [<-|[]]. intros [].
  - destruct (N.eqb_spec x c) as [->|Hx].
    + intros [<-|H]; [intros [] | apply IH; exact H].
    + destruct (Py.split_char c r) as [|h t] eqn:E.
      * intros [<-|[]]. intros [E'|[]]. congruence.
      * intros [<-|H].
        -- intros [E'|I]; [congruence|]. apply (IH h); [left; reflexivity|].
           exact I.
        -- apply IH. right. exact H.
Qed.

(** Splitting at the separator undoes joining with it. *)
Lemma split_char_join (c : N) (l : list text) :
  l <> [] -> (forall x, In x l -> ~ In c x) ->
  Py.split_char c (Py.join [c] l) = l.
Proof.
  induction l as [|x r IH]; [congruence|]. intros _ H.
  destruct r as [|y r].
  - simpl. apply split_char_none. apply H. left. reflexivity.
  - change (Py.join [c] (x :: y :: r)) with (x ++ c :: Py.join [c] (y :: r)).
    rewrite split_char_app by (apply H; left; reflexivity).
    f_equal. apply IH; [discriminate|].
    intros z Hz. apply H. right. exact Hz.
Qed.

End SplitFacts.

Section ReassemblerClaims.
Context {U : Unicode}.

Lemma strip_logica (l : text) :
  ~ In nl l -> Py.truthy (Py.strip l) = true -> linha_logica (Py.strip l).
Proof.
  intros H T. repeat split.
  - intros E. rewrite E in T. discriminate.
  - apply strip_clean_start.
  - apply strip_clean_end.
  - intros I. apply H. apply strip_in. exact I.
Qed.

Lemma joined_logica (a b : text) :
  linha_logica a -> linha_logica b -> linha_logica (a ++ sp ++ b).
Proof.
  intros (Na & A1 & A2 & A3) (Nb & B1 & B2 & B3). repeat split.
  - destruct a; [congruence | discriminate].
  - rewrite inicio_limpo_prefix by exact Na. exact A1.
  - rewrite !rev_app_distr, <- app_assoc.
    rewrite inicio_limpo_prefix; [exact B2|].
    intros E. apply Nb. rewrite <- (rev_involutive b), E. reflexivity.
  - intros I. apply in_app_or in I as [I|I]; [exact (A3 I)|].
    apply in_app_or in I as [I|I]; [|exact (B3 I)].
    destruct I as [I|[]]. discriminate.
Qed.

Lemma linha_logica_strip (l : text) : linha_logica l -> Py.strip l = l.
Proof. intros (_ & A & B & _). apply strip_fixed; assumption. Qed.

Lemma linha_logica_truthy (l : text) : linha_logica l -> Py.truthy l = true.
Proof. intros (N & _). destruct l; [congruence | reflexivity]. Qed.

Lemma among_sufixos_truthy (p : text) :
  Py.among p sufixos_pais = true -> Py.truthy p = true.
Proof. destruct p; [discriminate | reflexivity]. Qed.

Lemma eh_continuacao_truthy (p : text) :
  eh_continuacao p = true -> Py.truthy p = true.
Proof.
  unfold eh_continuacao. intros H.
  repeat (apply andb_true_iff in H as [H _]). exact H.
Qed.

(** Every line the reassembler emits is a logical line. *)
Lemma juntar_linhas_logicas (n : nat) :
  forall lines : list text,
    length lines <= n ->
    (forall l, In l lines -> ~ In nl l) ->
    Forall linha_logica (juntar_linhas lines).
Proof.
  induction n as [|n IH]; intros lines Hn Hnl.
  - destruct lines; [constructor | simpl in Hn; lia].
  - destruct lines as [|l r]; [constructor|].
    cbn [juntar_linhas].
    assert (Hr : forall x, In x r -> ~ In nl x)
      by (intros x Hx; apply Hnl; right; exact Hx).
    assert (Lr : length r <= n) by (simpl in Hn; lia).
    destruct (Py.truthy (Py.strip l)) eqn:T; cbn [negb].
    2: { apply IH; assumption. }
    assert (Hl : linha_logica (Py.strip l))
      by (apply strip_logica; [apply Hnl; left; reflexivity | exact T]).
    destruct r as [|p r'].
    { constructor; [exact Hl | constructor]. }
    assert (Hr' : forall x, In x r' -> ~ In nl x)
      by (intros x Hx; apply Hr; right; exact Hx).
    assert (Lr' : length r' <= n) by (simpl in Lr; lia).
    assert (Hp : Py.truthy (Py.strip p) = true ->
                 linha_logica (Py.strip l ++ sp ++ Py.strip p)).
    { intros Tp. apply joined_logica; [exact Hl|].
      apply strip_logica; [apply Hr; left; reflexivity | exact Tp]. }
    destruct (Py.among (Py.strip p) sufixos_pais) eqn:S.
    { constructor; [apply Hp, among_sufixos_truthy, S | apply IH; assumption]. }
    destruct (tem_odds_usd (Py.strip l) && eh_continuacao (Py.strip p)) eqn:C.
    { apply andb_true_iff in C as [_ C].
      constructor; [apply Hp, eh_continuacao_truthy, C | apply IH; assumption]. }
    constructor; [exact Hl | apply IH; assumption].
Qed.

(** On logical lines with no pair that rule 2 or rule 3 would join, the
    reassembler changes nothing. *)
Lemma juntar_linhas_fixed (lines : list text) :
  Forall linha_logica lines ->
  sem_pares_juntaveis lines = true ->
  juntar_linhas lines = lines.
Proof.
  induction lines as [|l r IH]; [reflexivity|]. intros F S.
  inversion F as [|? ? Hl Fr]; subst.
  cbn [juntar_linhas]. rewrite (linha_logica_strip l Hl).
  rewrite (linha_logica_truthy l Hl). cbn [negb].
  destruct r as [|p r']; [reflexivity|].
  inversion Fr as [|? ? Hp _]; subst.
  cbn [sem_pares_juntaveis] in S. apply andb_true_iff in S as [S1 S2].
  apply negb_true_iff in S1. unfold par_juntavel in S1.
  rewrite (linha_logica_strip l Hl), (linha_logica_strip p Hp) in S1.
  apply orb_false_iff in S1 as [S1 S3].
  rewrite (linha_logica_strip p Hp), S1, S3.
  f_equal. apply IH; assumption.
Qed.

(** C8. The line reassembler is idempotent on its own output when that
    output has no pair of adjacent lines that rule 2 (country suffix) or
    rule 3 (currency continuation) would join: reassembling it again gives
    it back. *)
Theorem reassembler_idempotent_without_joinable_pairs (texto : text) :
  sem_pares_juntaveis
    (Py.split_char nl (preprocessar_linhas_quebradas texto)) = true ->
  preprocessar_linhas_quebradas (preprocessar_linhas_quebradas texto)
  = preprocessar_linhas_quebradas texto.
Proof.
  unfold preprocessar_linhas_quebradas.
  set (L := juntar_linhas (Py.split_char nl texto)).
  assert (HL : Forall linha_logica L).
  { apply (juntar_linhas_logicas (length (Py.split_char nl texto)));
      [lia|]. intros l. apply split_char_no_sep. }
  destruct L as [|x r] eqn:E; [intros _; reflexivity|].
  rewrite split_char_join.
  - intros S. rewrite (juntar_linhas_fixed _ HL S). reflexivity.
  - discriminate.
  - intros l Hl. rewrite Forall_forall in HL.
    destruct (HL l Hl) as (_ & _ & _ & H). exact H.
Qed.

End ReassemblerClaims.

Section ReassemblerExamples.
#[local] Existing Instance latin_cyrillic.

(** The join of the specification: "CloudBet" and a following "(BR)". *)
Example cloudbet_br_joined :
  preprocessar_linhas_quebradas (Py.join [nl] [u "CloudBet"; u "(BR)"])
  = u "CloudBet (BR)".
Proof. vm_compute. reflexivity. Qed.

(** Without the condition on the pairs a second pass can join again. *)
Example second_pass_joins_again :
  let texto := Py.join [nl] [u "Stake 2.10 50 USD"; u "Casa"; u "Fora"] in
  preprocessar_linhas_quebradas texto
  = Py.join [nl] [u "Stake 2.10 50 USD Casa"; u "Fora"]
  /\ preprocessar_linhas_quebradas (preprocessar_linhas_quebradas texto)
     = u "Stake 2.10 50 USD Casa Fora".
Proof. vm_compute. split; reflexivity. Qed.

Lemma reassembler_idempotent_witness :
  let texto :=
    Py.join [nl] [u "CloudBet"; u "(BR)"; u "  ";
                  u "KTO 2.10 ● 50.00 USD 3.00"; u "Empate"] in
  sem_pares_juntaveis
    (Py.split_char nl (preprocessar_linhas_quebradas texto)) = true
  /\ preprocessar_linhas_quebradas (preprocessar_linhas_quebradas texto)
     = Py.join [nl] [u "CloudBet (BR)"; u "KTO 2.10 ● 50.00 USD 3.00 Empate"].
Proof.
  cbv zeta. split; [vm_compute; reflexivity|].
  rewrite reassembler_idempotent_without_joinable_pairs;
    vm_compute; reflexivity.
Defined.

End ReassemblerExamples.

(** * Further properties of the code *)

(** ** Line reassembler: what the pass keeps *)

Section ReassemblerFacts.
Context {U : Unicode}.

Lemma visiveis_app (a b : text) : visiveis (a ++ b) = visiveis a ++ visiveis b.
Proof. apply filter_app. Qed.

Lemma visiveis_dropwhile (s : text) :
  visiveis (Py.dropwhile Py.isspace s) = visiveis s.
Proof.
  induction s as [|c r IH]; [reflexivity|]. simpl.
  destruct (Py.isspace c) eqn:E; [exact IH|]. simpl. rewrite E. reflexivity.
Qed.

Lemma visiveis_strip (s : text) : visiveis (Py.strip s) = visiveis s.
Proof.
  unfold Py.strip, Py.rstrip, Py.lstrip, visiveis.
  rewrite filter_rev. fold (visiveis (Py.dropwhile Py.isspace
                                     (rev (Py.dropwhile Py.isspace s)))).
  rewrite visiveis_dropwhile. unfold visiveis. rewrite filter_rev.
  rewrite rev_involutive. apply visiveis_dropwhile.
Qed.

Lemma visiveis_join (l : list text) :
  visiveis (Py.join [nl] l) = concat (map visiveis l).
Proof.
  induction l as [|x r IH]; [reflexivity|].
  destruct r as [|y r].
  - simpl. rewrite app_nil_r. reflexivity.
  - change (Py.join [nl] (x :: y :: r)) with (x ++ [nl] ++ Py.join [nl] (y :: r)).
    rewrite !visiveis_app, IH. reflexivity.
Qed.

Lemma visiveis_split (s : text) :
  concat (map visiveis (Py.split_char nl s)) = visiveis s.
Proof.
  induction s as [|x r IH]; [reflexivity|]. simpl Py.split_char.
  destruct (N.eqb_spec x nl) as [->|Hx].
  - simpl. exact IH.
  - destruct (Py.split_char nl r) as [|h t].
    + simpl in *. rewrite <- IH, app_nil_r. reflexivity.
    + simpl in *. rewrite <- IH.
      destruct (negb (Py.isspace x)); reflexivity.
Qed.

Lemma visiveis_blank (l : text) :
  Py.truthy (Py.strip l) = false -> visiveis l = [].
Proof.
  intros T. rewrite <- visiveis_strip.
  destruct (Py.strip l); [reflexivity | discriminate].
Qed.

Lemma visiveis_joined (a b : text) :
  visiveis (Py.strip a ++ sp ++ Py.strip b) = visiveis a ++ visiveis b.
Proof. rewrite !visiveis_app, !visiveis_strip. reflexivity. Qed.

Lemma visiveis_juntar_linhas (n : nat) :
  forall lines : list text,
    length lines <= n ->
    concat (map visiveis (juntar_linhas lines)) = concat (map visiveis lines).
Proof.
  induction n as [|n IH]; intros lines Hn.
  - destruct lines; [reflexivity | simpl in Hn; lia].
  - destruct lines as [|l r]; [reflexivity|].
    cbn [juntar_linhas].
    assert (Lr : length r <= n) by (simpl in Hn; lia).
    destruct (Py.truthy (Py.strip l)) eqn:T; cbn [negb].
    2: { rewrite IH by exact Lr. cbn [map concat].
         rewrite (visiveis_blank l T). reflexivity. }
    assert (Keep : concat (map visiveis (Py.strip l :: juntar_linhas r))
                   = concat (map visiveis (l :: r))).
    { cbn [map concat]. rewrite visiveis_strip, IH by exact Lr. reflexivity. }
    destruct r as [|p r']; [exact Keep|].
    assert (Lr' : length r' <= n) by (simpl in Lr; lia).
    assert (Join : concat (map visiveis
                     ((Py.strip l ++ sp ++ Py.strip p) :: juntar_linhas r'))
                   = concat (map visiveis (l :: p :: r'))).
    { cbn [map concat]. rewrite visiveis_joined, IH by exact Lr'.
      rewrite app_assoc. reflexivity. }
    destruct (Py.among (Py.strip p) sufixos_pais); [exact Join|].
    destruct (tem_odds_usd (Py.strip l) && eh_continuacao (Py.strip p));
      [exact Join | exact Keep].
Qed.

(** X2. The reassembler changes white space only: the characters of the
    page that are not white space come out the same, in the same order. *)
Theorem reassembler_changes_white_space_only (texto : text) :
  visiveis (preprocessar_linhas_quebradas texto) = visiveis texto.
Proof.
  unfold preprocessar_linhas_quebradas.
  rewrite visiveis_join.
  rewrite (visiveis_juntar_linhas (length (Py.split_char nl texto))) by lia.
  apply visiveis_split.
Qed.

Lemma juntar_linhas_length (n : nat) :
  forall lines : list text,
    length lines <= n -> length (juntar_linhas lines) <= length lines.
Proof.
  induction n as [|n IH]; intros lines Hn.
  - destruct lines; [simpl; lia | simpl in Hn; lia].
  - destruct lines as [|l r]; [simpl; lia|].
    cbn [juntar_linhas].
    assert (Lr : length r <= n) by (simpl in Hn; lia).
    pose proof (IH r Lr) as Hr.
    destruct (Py.truthy (Py.strip l)); cbn [negb]; [|simpl; lia].
    destruct r as [|p r']; [simpl; lia|].
    assert (Lr' : length r' <= n) by (simpl in Lr; lia).
    pose proof (IH r' Lr') as Hr'.
    destruct (Py.among (Py.strip p) sufixos_pais); [simpl in *; lia|].
    destruct (tem_odds_usd (Py.strip l) && eh_continuacao (Py.strip p));
      simpl in *; lia.
Qed.

Lemma split_char_length (c : N) (s : text) : 1 <= length (Py.split_char c s).
Proof.
  induction s as [|x r IH]; [simpl; lia|]. simpl.
  destruct (x =? c)%N; [simpl; lia|].
  destruct (Py.split_char c r); simpl in *; lia.
Qed.

(** X1. Every line of the reassembled text is a logical line (not empty, no
    white space at either end), and there are no more lines than before; the
    text is empty when no raw line has anything but white space. *)
Theorem reassembler_output_lines (texto : text) :
  (preprocessar_linhas_quebradas texto = []
   \/ Forall linha_logica
        (Py.split_char nl (preprocessar_linhas_quebradas texto)))
  /\ length (Py.split_char nl (preprocessar_linhas_quebradas texto))
     <= length (Py.split_char nl texto)
  /\ (visiveis texto = [] -> preprocessar_linhas_quebradas texto = []).
Proof.
  unfold preprocessar_linhas_quebradas.
  pose proof (juntar_linhas_logicas (length (Py.split_char nl texto))
                (Py.split_char nl texto) (Nat.le_refl _)
                (fun l => split_char_no_sep nl texto l)) as HL.
  pose proof (juntar_linhas_length (length (Py.split_char nl texto))
                (Py.split_char nl texto) (Nat.le_refl _)) as Hlen.
  pose proof (visiveis_juntar_linhas (length (Py.split_char nl texto))
                (Py.split_char nl texto) (Nat.le_refl _)) as Hvis.
  rewrite visiveis_split in Hvis.
  destruct (juntar_linhas (Py.split_char nl texto)) as [|x r] eqn:E.
  - split; [left; reflexivity|]. split; [apply split_char_length|].
    reflexivity.
  - assert (S : Py.split_char nl (Py.join [nl] (x :: r)) = x :: r).
    { apply split_char_join; [discriminate|].
      intros l Hl. rewrite Forall_forall in HL.
      destruct (HL l Hl) as (_ & _ & _ & H). exact H. }
    rewrite S. split; [right; exact HL|]. split; [exact Hlen|].
    intros V. exfalso. rewrite V in Hvis.
    inversion HL as [|? ? (Nx & Ax & _) _]; subst.
    cbn [map concat] in Hvis. apply app_eq_nil in Hvis as [Hx _].
    destruct x as [|c x']; [congruence|].
    simpl in Ax, Hx. destruct (Py.isspace c); discriminate.
Qed.

(** X3. A line followed by a line that is exactly a country suffix comes out
    as one line, the two joined by one space. *)
Theorem country_suffix_is_joined (a s : text) :
  In s sufixos_pais -> ~ In nl a -> Py.truthy (Py.strip a) = true ->
  preprocessar_linhas_quebradas (a ++ nl :: s) = Py.strip a ++ sp ++ s.
Proof.
  intros Hs Ha T. unfold preprocessar_linhas_quebradas.
  rewrite split_char_app by exact Ha.
  assert (F : Py.split_char nl s = [s] /\ Py.strip s = s
              /\ Py.among s sufixos_pais = true).
  { repeat (destruct Hs as [<-|Hs]; [repeat split; reflexivity|]).
    destruct Hs. }
  destruct F as (F1 & F2 & F3). rewrite F1.
  cbn [juntar_linhas]. rewrite T, F2, F3. reflexivity.
Qed.

End ReassemblerFacts.

Lemma country_suffix_is_joined_witness :
  In (u "(BR)") sufixos_pais /\ ~ In nl (u " CloudBet ")
  /\ preprocessar_linhas_quebradas (U := latin_cyrillic)
       (u " CloudBet " ++ nl :: u "(BR)") = u "CloudBet (BR)".
Proof.
  assert (A : In (u "(BR)") sufixos_pais) by (left; reflexivity).
  assert (B : ~ In nl (u " CloudBet "))
    by (intros H; repeat (destruct H as [H|H]; [discriminate|]); exact H).
  split; [exact A|]. split; [exact B|].
  exact (country_suffix_is_joined (U := latin_cyrillic)
           (u " CloudBet ") (u "(BR)") A B eq_refl).
Defined.

(** ** Gazetteer order and detector *)

Section OrderFacts.

Lemma chave_leb_peso (x y : text) : chave_leb x y = (peso y <=? peso x).
Proof.
  unfold chave_leb, peso.
  destruct (tem_parentese x), (tem_parentese y); simpl;
    destruct (Nat.ltb_spec (length y) (length x));
    destruct (Nat.eqb_spec (length x) (length y));
    simpl; symmetry;
    try (apply Nat.leb_le; lia); try (apply Nat.leb_gt; lia).
Qed.

Lemma inserir_perm (x : text) (l : list text) :
  Permutation (x :: l) (inserir x l).
Proof.
  induction l as [|y r IH]; simpl; [apply Permutation_refl|].
  destruct (chave_leb x y); [apply Permutation_refl|].
  eapply Permutation_trans; [apply perm_swap|].
  apply perm_skip. exact IH.
Qed.

Lemma ordenar_perm (l : list text) : Permutation l (ordenar l).
Proof.
  induction l as [|x r IH]; simpl; [apply Permutation_refl|].
  eapply Permutation_trans; [apply perm_skip; exact IH|].
  apply inserir_perm.
Qed.

Lemma sorted_weaken {A} (R S : A -> A -> Prop) (l : list A) :
  (forall x y, R x y -> S x y) -> StronglySorted R l -> StronglySorted S l.
Proof.
  intros H. induction 1 as [|x r Sr IH F]; constructor; [exact IH|].
  rewrite Forall_forall in F |- *. intros y Hy. apply H, F, Hy.
Qed.

Lemma inserir_sorted (x : text) (l : list text) :
  StronglySorted antes l -> StronglySorted antes (inserir x l).
Proof.
  induction l as [|y r IH]; intros S; simpl.
  - constructor; constructor.
  - inversion S as [|? ? Sr Fy]; subst.
    rewrite chave_leb_peso. destruct (Nat.leb_spec (peso y) (peso x)) as [L|G].
    + constructor; [exact S|]. constructor; [exact L|].
      rewrite Forall_forall in Fy |- *. intros z Hz.
      unfold antes in *. specialize (Fy z Hz). lia.
    + constructor; [apply IH; exact Sr|].
      rewrite Forall_forall in Fy |- *. intros z Hz.
      apply (Permutation_in _ (Permutation_sym (inserir_perm x r))) in Hz.
      destruct Hz as [<-|Hz]; [unfold antes; lia | apply Fy; exact Hz].
Qed.

Lemma ordenar_sorted (l : list text) : StronglySorted antes (ordenar l).
Proof.
  induction l as [|x r IH]; simpl; [constructor|].
  apply inserir_sorted. exact IH.
Qed.

Lemma inserir_stable (n : nat) (x : text) (l : list text) :
  filter (fun y => peso y =? n) (inserir x l)
  = filter (fun y => peso y =? n) (x :: l).
Proof.
  induction l as [|y r IH]; [reflexivity|]. simpl inserir.
  rewrite chave_leb_peso. destruct (Nat.leb_spec (peso y) (peso x)) as [L|G];
    [reflexivity|].
  cbn [filter] in *. rewrite IH.
  destruct (Nat.eqb_spec (peso x) n), (Nat.eqb_spec (peso y) n);
    try reflexivity. lia.
Qed.

Lemma ordenar_sorted_length (l : list text) :
  StronglySorted (fun x y => length y <= length x) (ordenar l).
Proof.
  eapply sorted_weaken; [|apply ordenar_sorted].
  intros x y H. unfold antes, peso in H.
  destruct (tem_parentese x), (tem_parentese y); lia.
Qed.

(** X4. The sort of the gazetteer ([sorted] with the key of the detector)
    keeps the entries, puts a longer entry before a shorter one and, at equal
    length, an entry with a parenthesis before one without; entries of equal
    key keep the order of the list. *)
Theorem ordenar_is_stable_sort (l : list text) :
  Permutation l (ordenar l)
  /\ StronglySorted (fun x y => chave_leb x y = true) (ordenar l)
  /\ StronglySorted (fun x y => length y <= length x) (ordenar l)
  /\ forall n, filter (fun y => peso y =? n) (ordenar l)
               = filter (fun y => peso y =? n) l.
Proof.
  split; [apply ordenar_perm|].
  pose proof (ordenar_sorted l) as S.
  split; [|split].
  - eapply sorted_weaken; [|exact S].
    intros x y H. rewrite chave_leb_peso. apply Nat.leb_le. exact H.
  - apply ordenar_sorted_length.
  - intros n. clear S. induction l as [|x r IH]; [reflexivity|]. simpl ordenar.
    rewrite inserir_stable. cbn [filter]. rewrite IH. reflexivity.
Qed.

End OrderFacts.

Section DetectorFacts.
Context {U : Unicode}.

Lemma find_first_sorted {A} (R : A -> A -> Prop) (p : A -> bool)
    (l : list A) (c h : A) :
  StronglySorted R l -> find p l = Some c -> In h l -> p h = true ->
  h = c \/ R c h.
Proof.
  induction 1 as [|x r Sr IH F]; intros Fd Hin Hp; [destruct Hin|].
  simpl in Fd. destruct (p x) eqn:Px.
  - injection Fd as <-. destruct Hin as [->|Hin]; [left; reflexivity|].
    right. rewrite Forall_forall in F. apply F, Hin.
  - destruct Hin as [->|Hin]; [congruence|]. apply IH; assumption.
Qed.

Lemma casas_ordenadas_perm : Permutation casas_sistema casas_ordenadas.
Proof. exact (ordenar_perm casas_sistema). Qed.

Lemma casas_ordenadas_sorted :
  StronglySorted (fun x y => length y <= length x) casas_ordenadas.
Proof. exact (ordenar_sorted_length casas_sistema). Qed.

Lemma casas_ordenadas_in (c : text) :
  In c casas_ordenadas -> In c casas_sistema.
Proof.
  apply Permutation_in. apply Permutation_sym. exact casas_ordenadas_perm.
Qed.

(** X5. When some entry of the gazetteer is found in the line, the detector
    returns an entry of the gazetteer that is found in the line and is at
    least as long as any other entry found in it: the longest match wins. *)
Theorem detector_returns_longest_entry (linha h : text) :
  In h casas_sistema ->
  casa_na_linha (Py.lower linha) h = true ->
  exists c,
    detectar_casa_apostas linha = Some c
    /\ In c casas_sistema
    /\ casa_na_linha (Py.lower linha) c = true
    /\ length h <= length c.
Proof.
  intros Hin Hp.
  pose proof casas_ordenadas_sorted as S.
  assert (Hin' : In h casas_ordenadas)
    by (exact (Permutation_in h casas_ordenadas_perm Hin)).
  destruct (find (casa_na_linha (Py.lower linha)) casas_ordenadas)
    as [c|] eqn:F.
  - exists c. split; [unfold detectar_casa_apostas; rewrite F; reflexivity|].
    pose proof (find_some _ _ F) as [Hc Pc].
    split; [exact (casas_ordenadas_in c Hc)|].
    split; [exact Pc|].
    destruct (find_first_sorted _ _ _ c h S F Hin' Hp) as [->|L]; [lia|exact L].
  - pose proof (find_none _ _ F h Hin') as N. congruence.
Qed.

Lemma casas_sistema_length :
  forallb (fun h => 3 <=? length h) casas_sistema = true.
Proof. vm_compute. reflexivity. Qed.

(** X6. Whatever the detector returns has at least three characters: a
    house name is never empty, so the test [if casa_encontrada] of the caller
    only tells a match from no match. *)
Theorem detector_result_has_three_characters (linha c : text) :
  detectar_casa_apostas linha = Some c -> 3 <= length c.
Proof.
  unfold detectar_casa_apostas.
  destruct (find (casa_na_linha (Py.lower linha)) casas_ordenadas)
    as [casa|] eqn:F.
  - intros E. injection E as <-. apply find_some in F as [Hc _].
    apply casas_ordenadas_in in Hc.
    pose proof (proj1 (forallb_forall _ _) casas_sistema_length _ Hc) as L.
    apply Nat.leb_le in L. exact L.
  - destruct (Re.search re_casa_dinamica linha) as [m|].
    + destruct (3 <=? length (Py.strip (Re.group 1 linha m))) eqn:L.
      * intros E. injection E as <-. apply Nat.leb_le in L. exact L.
      * destruct (Py.split (Py.strip linha)) as [|w ws]; [discriminate|].
        destruct (palavra_capitalizada_curta w && _) eqn:C; [|discriminate].
        intros E. injection E as <-.
        apply andb_true_iff in C as [C _]. unfold palavra_capitalizada_curta in C.
        apply andb_true_iff in C as [C _]. apply andb_true_iff in C as [C _].
        apply Nat.leb_le in C. exact C.
    + destruct (Py.split (Py.strip linha)) as [|w ws]; [discriminate|].
      destruct (palavra_capitalizada_curta w && _) eqn:C; [|discriminate].
      intros E. injection E as <-.
      apply andb_true_iff in C as [C _]. unfold palavra_capitalizada_curta in C.
      apply andb_true_iff in C as [C _]. apply andb_true_iff in C as [C _].
      apply Nat.leb_le in C. exact C.
Qed.

End DetectorFacts.

Lemma detector_returns_longest_entry_witness :
  In (u "Betano") casas_sistema
  /\ casa_na_linha (U := latin_cyrillic)
       (Py.lower (U := latin_cyrillic) (u "Betano (BR) Empate 3.40"))
       (u "Betano") = true
  /\ exists c,
       detectar_casa_apostas (U := latin_cyrillic) (u "Betano (BR) Empate 3.40")
       = Some c /\ length (u "Betano") <= length c.
Proof.
  assert (Hin : In (u "Betano") casas_sistema)
    by (apply among_in; vm_compute; reflexivity).
  assert (Hp : casa_na_linha (U := latin_cyrillic)
                 (Py.lower (U := latin_cyrillic) (u "Betano (BR) Empate 3.40"))
                 (u "Betano") = true) by (vm_compute; reflexivity).
  split; [exact Hin|]. split; [exact Hp|].
  destruct (detector_returns_longest_entry (U := latin_cyrillic)
              (u "Betano (BR) Empate 3.40") (u "Betano") Hin Hp)
    as (c & D & _ & _ & L).
  exists c. split; assumption.
Defined.

Lemma detector_result_has_three_characters_witness :
  detectar_casa_apostas (U := latin_cyrillic) (u "Cloud") = Some (u "Cloud")
  /\ 3 <= length (u "Cloud").
Proof.
  assert (D : detectar_casa_apostas (U := latin_cyrillic) (u "Cloud")
              = Some (u "Cloud")) by (vm_compute; reflexivity).
  split; [exact D|].
  exact (detector_result_has_three_characters (U := latin_cyrillic) _ _ D).
Defined.

(** ** Field extractor: null and shape of the fields *)

Section ExtractorShape.
Context {U : Unicode}.

Lemma odd_do_fim_in (l : list text) (o : Q) :
  odd_do_fim l = Some o -> exists s, In s l /\ o = Float.of_text s.
Proof.
  rewrite odd_do_fim_find. intros H. apply find_some in H as [H _].
  apply in_map_iff in H as (s & <- & H). exists s. split; [exact H|reflexivity].
Qed.

Lemma extrair_odd_in (l : list text) (o : Q) :
  extrair_odd l = Some o -> exists s, In s l /\ o = Float.of_text s.
Proof.
  unfold extrair_odd. destruct l as [|s l]; [discriminate|].
  destruct (odd_do_fim (rev (s :: l))) as [q|] eqn:E.
  - destruct (negb (Float.truthy (Some q))).
    + intros H. injection H as <-. exists (last (s :: l) []).
      split; [refine (last_in (s :: l) [] _); discriminate | reflexivity].
    + intros H. injection H as <-. apply odd_do_fim_in in E as (x & Hx & ->).
      exists x. split; [apply in_rev; exact Hx | reflexivity].
  - simpl. intros H. injection H as <-. exists (last (s :: l) []).
    split; [refine (last_in (s :: l) [] _); discriminate | reflexivity].
Qed.

(** X7. The odd is null exactly when the text before the symbol (or the
    currency) has no decimal number, and an odd is never negative. *)
Theorem odd_null_iff_no_decimal_before_split (texto_aposta casa_aposta : text) :
  (odd (processar_aposta_completa texto_aposta casa_aposta) = None
   <-> Re.findall Re.decimal_number (parte_antes_simbolo texto_aposta) = [])
  /\ (forall o, odd (processar_aposta_completa texto_aposta casa_aposta) = Some o
                -> (0 <= o)%Q).
Proof.
  unfold processar_aposta_completa. cbn [odd]. split.
  - destruct (Re.findall Re.decimal_number (parte_antes_simbolo texto_aposta))
      as [|s l]; [split; reflexivity|].
    split; [|discriminate]. unfold extrair_odd.
    destruct (odd_do_fim (rev (s :: l))) as [q|]; [|discriminate].
    destruct (negb (Float.truthy (Some q))); discriminate.
  - intros o H. apply extrair_odd_in in H as (s & Hs & ->).
    eapply findall_decimal_nonneg. exact Hs.
Qed.

(** X8. A bet type that is not null is not empty and has no white space at
    its ends. *)
Theorem tipo_is_null_or_stripped (texto_aposta casa_aposta t : text) :
  type (processar_aposta_completa texto_aposta casa_aposta) = Some t ->
  t <> [] /\ Py.strip t = t.
Proof.
  unfold processar_aposta_completa. cbn [type]. unfold extrair_tipo.
  cbv zeta.
  match goal with
  | |- (if Py.truthy (limpar_espacos ?x) then _ else _) = _ -> _ =>
      generalize x
  end.
  intros x. unfold limpar_espacos.
  generalize (Re.sub (Re.plus Re.s) [32%N] x). intros y.
  destruct (Py.truthy (Py.strip y)) eqn:T; [|discriminate].
  intros E. injection E as <-. split.
  - intros E. rewrite E in T. discriminate.
  - apply strip_fixed; [apply strip_clean_start | apply strip_clean_end].
Qed.

End ExtractorShape.

Lemma tipo_is_null_or_stripped_witness :
  type (processar_aposta_completa (U := latin_cyrillic)
          (u "KTO (BR) Vitória ● 100.00 USD 18.50") (u "KTO (BR)"))
  = Some (u "Vitória")
  /\ u "Vitória" <> [] /\ Py.strip (U := latin_cyrillic) (u "Vitória") = u "Vitória".
Proof.
  assert (T : type (processar_aposta_completa (U := latin_cyrillic)
                      (u "KTO (BR) Vitória ● 100.00 USD 18.50") (u "KTO (BR)"))
              = Some (u "Vitória")) by (vm_compute; reflexivity).
  split; [exact T|].
  exact (tipo_is_null_or_stripped (U := latin_cyrillic) _ _ _ T).
Defined.

(** ** Bet segmenter: windows, cursor and fuel *)

Section SegmenterFacts.
Context {U : Unicode}.

Ltac split_ifs :=
  repeat match goal with
         | |- context [if ?c then _ else _] => destruct c eqn:?
         end.

Lemma completar_casa_cursor (fuel : nat) (linhas : list text) (i : nat) :
  forall st,
    fr_j st <= fr_j (completar_casa fuel linhas i st)
    /\ fr_j (completar_casa fuel linhas i st) <= Nat.max (fr_j st) (i + 4)
    /\ fr_j (completar_casa fuel linhas i st)
       <= Nat.max (fr_j st) (length linhas).
Proof.
  induction fuel as [|fuel IH]; intros st; [simpl; lia|].
  cbn [completar_casa].
  destruct ((fr_j st <? length linhas) && (fr_j st <? i + 4)) eqn:C;
    [|lia].
  apply andb_true_iff in C as [C1 C2].
  apply Nat.ltb_lt in C1. apply Nat.ltb_lt in C2.
  split_ifs; try lia;
    match goal with
    | |- context [completar_casa fuel linhas i ?X] =>
        pose proof (IH X) as H; cbn [fr_j usar_linha] in H; lia
    end.
Qed.

Lemma completar_casa_usadas (fuel : nat) (linhas : list text) (i : nat) :
  forall st,
    Forall (fun k => k < fr_j st) (linhas_usadas_fragmentos st) ->
    Forall (fun k => k < fr_j (completar_casa fuel linhas i st))
           (linhas_usadas_fragmentos (completar_casa fuel linhas i st)).
Proof.
  induction fuel as [|fuel IH]; intros st F; [exact F|].
  cbn [completar_casa].
  assert (W : Forall (fun k => k < S (fr_j st)) (linhas_usadas_fragmentos st)).
  { eapply Forall_impl; [|exact F]. intros k Hk. simpl in Hk. lia. }
  split_ifs; try exact F; apply IH; cbn [fr_j usar_linha
    linhas_usadas_fragmentos]; try exact W; constructor; try exact W; lia.
Qed.

Lemma acumular_corpo_cursor (fuel : nat) (linhas : list text) (i : nat)
    (casa : text) (fr : fragmentos) :
  forall st,
    co_j st <= co_j (acumular_corpo fuel linhas i casa fr st)
    /\ co_j (acumular_corpo fuel linhas i casa fr st)
       <= Nat.max (co_j st) (i + 8)
    /\ co_j (acumular_corpo fuel linhas i casa fr st)
       <= Nat.max (co_j st) (length linhas).
Proof.
  induction fuel as [|fuel IH]; intros st; [simpl; lia|].
  cbn [acumular_corpo].
  destruct ((co_j st <? length linhas) && (co_j st <? i + 8)) eqn:C;
    [|lia].
  apply andb_true_iff in C as [C1 C2].
  apply Nat.ltb_lt in C1. apply Nat.ltb_lt in C2.
  destruct (existsb (Nat.eqb (co_j st)) (linhas_usadas_fragmentos fr)).
  { match goal with
    | |- context [acumular_corpo fuel linhas i casa fr ?X] =>
        pose proof (IH X) as H; cbn [co_j] in H; lia
    end. }
  destruct (Py.split (Py.strip (nth (co_j st) linhas []))) as [|w ws].
  - split_ifs; try lia;
      match goal with
      | |- context [acumular_corpo fuel linhas i casa fr ?X] =>
          pose proof (IH X) as H; cbn [co_j] in H; lia
      end.
  - split_ifs; cbn [co_j]; try lia;
      match goal with
      | |- context [acumular_corpo fuel linhas i casa fr ?X] =>
          pose proof (IH X) as H; cbn [co_j] in H; lia
      end.
Qed.

(** X9. A leg takes at least the line where its house was detected and at
    most eight lines, and never reaches past the last line: the cursor after
    a leg that starts at line [i] is above [i], at most [i + 8] and at most
    the number of lines. *)
Theorem leg_window_is_bounded (linhas : list text) (i : nat) (casa : text) :
  i < length linhas ->
  i < pe_j (segmentar_aposta linhas i casa)
  /\ pe_j (segmentar_aposta linhas i casa) <= i + 8
  /\ pe_j (segmentar_aposta linhas i casa) <= length linhas.
Proof.
  intros Hi. unfold segmentar_aposta. cbv zeta. cbn [pe_j].
  set (fr := completar_casa 3 linhas i (Fragmentos (i + 1) [] [] [])).
  pose proof (completar_casa_cursor 3 linhas i (Fragmentos (i + 1) [] [] []))
    as A. fold fr in A. cbn [fr_j] in A.
  match goal with
  | |- context [acumular_corpo 8 linhas i ?c fr ?st] =>
      pose proof (acumular_corpo_cursor 8 linhas i c fr st) as B
  end.
  cbn [co_j] in B. lia.
Qed.

(** X10. The rest of a line whose first word went into the house name is
    never added to the text of the leg: when the body of a leg is collected,
    the cursor is already past every line used for the house name, so the set
    of used lines and the saved remainders have no effect. *)
Theorem saved_remainders_are_never_used (linhas : list text) (i : nat)
    (casa_encontrada : text) (fuel : nat) :
  let fr := completar_casa 3 linhas i (Fragmentos (i + 1) [] [] []) in
  forall st,
    fr_j fr <= co_j st ->
    acumular_corpo fuel linhas i casa_encontrada fr st
    = acumular_corpo fuel linhas i casa_encontrada
        (Fragmentos (fr_j fr) (fragmentos_casa fr) [] []) st.
Proof.
  cbv zeta.
  set (fr := completar_casa 3 linhas i (Fragmentos (i + 1) [] [] [])).
  assert (F : Forall (fun k => k < fr_j fr) (linhas_usadas_fragmentos fr)).
  { apply completar_casa_usadas. constructor. }
  set (fr0 := Fragmentos (fr_j fr) (fragmentos_casa fr) [] []).
  induction fuel as [|fuel IH]; intros st Hj; [reflexivity|].
  cbn [acumular_corpo].
  assert (E : existsb (Nat.eqb (co_j st)) (linhas_usadas_fragmentos fr) = false).
  { apply not_true_is_false. intros H.
    apply existsb_exists in H as (k & Hk & Ek). apply Nat.eqb_eq in Ek.
    rewrite Forall_forall in F. specialize (F k Hk). lia. }
  rewrite E. cbn [linhas_usadas_fragmentos fr0 existsb].
  rewrite !IH by (cbn [co_j]; lia). reflexivity.
Qed.


Lemma completar_casa_fuel (linhas : list text) (i : nat) (fuel n : nat) :
  forall st,
    i + 4 <= fr_j st + fuel ->
    completar_casa (fuel + n) linhas i st = completar_casa fuel linhas i st.
Proof.
  induction fuel as [|fuel IH]; intros st H.
  - simpl. destruct n as [|n]; [reflexivity|]. cbn [completar_casa].
    destruct (Nat.ltb_spec (fr_j st) (i + 4)); [lia|].
    rewrite andb_false_r. reflexivity.
  - cbn [Nat.add completar_casa].
    rewrite !IH by (cbn [fr_j usar_linha]; lia). reflexivity.
Qed.

Lemma acumular_corpo_fuel (linhas : list text) (i : nat) (casa : text)
    (fr : fragmentos) (fuel n : nat) :
  forall st,
    i + 8 <= co_j st + fuel ->
    acumular_corpo (fuel + n) linhas i casa fr st
    = acumular_corpo fuel linhas i casa fr st.
Proof.
  induction fuel as [|fuel IH]; intros st H.
  - simpl. destruct n as [|n]; [reflexivity|]. cbn [acumular_corpo].
    destruct (Nat.ltb_spec (co_j st) (i + 8)); [lia|].
    rewrite andb_false_r. reflexivity.
  - cbn [Nat.add acumular_corpo].
    rewrite !IH by (cbn [co_j]; lia). reflexivity.
Qed.

Lemma segmentar_aposta_advances (linhas : list text) (i : nat) (casa : text) :
  i < pe_j (segmentar_aposta linhas i casa).
Proof.
  unfold segmentar_aposta. cbv zeta. cbn [pe_j].
  set (fr := completar_casa 3 linhas i (Fragmentos (i + 1) [] [] [])).
  pose proof (completar_casa_cursor 3 linhas i (Fragmentos (i + 1) [] [] []))
    as A. fold fr in A. cbn [fr_j] in A.
  match goal with
  | |- context [acumular_corpo 8 linhas i ?c fr ?st] =>
      pose proof (acumular_corpo_cursor 8 linhas i c fr st) as B
  end.
  cbn [co_j] in B. lia.
Qed.

Lemma extrair_apostas_fuel (linhas : list text) (fuel n : nat) :
  forall i,
    length linhas <= i + fuel ->
    extrair_apostas (fuel + n) linhas i = extrair_apostas fuel linhas i.
Proof.
  induction fuel as [|fuel IH]; intros i H.
  - simpl. destruct n as [|n]; [reflexivity|]. cbn [extrair_apostas].
    destruct (Nat.ltb_spec i (length linhas)); [lia | reflexivity].
  - cbn [Nat.add extrair_apostas].
    destruct (i <? length linhas); [|reflexivity].
    destruct (detectar_casa_apostas (nth i linhas [])) as [casa|];
      [|apply IH; lia].
    destruct (Py.truthy casa); [|apply IH; lia].
    pose proof (segmentar_aposta_advances linhas i casa) as A.
    rewrite IH by lia. reflexivity.
Qed.

(** X11. The three loops of the segmenter end on their own conditions: the
    house-name loop within three lines, the body loop within the eighth
    line after the start of the leg, and the leg loop when the cursor has
    passed the last line. Further turns change nothing. *)
Theorem segmenter_loops_end_by_cursor (linhas : list text) (i n : nat) :
  completar_casa (3 + n) linhas i (Fragmentos (i + 1) [] [] [])
  = completar_casa 3 linhas i (Fragmentos (i + 1) [] [] [])
  /\ (forall casa fr st,
        i < co_j st ->
        acumular_corpo (8 + n) linhas i casa fr st
        = acumular_corpo 8 linhas i casa fr st)
  /\ extrair_apostas (length linhas + n) linhas 0 = apostas_encontradas linhas.
Proof.
  split; [apply completar_casa_fuel; cbn [fr_j]; lia|].
  split; [intros casa fr st H; apply acumular_corpo_fuel; lia|].
  apply extrair_apostas_fuel. lia.
Qed.

(** Every accepted leg is what the field extractor returned for some text
    and house, and passed the test of the caller. *)
Lemma extrair_apostas_aceitas (fuel : nat) (linhas : list text) :
  forall (i : nat) (a : aposta),
    In a (fst (extrair_apostas fuel linhas i)) ->
    exists texto casa,
      aceitar (processar_aposta_completa texto casa) = Some a.
Proof.
  induction fuel as [|fuel IH]; intros i a; [cbn; contradiction|].
  cbn [extrair_apostas].
  destruct (i <? length linhas); [|contradiction].
  destruct (detectar_casa_apostas (nth i linhas [])) as [casa|];
    [|apply IH].
  destruct (Py.truthy casa); [|apply IH].
  cbn [fst].
  destruct (pe_aposta (segmentar_aposta linhas i casa)) as [b|] eqn:S;
    [|apply IH].
  intros [E|Hin]; [|eapply IH; exact Hin].
  subst b. unfold segmentar_aposta in S. cbv zeta in S. cbn [pe_aposta] in S.
  eexists. eexists. exact S.
Qed.

End SegmenterFacts.

(** ** Capturing groups and the sign of stake and percentage *)

Section GroupFacts.
Context {U : Unicode}.

Lemma mais_grupos_refl (gs : list nat) (st : Re.mstate) : mais_grupos gs st st.
Proof. exists []. split; [reflexivity | constructor]. Qed.

Lemma mais_grupos_trans (g1 g2 gs : list nat) (a b c : Re.mstate) :
  incl g1 gs -> incl g2 gs ->
  mais_grupos g1 a b -> mais_grupos g2 b c -> mais_grupos gs a c.
Proof.
  intros I1 I2 (n1 & E1 & F1) (n2 & E2 & F2). exists (n2 ++ n1). split.
  - rewrite E2, E1, app_assoc. reflexivity.
  - apply Forall_app. split; eapply Forall_impl; try eassumption;
      intros x Hx; [apply I2 | apply I1]; exact Hx.
Qed.

Lemma mais_grupos_weaken (g gs : list nat) (a b : Re.mstate) :
  incl g gs -> mais_grupos g a b -> mais_grupos gs a b.
Proof.
  intros I H.
  exact (mais_grupos_trans g [] gs a b b I (incl_nil_l _) H
           (mais_grupos_refl [] b)).
Qed.

(** A successful run hands to its continuation a state that has the groups
    of the start and groups of the pattern on top. *)
Lemma run_caps (r : Re.regex) :
  forall st k res,
    Re.run r st k = Some res ->
    exists st', k st' = Some res /\ mais_grupos (grupos r) st st'.
Proof.
  induction r as [|p|a IHa b IHb|a IHa b IHb|a IHa| | | |n a IHa];
    intros st k res H; cbn [grupos].
  - exists st. split; [exact H | apply mais_grupos_refl].
  - cbn [Re.run] in H. destruct (Re.rest st) as [|c t]; [discriminate|].
    destruct (p c); [|discriminate].
    exists (Re.advance st c t). split; [exact H|].
    exists []. split; [reflexivity | constructor].
  - cbn [Re.run] in H. apply IHa in H as (st1 & H & E1).
    apply IHb in H as (st2 & H & E2).
    exists st2. split; [exact H|].
    eapply mais_grupos_trans; [| |exact E1|exact E2];
      [apply incl_appl | apply incl_appr]; apply incl_refl.
  - cbn [Re.run] in H. destruct (Re.run a st k) as [m|] eqn:Ea.
    + injection H as ->. apply IHa in Ea as (st1 & Hk & E1).
      exists st1. split; [exact Hk|].
      eapply mais_grupos_weaken; [|exact E1]. apply incl_appl, incl_refl.
    + apply IHb in H as (st1 & Hk & E1).
      exists st1. split; [exact Hk|].
      eapply mais_grupos_weaken; [|exact E1]. apply incl_appr, incl_refl.
  - change (Re.run (Re.Star a) st k) with
      ((fix loop (n : nat) (st : Re.mstate) {struct n} : option Re.mstate :=
          match n with
          | O => k st
          | S n' =>
              match Re.run a st (fun st' =>
                      if Re.pos st <? Re.pos st' then loop n' st' else None) with
              | Some m => Some m
              | None => k st
              end
          end) (S (length (Re.rest st))) st) in H.
    remember (S (length (Re.rest st))) as n eqn:En. clear En. revert st H.
    induction n as [|n IHn]; intros st H.
    + exists st. split; [exact H | apply mais_grupos_refl].
    + match type of H with
      | match ?x with Some _ => _ | None => _ end = _ => destruct x eqn:Ea
      end.
      * injection H as ->. apply IHa in Ea as (st1 & Hk & E1).
        destruct (Re.pos st <? Re.pos st1); [|discriminate].
        apply IHn in Hk as (st2 & Hk & E2).
        exists st2. split; [exact Hk|].
        eapply mais_grupos_trans; [| |exact E1|exact E2]; apply incl_refl.
      * exists st. split; [exact H | apply mais_grupos_refl].
  - cbn [Re.run] in H. destruct (Re.pos st =? 0); [|discriminate].
    exists st. split; [exact H | apply mais_grupos_refl].
  - cbn [Re.run] in H. exists st. split; [|apply mais_grupos_refl].
    destruct (Re.rest st) as [|c [|c' t]]; [exact H| |discriminate].
    destruct (c =? 10)%N; [exact H | discriminate].
  - cbn [Re.run] in H. exists st. split; [|apply mais_grupos_refl].
    destruct (xorb _ _); [exact H | discriminate].
  - cbn [Re.run] in H. apply IHa in H as (st1 & H & (nv & E1 & F1)).
    exists (Re.close_group n (Re.pos st) st1). split; [exact H|].
    exists ((n, (Re.pos st, Re.pos st1)) :: nv). split.
    + cbn [Re.close_group Re.caps]. rewrite E1. reflexivity.
    + constructor; [left; reflexivity|].
      eapply Forall_impl; [|exact F1]. intros x Hx. right. exact Hx.
Qed.


Lemma find_group_below (n : nat) (novos : list (nat * (nat * nat)))
    (x : nat * (nat * nat)) (r : list (nat * (nat * nat))) :
  Forall (fun c => fst c <> n) novos -> fst x = n ->
  find (fun c => fst c =? n) (novos ++ x :: r) = Some x.
Proof.
  intros F E. induction F as [|y l Hy _ IH]; simpl.
  - rewrite E, Nat.eqb_refl. reflexivity.
  - apply Nat.eqb_neq in Hy. rewrite Hy. exact IH.
Qed.

(** For a pattern that opens with its group 1, the text of the group starts
    where the match starts. *)
Lemma leading_group_text (A R2 : Re.regex) (pc : N -> bool)
    (s : text) (i : nat) (p : option N) (m : Re.rmatch) :
  grupos A = [] -> ~ In 1 (grupos R2) ->
  (forall st k res, Re.run A st k = Some res ->
                    exists c t, Re.rest st = c :: t /\ pc c = true) ->
  Re.match_at (Re.Seq (Re.Grp 1 A) R2) i p (skipn i s) = Some m ->
  Re.group 1 s m = []
  \/ exists c t, Re.group 1 s m = c :: t /\ pc c = true.
Proof.
  intros GA G2 HA. unfold Re.match_at.
  destruct (Re.run _ _ Some) as [st|] eqn:R; [|discriminate].
  intros E. injection E as <-. cbn [Re.run] in R.
  pose proof (HA _ _ _ R) as (c & t & Hc & Pc). cbn [Re.rest] in Hc.
  apply run_caps in R as (st1 & R & (n1 & E1 & F1)).
  rewrite GA in F1. cbn [Re.caps] in E1.
  assert (N1 : n1 = []).
  { destruct n1 as [|x n1]; [reflexivity|]. inversion F1 as [|? ? Hx _].
    destruct Hx. }
  subst n1. cbn [app] in E1. cbn [Re.pos] in R.
  apply run_caps in R as (st2 & R & (n2 & E2 & F2)).
  injection R as <-.
  unfold Re.group. cbn [Re.m_caps]. rewrite E2.
  cbn [Re.close_group Re.caps]. rewrite E1.
  rewrite find_group_below; [|  | reflexivity].
  - unfold Py.slice. rewrite Hc.
    destruct (Re.pos st1 - i); [left; reflexivity|].
    right. exists c, (firstn n t). split; [reflexivity | exact Pc].
  - eapply Forall_impl; [|exact F2]. intros x Hx E. apply G2.
    rewrite <- E. exact Hx.
Qed.

Lemma search_from_origin (r : Re.regex) (s : text) :
  forall (i : nat) (p : option N) (m : Re.rmatch),
    Re.search_from r i p s = Some m ->
    exists k p', Re.match_at r (i + k) p' (skipn k s) = Some m.
Proof.
  induction s as [|c t IH]; intros i p m; cbn [Re.search_from].
  - destruct (Re.match_at r i p []) as [m'|] eqn:E; [|discriminate].
    intros H. injection H as <-. exists 0, p. rewrite Nat.add_0_r. exact E.
  - destruct (Re.match_at r i p (c :: t)) as [m'|] eqn:E.
    + intros H. injection H as <-. exists 0, p. rewrite Nat.add_0_r. exact E.
    + intros H. apply IH in H as (k & p' & H).
      exists (S k), p'. rewrite Nat.add_succ_r. exact H.
Qed.

Lemma group_nonneg (s : text) (m : Re.rmatch) :
  Re.group 1 s m = []
  \/ (exists c t, Re.group 1 s m = c :: t /\ Py.isdecimal c = true) ->
  (0 <= Float.of_text (Re.group 1 s m))%Q.
Proof.
  intros [E|(c & t & E & D)]; rewrite E; apply of_text_nonneg; simpl;
    [discriminate|].
  intros H. injection H as ->. rewrite minus_not_decimal in D. discriminate.
Qed.

Lemma extrair_stake_nonneg (texto : text) (x : Q) :
  extrair_stake texto = Some x -> (0 <= x)%Q.
Proof.
  unfold extrair_stake, Re.matches.
  destruct (Re.matches_from re_stake 0 None texto 0) as [|m r] eqn:E;
    [discriminate|].
  intros H. injection H as <-.
  assert (Hin : In m (Re.matches_from re_stake 0 None texto 0))
    by (rewrite E; left; reflexivity).
  apply matches_from_origin in Hin as (k & p' & Hm). cbn [Nat.add] in Hm.
  apply group_nonneg.
  unfold re_stake, Re.seqs in Hm.
  eapply (leading_group_text _ _ Py.isdecimal texto k p' m); [| | |exact Hm].
  - reflexivity.
  - cbn. intros [H|[]]. discriminate.
  - intros st c res R. unfold Re.plus, Re.d in R. cbn [Re.run] in R.
    destruct (Re.rest st) as [|c0 t]; [discriminate|].
    exists c0, t. split; [reflexivity|].
    destruct (Py.isdecimal c0); [reflexivity | discriminate].
Qed.

Lemma percent_nonneg (linha : text) (m : Re.rmatch) :
  Re.search re_percent linha = Some m ->
  (0 <= Float.of_text (Re.group 1 linha m))%Q.
Proof.
  unfold Re.search. intros H.
  apply search_from_origin in H as (k & p' & Hm). cbn [Nat.add] in Hm.
  apply group_nonneg.
  unfold re_percent, Re.seqs in Hm.
  eapply (leading_group_text _ _ Py.isdecimal linha k p' m); [| | |exact Hm].
  - reflexivity.
  - cbn. intros [].
  - intros st c res R. unfold Re.decimal_number, Re.seqs, Re.plus, Re.d in R.
    cbn [Re.run] in R.
    destruct (Re.rest st) as [|c0 t]; [discriminate|].
    exists c0, t. split; [reflexivity|].
    destruct (Py.isdecimal c0); [reflexivity | discriminate].
Qed.

Lemma extrair_profit_nonneg (texto : text) (stake odd : option Q) (p : Q) :
  extrair_profit texto stake odd = Some p -> (0 <= p)%Q.
Proof.
  unfold extrair_profit.
  destruct (profit_apos_stake texto stake) as [q|] eqn:A.
  - apply profit_apos_stake_nonneg in A.
    destruct (negb (Float.truthy (Some q))).
    + destruct (profit_do_fim _ stake odd) as [q'|] eqn:B.
      * intros H. injection H as <-.
        eapply profit_do_fim_nonneg; eassumption.
      * intros H. injection H as <-. exact A.
    + intros H. injection H as <-. exact A.
  - simpl. destruct (profit_do_fim _ stake odd) as [q'|] eqn:B; [|discriminate].
    intros H. injection H as <-. eapply profit_do_fim_nonneg; eassumption.
Qed.

(** X16. For every leg text and house name, a stake the field extractor
    returns is not negative: the number before the currency is read without
    a sign. *)
Theorem extracted_stake_nonnegative (texto_aposta casa_aposta : text) (x : Q) :
  stake (processar_aposta_completa texto_aposta casa_aposta) = Some x ->
  (0 <= x)%Q.
Proof.
  unfold processar_aposta_completa. cbn [stake]. apply extrair_stake_nonneg.
Qed.

End GroupFacts.

(** ** Record assembler: what every record satisfies *)

Section RecordFacts.
Context {U : Unicode} {Sd : Stdout}.

Lemma strip_idempotent (s : text) : Py.strip (Py.strip s) = Py.strip s.
Proof. apply strip_fixed; [apply strip_clean_start | apply strip_clean_end]. Qed.

Lemma aceitar_aceita (texto casa : text) (a : aposta) :
  aceitar (processar_aposta_completa texto casa) = Some a -> aposta_aceita a.
Proof.
  unfold aceitar.
  destruct (verdadeiro (house (processar_aposta_completa texto casa))
            && Float.truthy (odd (processar_aposta_completa texto casa)))
    eqn:C; [|discriminate].
  intros E. injection E as <-. apply andb_true_iff in C as [H O].
  split; [exact H|].
  split; [|split; intros x Ex;
             [eapply extrair_stake_nonneg | eapply extrair_profit_nonneg];
             exact Ex].
  destruct (odd (processar_aposta_completa texto casa)) as [o|] eqn:Eo;
    [|discriminate].
  exists o. split; [reflexivity|].
  assert (N : (0 <= o)%Q).
  { unfold processar_aposta_completa in Eo. cbn [odd] in Eo.
    apply extrair_odd_in in Eo as (s & Hs & ->).
    eapply findall_decimal_nonneg. exact Hs. }
  unfold Float.truthy, Float.eqb in O. apply negb_true_iff in O.
  apply Qle_lteq in N as [L|E]; [exact L|].
  exfalso. symmetry in E. apply Qeq_bool_iff in E. congruence.
Qed.

Lemma apostas_encontradas_aceitas (linhas : list text) (a : aposta) :
  In a (fst (apostas_encontradas linhas)) -> aposta_aceita a.
Proof.
  unfold apostas_encontradas. intros H.
  destruct (extrair_apostas_aceitas (length linhas) linhas 0 a H)
    as (texto & casa & E).
  exact (aceitar_aceita texto casa a E).
Qed.

(** The date pass writes the date and nothing else. *)
Lemma extrair_data_frame (linhas : list text) (d : dados) :
  let d' := extrair_data linhas d in
  sport d' = sport d /\ league d' = league d /\ teamA d' = teamA d
  /\ teamB d' = teamB d /\ bet1 d' = bet1 d /\ bet2 d' = bet2 d
  /\ bet3 d' = bet3 d /\ profitPercentage d' = profitPercentage d.
Proof.
  cbv zeta. unfold extrair_data.
  destruct (find _ linhas) as [linha|]; [|repeat split].
  destruct (Re.search re_data linha) as [m|]; [|repeat split].
  destruct (Data.reformatar _); repeat split.
Qed.

Lemma extrair_times_percent (linhas : list text) (d : dados) :
  nao_negativo (profitPercentage d) ->
  nao_negativo (profitPercentage (extrair_times linhas d)).
Proof.
  intros N. unfold extrair_times.
  destruct (find _ linhas) as [linha|]; [|exact N].
  destruct (Re.search re_percent linha) as [m|] eqn:S.
  - assert (P : nao_negativo (Some (Float.of_text (Re.group 1 linha m)))).
    { intros x E. injection E as <-. apply percent_nonneg. exact S. }
    destruct (Py.contains [travessao] _); [|exact P].
    destruct (Py.split_char travessao _) as [|a [|b r]]; exact P.
  - destruct (Py.contains [travessao] _); [|exact N].
    destruct (Py.split_char travessao _) as [|a [|b r]]; exact N.
Qed.

(** The team pass writes the two teams together, stripped, and the
    percentage; nothing else. *)
Lemma extrair_times_frame (linhas : list text) (d : dados) :
  let d' := extrair_times linhas d in
  date d' = date d /\ sport d' = sport d /\ league d' = league d
  /\ bet1 d' = bet1 d /\ bet2 d' = bet2 d /\ bet3 d' = bet3 d
  /\ ((teamA d' = teamA d /\ teamB d' = teamB d)
      \/ exists a b, teamA d' = Some (Py.strip a) /\ teamB d' = Some (Py.strip b)).
Proof.
  cbv zeta. unfold extrair_times.
  destruct (find _ linhas) as [linha|]; [|repeat split; left; split; reflexivity].
  destruct (Re.search re_percent linha) as [m|].
  - destruct (Py.contains [travessao] _);
      [|repeat split; left; split; reflexivity].
    destruct (Py.split_char travessao _) as [|a [|b r]];
      repeat split; try (left; split; reflexivity).
    right. exists a, b. split; reflexivity.
  - destruct (Py.contains [travessao] _);
      [|repeat split; left; split; reflexivity].
    destruct (Py.split_char travessao _) as [|a [|b r]];
      repeat split; try (left; split; reflexivity).
    right. exists a, b. split; reflexivity.
Qed.

Lemma same_but_sport_refl (d : dados) : same_but_sport d d.
Proof. repeat split. left. split; reflexivity. Qed.

Lemma same_but_sport_set (d : dados) (a b : text) :
  same_but_sport d (set_sport_league d (Py.strip a) (Py.strip b)).
Proof. repeat split. right. exists a, b. split; reflexivity. Qed.

Lemma same_but_sport_trans (d d' d'' : dados) :
  same_but_sport d d' -> same_but_sport d' d'' -> same_but_sport d d''.
Proof.
  intros (A1 & A2 & A3 & A4 & A5 & A6 & A7 & A8)
         (B1 & B2 & B3 & B4 & B5 & B6 & B7 & B8).
  repeat split; try congruence.
  destruct B8 as [[S L]|B8]; [|right; exact B8].
  destruct A8 as [[S' L']|A8]; [left; split; congruence|].
  right. destruct A8 as (a & b & Ha & Hb). exists a, b.
  split; congruence.
Qed.

Lemma esporte_conhecido_frame (linhas : list text) (it : option nat) :
  forall i d, same_but_sport d (esporte_conhecido linhas i it d).
Proof.
  induction linhas as [|linha r IH]; intros i d; [apply same_but_sport_refl|].
  cbn [esporte_conhecido].
  destruct (match it with Some k => longe i k | None => false end);
    [apply IH|].
  destruct (Py.contains barra linha && _); [|apply IH].
  destruct (Py.split_sep barra linha) as [|p0 [|p1 ps]];
    try apply same_but_sport_refl.
  apply same_but_sport_set.
Qed.

Lemma esporte_generico_frame (n : nat) :
  forall linhas d, same_but_sport d (esporte_generico n linhas d).
Proof.
  induction n as [|n IH]; intros linhas d; [apply same_but_sport_refl|].
  destruct linhas as [|linha r]; [apply same_but_sport_refl|].
  cbn [esporte_generico].
  destruct (Py.contains barra linha && _ && _); [|apply IH].
  destruct (Py.split_sep barra linha) as [|p0 [|p1 ps]]; try apply IH.
  destruct ((length (Py.strip p0) <? 30) && _ && _); [|apply IH].
  apply same_but_sport_set.
Qed.

(** The sport pass writes sport and league together, stripped; nothing
    else. *)
Lemma extrair_esporte_frame (linhas : list text) (d : dados) :
  same_but_sport d (extrair_esporte linhas d).
Proof.
  unfold extrair_esporte.
  pose proof (esporte_conhecido_frame linhas (indice_times linhas d) 0 d) as A.
  cbv zeta.
  destruct (indice_times linhas d) as [k|]; [|exact A].
  destruct (negb _ && _); [|exact A].
  eapply same_but_sport_trans; [exact A | apply esporte_generico_frame].
Qed.


Lemma campo_limpo_strip (a : text) : campo_limpo (Some (Py.strip a)).
Proof. intros t E. injection E as <-. apply strip_idempotent. Qed.

(** The legs a page gives go to bet1, bet2 and bet3 in the order of
    detection; the other fields are what the three passes left. *)
Lemma processar_pagina_fields (texto : text) (d : dados) :
  let linhas := linhas_da_pagina texto in
  let legs := fst (apostas_encontradas linhas) in
  let d3 := extrair_esporte linhas (extrair_times linhas
                                      (extrair_data linhas d)) in
  let d' := fst (fst (processar_pagina texto d)) in
  bet1 d' = nth 0 legs (bet1 d) /\ bet2 d' = nth 1 legs (bet2 d)
  /\ bet3 d' = nth 2 legs (bet3 d)
  /\ snd (fst (processar_pagina texto d)) = length legs
  /\ teamA d' = teamA d3 /\ teamB d' = teamB d3
  /\ sport d' = sport d3 /\ league d' = league d3
  /\ profitPercentage d' = profitPercentage d3.
Proof.
  cbv zeta. unfold processar_pagina.
  set (linhas := linhas_da_pagina texto).
  destruct (extrair_data_frame linhas d)
    as (_ & _ & _ & _ & A1 & A2 & A3 & _).
  destruct (extrair_times_frame linhas (extrair_data linhas d))
    as (_ & _ & _ & B1 & B2 & B3 & _).
  destruct (extrair_esporte_frame linhas
              (extrair_times linhas (extrair_data linhas d)))
    as (_ & _ & _ & C1 & C2 & C3 & _).
  cbv zeta in A1, A2, A3, B1, B2, B3.
  destruct (apostas_encontradas linhas) as [apostas err].
  cbn [fst snd].
  destruct apostas as [|a1 [|a2 [|a3 r]]];
    cbn [bet1 bet2 bet3 teamA teamB sport league profitPercentage
         set_bet1 set_bet2 set_bet3 nth length];
    repeat split; congruence.
Qed.

Lemma processar_pagina_bem_formado (texto : text) (d : dados) :
  registro_bem_formado d ->
  registro_bem_formado (fst (fst (processar_pagina texto d))).
Proof.
  intros (I1 & I2 & I3 & I4 & I5 & I6 & I7 & I8 & I9 & I10).
  destruct (processar_pagina_fields texto d)
    as (F1 & F2 & F3 & _ & F5 & F6 & F7 & F8 & F9).
  cbv zeta in F1, F2, F3, F5, F6, F7, F8, F9.
  set (linhas := linhas_da_pagina texto) in *.
  destruct (extrair_data_frame linhas d)
    as (A1 & A2 & A3 & A4 & _ & _ & _ & A8). cbv zeta in A1, A2, A3, A4, A8.
  assert (PP : nao_negativo
                 (profitPercentage (extrair_times linhas (extrair_data linhas d))))
    by (apply extrair_times_percent; rewrite A8; exact I10).
  destruct (extrair_times_frame linhas (extrair_data linhas d))
    as (_ & B2 & B3 & _ & _ & _ & B7). cbv zeta in B2, B3, B7.
  destruct (extrair_esporte_frame linhas
              (extrair_times linhas (extrair_data linhas d)))
    as (_ & C2 & C3 & _ & _ & _ & C7 & C8).
  assert (L : forall k a0, aposta_bem_formada a0 ->
              aposta_bem_formada (nth k (fst (apostas_encontradas linhas)) a0)).
  { intros k a0 H0.
    destruct (nth_in_or_default k (fst (apostas_encontradas linhas)) a0)
      as [Hin | Hd]; [|rewrite Hd; exact H0].
    right. eapply apostas_encontradas_aceitas. exact Hin. }
  unfold registro_bem_formado.
  rewrite F1, F2, F3, F5, F6, F7, F8, F9, C2, C3, C7.
  split; [apply L, I1|]. split; [apply L, I2|]. split; [apply L, I3|].
  assert (T : (teamA (extrair_times linhas (extrair_data linhas d)) = None
               <-> teamB (extrair_times linhas (extrair_data linhas d)) = None)
              /\ campo_limpo (teamA (extrair_times linhas (extrair_data linhas d)))
              /\ campo_limpo (teamB (extrair_times linhas (extrair_data linhas d)))).
  { destruct B7 as [[Ta Tb]|(a & b & Ta & Tb)]; rewrite Ta, Tb.
    - rewrite A3, A4. repeat split; tauto.
    - repeat split; try discriminate; apply campo_limpo_strip. }
  destruct T as (T1 & T2 & T3).
  assert (S : (sport (extrair_esporte linhas
                        (extrair_times linhas (extrair_data linhas d))) = None
               <-> league (extrair_esporte linhas
                        (extrair_times linhas (extrair_data linhas d))) = None)
              /\ campo_limpo (sport (extrair_esporte linhas
                        (extrair_times linhas (extrair_data linhas d))))
              /\ campo_limpo (league (extrair_esporte linhas
                        (extrair_times linhas (extrair_data linhas d))))).
  { destruct C8 as [[Sa Sb]|(a & b & Sa & Sb)]; rewrite Sa, Sb.
    - rewrite B2, B3, A1, A2. repeat split; tauto.
    - repeat split; try discriminate; apply campo_limpo_strip. }
  tauto.
Qed.

Lemma dados_iniciais_bem_formado : registro_bem_formado dados_iniciais.
Proof.
  unfold registro_bem_formado, dados_iniciais. cbn.
  repeat split; try (left; reflexivity); try tauto; intros t E; discriminate.
Qed.

Lemma processar_paginas_bem_formado (paginas : list pagina) :
  forall d, registro_bem_formado d ->
            registro_bem_formado (fst (fst (processar_paginas paginas d))).
Proof.
  induction paginas as [|p r IH]; intros d H; [exact H|].
  cbn [processar_paginas]. destruct p as [texto| |e]; [|apply IH; exact H|exact H].
  destruct (negb (Py.truthy texto)); [apply IH; exact H|].
  pose proof (processar_pagina_bem_formado texto d H) as H'.
  destruct (processar_pagina texto d) as [[d' n] err]. cbn [fst] in H'.
  destruct (dados_suficientes d' n); [exact H'|].
  specialize (IH d' H').
  destruct (processar_paginas r d') as [[d'' err'] k]. exact IH.
Qed.

(** X12. Whatever the document, the record assembler returns a record (it
    raises nothing) in which each of bet1, bet2 and bet3 is either all null
    or has a house, an odd above zero and no negative stake or profit; teamA
    and teamB are null together, sport and league are null together, these
    four strings have no white space at their ends, and the profit
    percentage is not negative. *)
Theorem returned_record_is_well_formed
    (abrir : text -> documento) (caminho_pdf : text) :
  exists d err n,
    extrair_dados_pdf abrir caminho_pdf = (Retorno d, err, n)
    /\ registro_bem_formado d.
Proof.
  unfold extrair_dados_pdf. destruct (abrir caminho_pdf) as [paginas|e].
  - pose proof (processar_paginas_bem_formado (firstn 2 paginas)
                  dados_iniciais dados_iniciais_bem_formado) as H.
    destruct (processar_paginas (firstn 2 paginas) dados_iniciais)
      as [[d err] n].
    exists d, err, n. split; [reflexivity | exact H].
  - exists dados_iniciais, [erro_pdf e], 0.
    split; [reflexivity | apply dados_iniciais_bem_formado].
Qed.

(** X13. The legs accepted on a page fill bet1, bet2 and bet3 in the order
    of detection, and a fourth leg is dropped; a slot for which the page has
    no leg keeps what an earlier page stored there, and a slot for which it
    has one is overwritten: the legs of a later page are not appended after
    those of an earlier one. *)
Theorem page_legs_fill_slots_in_order (texto : text) (d : dados) :
  let legs := fst (apostas_encontradas (linhas_da_pagina texto)) in
  let d' := fst (fst (processar_pagina texto d)) in
  bet1 d' = nth 0 legs (bet1 d)
  /\ bet2 d' = nth 1 legs (bet2 d)
  /\ bet3 d' = nth 2 legs (bet3 d)
  /\ snd (fst (processar_pagina texto d)) = length legs.
Proof.
  destruct (processar_pagina_fields texto d) as (F1 & F2 & F3 & F4 & _).
  cbv zeta in *. repeat split; assumption.
Qed.

Lemma preprocessar_blank (texto : text) :
  visiveis texto = [] -> preprocessar_linhas_quebradas texto = [].
Proof.
  intros V. unfold preprocessar_linhas_quebradas.
  pose proof (juntar_linhas_logicas (length (Py.split_char nl texto))
                (Py.split_char nl texto) (Nat.le_refl _)
                (fun l => split_char_no_sep nl texto l)) as HL.
  pose proof (visiveis_juntar_linhas (length (Py.split_char nl texto))
                (Py.split_char nl texto) (Nat.le_refl _)) as Hvis.
  rewrite visiveis_split, V in Hvis.
  destruct (juntar_linhas (Py.split_char nl texto)) as [|x r]; [reflexivity|].
  exfalso. inversion HL as [|? ? (Nx & Ax & _) _]; subst.
  cbn [map concat] in Hvis. apply app_eq_nil in Hvis as [Hx _].
  destruct x as [|c x']; [congruence|].
  simpl in Ax, Hx. destruct (Py.isspace c); discriminate.
Qed.

Lemma processar_pagina_blank (texto : text) (d : dados) :
  visiveis texto = [] -> processar_pagina texto d = (d, 0, []).
Proof.
  intros V. unfold processar_pagina, linhas_da_pagina.
  rewrite (preprocessar_blank texto V). reflexivity.
Qed.

Lemma processar_paginas_blank (paginas : list pagina) :
  Forall pagina_em_branco paginas ->
  fst (processar_paginas paginas dados_iniciais) = (dados_iniciais, []).
Proof.
  induction 1 as [|p r Hp _ IH]; [reflexivity|].
  cbn [processar_paginas]. destruct p as [texto| |e]; [|exact IH|destruct Hp].
  destruct (negb (Py.truthy texto)); [exact IH|].
  rewrite (processar_pagina_blank texto dados_iniciais Hp).
  change (dados_suficientes dados_iniciais 0) with false. cbv iota.
  destruct (processar_paginas r dados_iniciais) as [[d err] n].
  cbn [fst] in *. injection IH as -> ->. reflexivity.
Qed.

(** X14. For a document whose first two pages have no text, or white space
    only, the program prints the record with every field null, writes no
    diagnostic and ends with status 0. *)
Theorem blank_document_gives_null_record
    (abrir : text -> documento) (script caminho_pdf : text)
    (paginas : list pagina) :
  abrir caminho_pdf = Aberto paginas ->
  Forall pagina_em_branco (firstn 2 paginas) ->
  main abrir [script; caminho_pdf] = Saida [json_dados dados_iniciais] [] 0.
Proof.
  intros A B.
  pose proof (processar_paginas_blank (firstn 2 paginas) B) as H.
  destruct (processar_paginas (firstn 2 paginas) dados_iniciais)
    as [[d err] n] eqn:P.
  cbn [fst] in H. injection H as -> ->.
  rewrite (main_of_record abrir script caminho_pdf dados_iniciais [] n).
  - rewrite print_null_record. reflexivity.
  - unfold extrair_dados_pdf. rewrite A, P. reflexivity.
Qed.

Lemma primeiro_erro_none (t : text) :
  forall i, primeiro_erro t i = None <-> imprimivel t = true.
Proof.
  induction t as [|c r IH]; intros i; cbn [primeiro_erro imprimivel forallb].
  - split; reflexivity.
  - destruct (codifica c); [apply IH|]. split; discriminate.
Qed.

(** X15. Without exactly one argument the program writes the usage line to
    the diagnostic stream, nothing to standard output, and ends with status
    1. With one argument the record assembler returns a record; when
    standard output has every character of its JSON text, that record is
    printed, with bet3, and the status is 0; when it lacks one, the handler
    of [main] adds its message to the diagnostic stream, prints the object
    without bet3 and ends with status 1. *)
Theorem main_status_and_output (abrir : text -> documento) (argv : list text) :
  let d := registro_de abrir (nth 1 argv []) in
  let out := main abrir argv in
  (length argv <> 2 -> out = Saida [] [uso] 1)
  /\ (length argv = 2 -> imprimivel (Json.dumps (json_dados d)) = true ->
      stdout out = [json_dados d] /\ status out = 0%Z
      /\ stderr out = snd (fst (extrair_dados_pdf abrir (nth 1 argv []))))
  /\ (length argv = 2 -> imprimivel (Json.dumps (json_dados d)) = false ->
      stdout out = [dados_vazio] /\ status out = 1%Z
      /\ exists e,
           stderr out
           = snd (fst (extrair_dados_pdf abrir (nth 1 argv [])))
             ++ [u "Erro fatal: " ++ e])
  /\ (status out = 1%Z <->
      length argv <> 2 \/ imprimivel (Json.dumps (json_dados d)) = false).
Proof.
  cbv zeta. destruct (Nat.eq_dec (length argv) 2) as [L|N].
  - destruct argv as [|script [|caminho [|x r]]]; try discriminate.
    cbn [nth]. unfold registro_de.
    destruct (extrair_dados_pdf_retorna abrir caminho) as (d & err & n & R).
    rewrite (main_of_record abrir script caminho d err n R), R.
    cbn [fst snd]. unfold print.
    destruct (primeiro_erro (Json.dumps (json_dados d)) 0) as [[i t]|] eqn:P.
    + assert (I : imprimivel (Json.dumps (json_dados d)) = false).
      { destruct (imprimivel _) eqn:I; [|reflexivity].
        apply (primeiro_erro_none _ 0) in I. congruence. }
      rewrite I. cbn [stdout status stderr].
      split; [intros H; elim H; exact L|].
      split; [discriminate|].
      split; [intros _ _; repeat split; eexists; reflexivity|].
      split; [intros _; right; reflexivity | reflexivity].
    + apply primeiro_erro_none in P. rewrite P. cbn [stdout status stderr].
      split; [intros H; elim H; exact L|].
      split; [intros _ _; repeat split|].
      split; [discriminate|].
      split; [discriminate | intros [H|H]; [elim H; exact L | discriminate]].
  - assert (M : main abrir argv = Saida [] [uso] 1).
    { unfold main. apply Nat.eqb_neq in N. rewrite N. reflexivity. }
    rewrite M. cbn [status stdout stderr].
    split; [reflexivity|].
    split; [intros L; elim N; exact L|].
    split; [intros L; elim N; exact L|].
    split; [intros _; left; exact N | reflexivity].
Qed.

End RecordFacts.

(** ** Examples for the properties above *)

Section ExtraExamples.
#[local] Existing Instance latin_cyrillic.
#[local] Existing Instance utf8.

(** The text that [main] prints for the slip with Cyrillic team names. *)
Example json_text_of_record :
  Json.dumps (json_dados (registro_de slip_cirilico (u "slip.pdf")))
  = aspas "{'date': '2024-05-10T18:30', 'sport': 'Futebol', 'league': 'Russia - Premier', 'teamA': 'Спартак', 'teamB': 'Зенит', 'bet1': {'house': 'Pinnacle', 'odd': 2.1, 'type': 'Casa', 'stake': 100.0, 'profit': 5.0}, 'bet2': {'house': 'Betano (BR)', 'odd': 3.4, 'type': 'Empate', 'stake': 60.0, 'profit': 5.0}, 'bet3': {'house': null, 'odd': null, 'type': null, 'stake': null, 'profit': null}, 'profitPercentage': 2.35}".
Proof. vm_compute. reflexivity. Qed.

(** On a standard output in code page 1252, which has no Cyrillic letters,
    the record of that slip cannot be printed: the handler of [main] runs,
    the object without bet3 is printed and the status is 1. In UTF-8 the
    record is printed. *)
Example cyrillic_names_on_cp1252 :
  main (Sd := cp1252) slip_cirilico [u "parse_pdf.py"; u "slip.pdf"]
  = Saida [dados_vazio]
          [u "Erro fatal: 'charmap' codec can't encode characters in position 89-95: character maps to <undefined>"]
          1
  /\ main (Sd := utf8) slip_cirilico [u "parse_pdf.py"; u "slip.pdf"]
     = Saida [json_dados (registro_de slip_cirilico (u "slip.pdf"))] [] 0.
Proof. vm_compute. split; reflexivity. Qed.

Lemma leg_window_is_bounded_witness :
  let linhas := linhas_da_pagina pagina_1 in
  3 < length linhas
  /\ 3 < pe_j (segmentar_aposta linhas 3 (u "Pinnacle"))
  /\ pe_j (segmentar_aposta linhas 3 (u "Pinnacle")) <= 3 + 8
  /\ pe_j (segmentar_aposta linhas 3 (u "Pinnacle")) <= length linhas.
Proof.
  cbv zeta.
  assert (H : 3 < length (linhas_da_pagina pagina_1))
    by (vm_compute; repeat constructor).
  split; [exact H|].
  exact (leg_window_is_bounded (linhas_da_pagina pagina_1) 3 (u "Pinnacle") H).
Defined.

Lemma saved_remainders_are_never_used_witness :
  let fr := completar_casa 3 linhas_com_resto 0 (Fragmentos (0 + 1) [] [] []) in
  let st := Corpo (fr_j fr) (nth 0 linhas_com_resto []) [] in
  linhas_usadas_fragmentos fr = [1]
  /\ linhas_parcialmente_usadas fr = [(1, u "escanteios")]
  /\ fr_j fr <= co_j st
  /\ acumular_corpo 8 linhas_com_resto 0 (u "Pinnacle Xyzabc") fr st
     = acumular_corpo 8 linhas_com_resto 0 (u "Pinnacle Xyzabc")
         (Fragmentos (fr_j fr) (fragmentos_casa fr) [] []) st
  /\ texto_aposta
       (acumular_corpo 8 linhas_com_resto 0 (u "Pinnacle Xyzabc") fr st)
     = u "Pinnacle 2.10 ● 100.00 USD 5.00".
Proof.
  cbv zeta.
  assert (H : fr_j (completar_casa 3 linhas_com_resto 0
                      (Fragmentos (0 + 1) [] [] []))
              <= co_j (Corpo (fr_j (completar_casa 3 linhas_com_resto 0
                                      (Fragmentos (0 + 1) [] [] [])))
                             (nth 0 linhas_com_resto []) []))
    by (vm_compute; repeat constructor).
  split; [vm_compute; reflexivity|].
  split; [vm_compute; reflexivity|].
  split; [exact H|].
  split; [|vm_compute; reflexivity].
  exact (saved_remainders_are_never_used linhas_com_resto 0
           (u "Pinnacle Xyzabc") 8 _ H).
Defined.

Lemma blank_document_gives_null_record_witness :
  let abrir := fun _ : text => Aberto [SemTexto; Texto (u "  ")] in
  abrir (u "blank.pdf") = Aberto [SemTexto; Texto (u "  ")]
  /\ Forall pagina_em_branco (firstn 2 [SemTexto; Texto (u "  ")])
  /\ main abrir [u "parse_pdf.py"; u "blank.pdf"]
     = Saida [json_dados dados_iniciais] [] 0.
Proof.
  cbv zeta.
  assert (B : Forall pagina_em_branco (firstn 2 [SemTexto; Texto (u "  ")])).
  { repeat constructor. }
  split; [reflexivity|]. split; [exact B|].
  exact (blank_document_gives_null_record
           (fun _ : text => Aberto [SemTexto; Texto (u "  ")])
           (u "parse_pdf.py") (u "blank.pdf") _ eq_refl B).
Defined.

Lemma extracted_stake_nonnegative_witness :
  stake (processar_aposta_completa (u "KTO (BR) Vitória ● 100.00 USD 18.50")
                                   (u "KTO (BR)")) = Some 100.00%Q
  /\ (0 <= 100.00)%Q.
Proof.
  assert (S : stake (processar_aposta_completa
                       (u "KTO (BR) Vitória ● 100.00 USD 18.50") (u "KTO (BR)"))
              = Some 100.00%Q) by (vm_compute; reflexivity).
  split; [exact S|].
  exact (extracted_stake_nonnegative _ _ _ S).
Defined.

(** The two-page scenario of the specification: the first page gives the
    team names and one leg, the second page one more leg. The leg of the
    second page takes the place of the first in bet1, and bet2 stays null. *)
Example second_page_overwrites_first_leg :
  let pagina_a := Py.join [nl] [u "Flamengo – Palmeiras 2.35%";
                                u "Pinnacle Casa 2.10 ● 100.00 USD 5.00"] in
  let pagina_b := u "Betano (BR) Empate 3.40 ● 60.00 USD 5.00" in
  map house (fst (apostas_encontradas (linhas_da_pagina pagina_a)))
  = [Some (u "Pinnacle")]
  /\ exists d err,
       extrair_dados_pdf (fun _ => Aberto [Texto pagina_a; Texto pagina_b])
                         (u "slip.pdf")
       = (Retorno d, err, 2)
       /\ teamA d = Some (u "Flamengo")
       /\ house (bet1 d) = Some (u "Betano (BR)")
       /\ house (bet2 d) = None.
Proof.
  cbv zeta. split; [vm_compute; reflexivity|].
  eexists. eexists. split; [vm_compute; reflexivity|]. repeat split.
Qed.

End ExtraExamples.
